(** * SAHAYAK AI: client-side logic and the record life cycles it relies on

    A shallow embedding of the JavaScript of the web client
    (App.jsx, api/client.js, pages/History.jsx), with the properties
    stated about it.  The FastAPI backend is not embedded from code; where
    a property is about a backend function, that function is modelled from
    its specification and the definition says so. *)

From Stdlib Require Import ZArith Ascii String List Bool Lia.
From stdpp Require Import base option gmap strings list pretty.
Import ListNotations.

Local Open Scope string_scope.

(** ** JavaScript values and completions *)

(** The values that reach the places where the code tests for truthiness
    or reads a property through [?.]. *)
Inductive JsVal : Type :=
| JUndefined
| JNull
| JStr (s : string)
| JNum (n : Z)
| JBool (b : bool).

(** ToBoolean, restricted to [JsVal]. *)
Definition truthy (v : JsVal) : bool :=
  match v with
  | JUndefined | JNull => false
  | JStr s => negb (String.eqb s "")
  | JNum n => negb (Z.eqb n 0)
  | JBool b => b
  end.

Definition nullish (v : JsVal) : bool :=
  match v with
  | JUndefined | JNull => true
  | _ => false
  end.

(** A call either completes with a value or throws. *)
Inductive Completion (A : Type) : Type :=
| Normal (a : A)
| Throw (msg : string).
Arguments Normal {A} a.
Arguments Throw {A} msg.

(** ** App.jsx: SmartDashboard *)

Module App.

Record User : Type := mkUser {
  name : JsVal;
  role : JsVal
}.

Inductive Component : Type :=
| CRPDashboard
| DIETDashboard
| TeacherDashboard.

(** A rendered element: the component chosen and the [user] prop it gets. *)
Record Element : Type := mkElement {
  component : Component;
  user_prop : option User
}.

Section Dispatch.

(** [String.prototype.toLowerCase] is the engine's; the dispatch is
    stated for any such function. *)
Variable toLowerCase : string -> string.

(** [user?.role?.toLowerCase()]: [undefined] when the user or the role is
    nullish, a [TypeError] when the role is not a string. *)
Definition role_of (user : option User) : Completion (option string) :=
  match user with
  | None => Normal None
  | Some u =>
      match role u with
      | JUndefined | JNull => Normal None
      | JStr s => Normal (Some (toLowerCase s))
      | JNum _ | JBool _ => Throw "user.role.toLowerCase is not a function"
      end
  end.

(** The [switch]: cases are compared with [===] in source order. *)
Definition switch_role (r : option string) : Component :=
  match r with
  | Some s =>
      if String.eqb s "crp" then CRPDashboard
      else if String.eqb s "diet" then DIETDashboard
      else if String.eqb s "teacher" then TeacherDashboard
      else TeacherDashboard
  | None => TeacherDashboard
  end.

Definition SmartDashboard (user : option User) : Completion Element :=
  match role_of user with
  | Normal r => Normal (mkElement (switch_role r) user)
  | Throw e => Throw e
  end.

End Dispatch.

(** ASCII lower-casing, the restriction of [toLowerCase] to the code units
    the role names are written in. *)
Definition lower_ascii (c : ascii) : ascii :=
  let n := nat_of_ascii c in
  if (65 <=? n)%nat && (n <=? 90)%nat then ascii_of_nat (n + 32) else c.

Fixpoint toLowerCase_ascii (s : string) : string :=
  match s with
  | EmptyString => EmptyString
  | String c s' => String (lower_ascii c) (toLowerCase_ascii s')
  end.

End App.

(** ** String helpers shared by the pages *)

(** [String.prototype.includes]: [sub] occurs in [s] at some position. *)
Fixpoint includes (s sub : string) : bool :=
  if String.prefix sub s then true
  else match s with
       | EmptyString => false
       | String _ s' => includes s' sub
       end.

(** Split at every occurrence of the separator character, as
    [String.prototype.split] does for a one-character separator. *)
Fixpoint split_on (c : ascii) (s : string) : list string :=
  match s with
  | EmptyString => [EmptyString]
  | String a s' =>
      if Ascii.eqb a c then EmptyString :: split_on c s'
      else match split_on c s' with
           | [] => [String a EmptyString]
           | w :: ws => String a w :: ws
           end
  end.

(** Cut at the first occurrence of the separator: what is before it and,
    when the separator occurs, what is after it. *)
Fixpoint cut_first (c : ascii) (s : string) : string * option string :=
  match s with
  | EmptyString => (EmptyString, None)
  | String a s' =>
      if Ascii.eqb a c then (EmptyString, Some s')
      else let '(k, v) := cut_first c s' in (String a k, v)
  end.

Fixpoint join (sep : string) (l : list string) : string :=
  match l with
  | [] => EmptyString
  | [x] => x
  | x :: rest => x +:+ sep +:+ join sep rest
  end.

Fixpoint occurs (c : ascii) (s : string) : bool :=
  match s with
  | EmptyString => false
  | String a s' => Ascii.eqb a c || occurs c s'
  end.

(** ** api/client.js *)

Module Client.

(** The part of the browser the client touches. *)
Record Browser : Type := mkBrowser {
  localStorage : gmap string string;
  href : string
}.

Definition getItem (b : Browser) (k : string) : option string :=
  localStorage b !! k.

Definition removeItem (k : string) (b : Browser) : Browser :=
  mkBrowser (delete k (localStorage b)) (href b).

Definition set_href (u : string) (b : Browser) : Browser :=
  mkBrowser (localStorage b) u.

Inductive Method : Type := GET | POST | PUT.

(** An axios request configuration. [params] keeps the order in which the
    keys are written; [data] is the body, when there is one. *)
Record Config : Type := mkConfig {
  baseURL : string;
  url : string;
  method : Method;
  headers : gmap string string;
  params : list (string * JsVal);
  data : option string
}.

Definition set_header (k v : string) (c : Config) : Config :=
  mkConfig (baseURL c) (url c) (method c) (<[k := v]> (headers c))
           (params c) (data c).

(** [axios.create({ baseURL, headers })] followed by [api.get], [api.post]
    or [api.put]. *)
Definition defaults (m : Method) (u : string) (ps : list (string * JsVal))
    (d : option string) : Config :=
  mkConfig "http://localhost:8000/api/v1" u m
           {[ "Content-Type" := "application/json" ]} ps d.

(** Request interceptor, the fulfilled handler. *)
Definition request_interceptor (b : Browser) (config : Config) : Config :=
  match getItem b "token" with
  | Some token =>
      if truthy (JStr token)
      then set_header "Authorization" ("Bearer " +:+ token) config
      else config
  | None => config
  end.

Record Response : Type := mkResponse {
  status : Z;
  body : string
}.

(** The error axios rejects with; [response] is absent when the request
    got no answer (network failure, timeout). *)
Record AxiosError : Type := mkError {
  response : option Response
}.

Inductive Settled : Type :=
| Fulfilled (r : Response)
| Rejected (e : AxiosError).

(** Response interceptor: [(response) => response]. *)
Definition on_fulfilled (b : Browser) (r : Response) : Browser * Settled :=
  (b, Fulfilled r).

(** [error.response?.status === 401] *)
Definition is_401 (e : AxiosError) : bool :=
  match response e with
  | Some r => Z.eqb (status r) 401
  | None => false
  end.

(** Response interceptor: the error handler. *)
Definition on_rejected (b : Browser) (error : AxiosError) : Browser * Settled :=
  let b' :=
    if is_401 error
    then set_href "/login" (removeItem "user" (removeItem "token" b))
    else b in
  (b', Rejected error).

(** What comes back from the network. *)
Inductive Outcome : Type :=
| Answer (r : Response)
| NoAnswer.

(** axios' default [validateStatus]. *)
Definition validateStatus (s : Z) : bool :=
  Z.leb 200 s && Z.ltb s 300.

(** How axios settles a request and runs the response interceptor. *)
Definition receive (b : Browser) (o : Outcome) : Browser * Settled :=
  match o with
  | Answer r =>
      if validateStatus (status r) then on_fulfilled b r
      else on_rejected b (mkError (Some r))
  | NoAnswer => on_rejected b (mkError None)
  end.

(** *** URLSearchParams *)

(** ToString, for the values appended to the query. *)
Definition to_string (v : JsVal) : string :=
  match v with
  | JUndefined => "undefined"
  | JNull => "null"
  | JStr s => s
  | JNum n => pretty n
  | JBool true => "true"
  | JBool false => "false"
  end.

(** Bytes the application/x-www-form-urlencoded serializer leaves as they
    are: ASCII letters and digits, and the characters * - . _ *)
Definition unreserved (c : ascii) : bool :=
  let n := nat_of_ascii c in
  ((48 <=? n)%nat && (n <=? 57)%nat) ||
  ((65 <=? n)%nat && (n <=? 90)%nat) ||
  ((97 <=? n)%nat && (n <=? 122)%nat) ||
  Ascii.eqb c "*" || Ascii.eqb c "-" || Ascii.eqb c "." || Ascii.eqb c "_".

Definition hex_digit (n : nat) : ascii :=
  match String.get n "0123456789ABCDEF" with
  | Some c => c
  | None => "0"%char
  end.

Definition encode_byte (c : ascii) : string :=
  if Ascii.eqb c " " then "+"
  else if unreserved c then String c EmptyString
  else let n := nat_of_ascii c in
       String "%" (String (hex_digit (n / 16)) (String (hex_digit (n mod 16)) EmptyString)).

(** Strings hold the UTF-8 bytes of the text, which is what the serializer
    percent-encodes. *)
Fixpoint urlencode (s : string) : string :=
  match s with
  | EmptyString => EmptyString
  | String c s' => encode_byte c +:+ urlencode s'
  end.

(** The value of a hexadecimal digit, and the parser's percent-decoding,
    which undoes [urlencode] on the receiving side. *)
Definition hex_value (c : ascii) : option nat :=
  let n := nat_of_ascii c in
  if (48 <=? n)%nat && (n <=? 57)%nat then Some (n - 48)
  else if (65 <=? n)%nat && (n <=? 70)%nat then Some (n - 55)
  else if (97 <=? n)%nat && (n <=? 102)%nat then Some (n - 87)
  else None.

Fixpoint urldecode (s : string) : string :=
  match s with
  | EmptyString => EmptyString
  | String c s' =>
      if Ascii.eqb c "+" then String " " (urldecode s')
      else if Ascii.eqb c "%" then
        match s' with
        | String h (String l s'') =>
            match hex_value h, hex_value l with
            | Some a, Some b => String (ascii_of_nat (16 * a + b)) (urldecode s'')
            | _, _ => String c (urldecode s')
            end
        | _ => String c (urldecode s')
        end
      else String c (urldecode s')
  end.

(** A [URLSearchParams] object: the name/value pairs in insertion order. *)
Definition URLSearchParams : Type := list (string * string).

Definition append (k : string) (v : JsVal) (ps : URLSearchParams) : URLSearchParams :=
  (ps ++ [(k, to_string v)])%list.

Definition serialize_pair (p : string * string) : string :=
  urlencode (fst p) +:+ "=" +:+ urlencode (snd p).

Definition toString (ps : URLSearchParams) : string :=
  join "&" (map serialize_pair ps).

(** *** sosAPI.quick *)

(** A default parameter value replaces [undefined] only. *)
Definition default_param (d v : JsVal) : JsVal :=
  match v with
  | JUndefined => d
  | _ => v
  end.

Definition quick_params (rawInput : string) (subject grade : JsVal) : URLSearchParams :=
  let subject := default_param JNull subject in
  let grade := default_param JNull grade in
  let params := [("raw_input", rawInput)] in
  let params := if truthy subject then append "subject" subject params else params in
  let params := if truthy grade then append "grade" grade params else params in
  params.

Definition quick_url (rawInput : string) (subject grade : JsVal) : string :=
  "/sos/quick?" +:+ toString (quick_params rawInput subject grade).

(** The request [sosAPI.quick] posts. *)
Definition quick (rawInput : string) (subject grade : JsVal) : Config :=
  defaults POST (quick_url rawInput subject grade) [] None.

(** The query string of a URL and the name/value pairs written in it, as
    the receiving side reads them: what follows the first [?], cut at every
    [&], each piece cut at its first [=]. *)
Definition query_of (u : string) : string :=
  match snd (cut_first "?" u) with
  | Some q => q
  | None => EmptyString
  end.

Definition pair_of (piece : string) : string * string :=
  let '(k, v) := cut_first "=" piece in
  (k, match v with Some v => v | None => EmptyString end).

Definition query_pairs (u : string) : list (string * string) :=
  map pair_of (split_on "&" (query_of u)).

Definition has_key (k : string) (u : string) : bool :=
  existsb (fun p => String.eqb (fst p) k) (query_pairs u).

(** *** dashboardAPI *)

Definition getTeacher : Config :=
  defaults GET "/dashboard/teacher" [] None.

Definition getCRP (days : JsVal) : Config :=
  let days := default_param (JNum 7) days in
  defaults GET "/dashboard/crp" [("days", days)] None.

Definition getDIET (days : JsVal) : Config :=
  let days := default_param (JNum 7) days in
  defaults GET "/dashboard/diet" [("days", days)] None.

Definition getOverview : Config :=
  defaults GET "/dashboard/overview" [] None.

End Client.

(** ** pages/History.jsx *)

Module History.

(** A row of the history list, as [GET /sos/] returns it. *)
Record SOS : Type := mkSOS {
  id : string;
  raw_input : string;
  subject : option string;
  status : string
}.

Section Filter.

Variable toLowerCase : string -> string.

(** [sos.raw_input.toLowerCase().includes(q) ||
     sos.subject?.toLowerCase().includes(q)]: the right operand is
    [undefined] when the subject is null. *)
Definition matchesSearch (searchQuery : string) (sos : SOS) : JsVal :=
  if includes (toLowerCase (raw_input sos)) (toLowerCase searchQuery)
  then JBool true
  else match subject sos with
       | Some s => JBool (includes (toLowerCase s) (toLowerCase searchQuery))
       | None => JUndefined
       end.

(** [filter === 'all' || sos.status === filter] *)
Definition matchesFilter (filter : string) (sos : SOS) : bool :=
  String.eqb filter "all" || String.eqb (status sos) filter.

(** [matchesFilter && matchesSearch], the value the callback returns. *)
Definition keep (filter searchQuery : string) (sos : SOS) : JsVal :=
  if matchesFilter filter sos then matchesSearch searchQuery sos
  else JBool false.

Definition filteredRequests (sosRequests : list SOS)
    (filter searchQuery : string) : list SOS :=
  List.filter (fun sos => truthy (keep filter searchQuery sos)) sosRequests.

(** The reading of the page's search, in words: [s] contains [q] once
    both are lower-cased. *)
Definition contains_ci (s q : string) : Prop :=
  exists before after,
    toLowerCase s = before +:+ toLowerCase q +:+ after.

End Filter.

Inductive Icon : Type := CheckCircle | XCircle | Clock | AlertCircle.

Definition getStatusIcon (status : string) : Icon :=
  if String.eqb status "resolved" then CheckCircle
  else if String.eqb status "failed" then XCircle
  else if String.eqb status "processing" then Clock
  else AlertCircle.

(** The filter buttons rendered above the list. *)
Definition filter_buttons : list string :=
  ["all"; "resolved"; "processing"; "pending"; "failed"].

Definition getStatusColor (status : string) : string :=
  if String.eqb status "resolved" then "bg-secondary-50 text-secondary-700"
  else if String.eqb status "failed" then "bg-red-50 text-red-700"
  else if String.eqb status "processing" then "bg-accent-50 text-accent-700"
  else "bg-slate-100 text-slate-600".

End History.

(** ** Request life cycle *)

Module Lifecycle.

(** Modelled from the spec: the Request document and the code that updates
    its status live in the backend (db/models, api/v1/sos.py), which is not
    among the sources.  The status has four values and progresses
    pending -> processing -> resolved | failed; nothing leads out of
    resolved or failed. *)
Inductive Status : Type := Pending | Processing | Resolved | Failed.

Definition status_name (s : Status) : string :=
  match s with
  | Pending => "pending"
  | Processing => "processing"
  | Resolved => "resolved"
  | Failed => "failed"
  end.

Definition status_eqb (a b : Status) : bool :=
  match a, b with
  | Pending, Pending | Processing, Processing
  | Resolved, Resolved | Failed, Failed => true
  | _, _ => false
  end.

(** Modelled from the spec: the statuses a status may progress to. *)
Definition successors (s : Status) : list Status :=
  match s with
  | Pending => [Processing]
  | Processing => [Resolved; Failed]
  | Resolved => []
  | Failed => []
  end.

Definition allowed (s s' : Status) : bool :=
  existsb (status_eqb s') (successors s).

(** Modelled from the spec: the Request entity of the data model. *)
Record Request : Type := mkRequest {
  req_id : nat;
  author : nat;
  raw_text : string;
  detected_subject : option string;
  detected_grade : option string;
  req_status : Status;
  timestamp : Z
}.

Definition with_status (s : Status) (r : Request) : Request :=
  mkRequest (req_id r) (author r) (raw_text r) (detected_subject r)
            (detected_grade r) s (timestamp r).

(** Modelled from the spec: a Request is created pending, on submission. *)
Definition submit (i a : nat) (text : string) (now : Z) : Request :=
  mkRequest i a text None None Pending now.

(** Modelled from the spec: a status change is the only mutation of a
    Request, and it is applied when the progression allows it. *)
Definition set_status (s' : Status) (r : Request) : option Request :=
  if allowed (req_status r) s' then Some (with_status s' r) else None.

(** A sequence of attempted status changes; a refused one leaves the
    record as it is.  The second component lists the statuses the record
    went through, oldest first. *)
Fixpoint run (attempts : list Status) (r : Request) : Request * list Status :=
  match attempts with
  | [] => (r, [])
  | s' :: rest =>
      match set_status s' r with
      | Some r' => let '(r'', h) := run rest r' in (r'', s' :: h)
      | None => run rest r
      end
  end.

End Lifecycle.

(** ** Shared solutions and votes *)

Module Knowledge.

(** Modelled from the spec: the SharedSolution entity and the handlers of
    [POST /knowledge/share] and [POST /knowledge/library/{id}/vote] are in
    the backend (api/v1/knowledge.py), which is not among the sources.  A
    solution is created on share with an empty tally and a vote is an
    atomic increment of the tally; no operation removes a solution.  The
    trust score, which the spec names without saying how it is computed, is
    left out. *)
Record SharedSolution : Type := mkSolution {
  author : nat;
  content : string;
  votes : nat
}.

Inductive Op : Type :=
| Share (author : nat) (content : string)
| Vote (id : nat).

Definition upvote (s : SharedSolution) : SharedSolution :=
  mkSolution (author s) (content s) (S (votes s)).

(** Modelled from the spec: one operation, applied atomically to the
    collection. *)
Definition step (st : gmap nat SharedSolution) (op : Op) : gmap nat SharedSolution :=
  match op with
  | Share a c => <[fresh (dom st) := mkSolution a c 0]> st
  | Vote i => alter upvote i st
  end.

Definition run (ops : list Op) (st : gmap nat SharedSolution) : gmap nat SharedSolution :=
  fold_left step ops st.

(** Concurrent clients: each issues its operations in order, and the store
    applies them one at a time in some interleaving. *)
Inductive interleave {A : Type} : list (list A) -> list A -> Prop :=
| interleave_nil ts :
    Forall (fun t => t = []) ts -> interleave ts []
| interleave_cons ts1 x t ts2 rest :
    interleave (ts1 ++ t :: ts2)%list rest ->
    interleave (ts1 ++ (x :: t) :: ts2)%list (x :: rest).

End Knowledge.

(** ** AI gateway adapter *)

Module Gateway.

(** Modelled from the spec: the tags context extraction hands to the
    prompt; each may be missing. *)
Record Context : Type := mkContext {
  subject : option string;
  grade : option string;
  topic : option string;
  urgency : option string
}.

(** Modelled from the spec: the Playbook entity with the fields the adapter
    parses. *)
Record Playbook : Type := mkPlaybook {
  title : string;
  summary : string;
  immediate_actions : list string;
  recovery_steps : list string;
  alternatives : list string;
  tips : list string
}.

(** What a call to the hosted model comes back with. *)
Inductive ModelOutcome : Type :=
| Replied (text : string)
| NetworkFailure
| TimedOut.

(** What the endpoint sends to the user. *)
Record HttpReply : Type := mkReply {
  code : Z;
  playbook : option Playbook;
  error_message : option string
}.

Section Adapter.

(** The hosted model: the outcome of the call made when [n] calls were
    made before it. *)
Variable external_model : nat -> string -> ModelOutcome.
(** The fixed prompt template, the parser of the structured response and
    the static playbook; the spec names them and gives no content. *)
Variable build_prompt : Context -> string -> string.
Variable parse : string -> Playbook.
Variable fallback_playbook : Playbook.

(** Modelled from the spec: the adapter (services/gemini_service.py is not
    among the sources).  It calls the model once; on a network or timeout
    failure it returns the static playbook.  The number threaded through
    counts the calls made to the model. *)
Definition generate (ctx : Context) (raw : string) (calls : nat)
    : Completion Playbook * nat :=
  match external_model calls (build_prompt ctx raw) with
  | Replied text => (Normal (parse text), S calls)
  | NetworkFailure => (Normal fallback_playbook, S calls)
  | TimedOut => (Normal fallback_playbook, S calls)
  end.

(** Modelled from the spec: the endpoint answers with the playbook; only
    an exception of the adapter would surface as an error. *)
Definition respond (c : Completion Playbook) : HttpReply :=
  match c with
  | Normal p => mkReply 200 (Some p) None
  | Throw m => mkReply 500 None (Some m)
  end.

Definition sos_submit (ctx : Context) (raw : string) (calls : nat)
    : HttpReply * nat :=
  let '(c, calls') := generate ctx raw calls in (respond c, calls').

End Adapter.

End Gateway.

(** ** Dashboard aggregation *)

Module Analytics.

Import Lifecycle.

Inductive Role : Type := Teacher | CRP | DIET.

(** Modelled from the spec: the persisted collections the dashboards read,
    the submitted requests and the shared solutions (the document models
    are not among the sources). *)
Record Store : Type := mkStore {
  requests : list Request;
  solutions : list Knowledge.SharedSolution
}.

(** Modelled from the spec: a row of the leaderboard, a teacher with the
    number of solutions shared, the votes they received and the weighted
    score the ranking goes by. *)
Record Entry : Type := mkEntry {
  teacher : nat;
  solutions_shared : nat;
  helpful_votes : nat;
  score : nat
}.

(** Modelled from the spec: what a dashboard returns: the total, the
    per-subject counts and the per-day activity of the requests, and the
    leaderboard. *)
Record Dashboard : Type := mkDashboard {
  total : nat;
  per_subject : gmap (option string) nat;
  per_day : gmap Z nat;
  leaderboard : list Entry
}.

Definition bump `{Countable K} (k : K) (m : gmap K nat) : gmap K nat :=
  <[k := S (default 0 (m !! k))]> m.

Definition day_of (t : Z) : Z := (t / 86400)%Z.

(** One more solution of teacher [t], with [v] votes, in the tally of
    solutions and votes per teacher. *)
Definition credit (t v : nat) (m : gmap nat (nat * nat)) : gmap nat (nat * nat) :=
  <[t := (S (fst (default (0, 0) (m !! t))),
          snd (default (0, 0) (m !! t)) + v)]> m.

(** The ranking: rows in descending order of score. *)
Fixpoint insert_ranked (e : Entry) (l : list Entry) : list Entry :=
  match l with
  | [] => [e]
  | x :: rest =>
      if Nat.ltb (score x) (score e) then e :: l
      else x :: insert_ranked e rest
  end.

Definition rank (l : list Entry) : list Entry :=
  fold_right insert_ranked [] l.

Fixpoint descending (l : list Entry) : Prop :=
  match l with
  | a :: rest =>
      match rest with
      | b :: _ => score b <= score a
      | [] => True
      end /\ descending rest
  | [] => True
  end.

(** Modelled from the spec: what a handler does with the document store,
    reads of a collection and writes to it, in the order it does them. *)
Inductive Handler (A : Type) : Type :=
| Return (a : A)
| FindRequests (k : list Request -> Handler A)
| FindSolutions (k : list Knowledge.SharedSolution -> Handler A)
| InsertRequest (r : Request) (k : Handler A)
| InsertSolution (s : Knowledge.SharedSolution) (k : Handler A).
Arguments Return {A} a.
Arguments FindRequests {A} k.
Arguments FindSolutions {A} k.
Arguments InsertRequest {A} r k.
Arguments InsertSolution {A} s k.

(** Running a handler on a store: the store it leaves and its answer. *)
Fixpoint exec {A : Type} (h : Handler A) (s : Store) : Store * A :=
  match h with
  | Return a => (s, a)
  | FindRequests k => exec (k (requests s)) s
  | FindSolutions k => exec (k (solutions s)) s
  | InsertRequest r k => exec k (mkStore (requests s ++ [r]) (solutions s))
  | InsertSolution x k => exec k (mkStore (requests s) (solutions s ++ [x]))
  end.

(** The number of writes a handler performs when run on a store. *)
Fixpoint writes {A : Type} (h : Handler A) (s : Store) : nat :=
  match h with
  | Return _ => 0
  | FindRequests k => writes (k (requests s)) s
  | FindSolutions k => writes (k (solutions s)) s
  | InsertRequest r k => S (writes k (mkStore (requests s ++ [r]) (solutions s)))
  | InsertSolution x k => S (writes k (mkStore (requests s) (solutions s ++ [x])))
  end.

Section Aggregate.

(** Which requests, and which teachers, a role may see for a given viewer;
    the spec names the scope and does not define it. *)
Variable in_scope : Role -> nat -> Request -> bool.
Variable teacher_in_scope : Role -> nat -> nat -> bool.
(** The weights of the score; the spec calls it a simple weighted score of
    shares and votes and gives no numbers. *)
Variables share_weight vote_weight : nat.

(** Modelled from the spec: the filter of a dashboard query, a role scope
    and a window of [days] days ending at [now] (seconds). *)
Definition matches (role : Role) (viewer : nat) (days now : Z) (r : Request) : bool :=
  in_scope role viewer r && Z.leb (now - days * 86400) (timestamp r).

Definition count_in (r : Request) (d : Dashboard) : Dashboard :=
  mkDashboard (S (total d))
              (bump (detected_subject r) (per_subject d))
              (bump (day_of (timestamp r)) (per_day d))
              (leaderboard d).

(** Modelled from the spec: shares and votes per teacher in scope, one pass
    over the shared solutions. *)
Definition tally (role : Role) (viewer : nat)
    (shared : list Knowledge.SharedSolution) : gmap nat (nat * nat) :=
  fold_left
    (fun m x =>
       if teacher_in_scope role viewer (Knowledge.author x)
       then credit (Knowledge.author x) (Knowledge.votes x) m else m)
    shared ∅.

Definition entry_of (row : nat * (nat * nat)) : Entry :=
  mkEntry (fst row) (fst (snd row)) (snd (snd row))
          (share_weight * fst (snd row) + vote_weight * snd (snd row)).

(** Modelled from the spec: the leaderboard, ranked by the weighted score
    of shares and votes. *)
Definition leaderboard_of (role : Role) (viewer : nat)
    (shared : list Knowledge.SharedSolution) : list Entry :=
  rank (map entry_of (map_to_list (tally role viewer shared))).

(** Modelled from the spec: the aggregation (services/analytics_service.py
    is not among the sources): one pass over the persisted requests,
    grouping and counting those the filter keeps, beside the leaderboard. *)
Definition aggregate (role : Role) (viewer : nat) (days now : Z)
    (db : list Request) (shared : list Knowledge.SharedSolution) : Dashboard :=
  fold_left
    (fun d r => if matches role viewer days now r then count_in r d else d)
    db (mkDashboard 0 ∅ ∅ (leaderboard_of role viewer shared)).

(** Modelled from the spec: the handler of [GET /dashboard/{role}]: it
    reads the two collections and answers with the aggregation. *)
Definition dashboard (role : Role) (viewer : nat) (days now : Z)
    : Handler Dashboard :=
  FindRequests (fun db =>
    FindSolutions (fun shared =>
      Return (aggregate role viewer days now db shared))).

End Aggregate.

(** Modelled from the spec: the handler of [POST /knowledge/share], for
    comparison a handler that writes. *)
Definition share (author : nat) (content : string) : Handler unit :=
  InsertSolution (Knowledge.mkSolution author content 0) (Return tt).

(** The counts a dashboard returns: the request counts, and the shares and
    votes of the leaderboard rows. *)
Definition counts_returned (d : Dashboard) : list nat :=
  (total d :: map snd (map_to_list (per_subject d))
   ++ map snd (map_to_list (per_day d))
   ++ flat_map (fun e => [solutions_shared e; helpful_votes e]) (leaderboard d))%list.

(** The role a dashboard URL of the client addresses. *)
Definition role_of_url (u : string) : option Role :=
  if String.eqb u "/dashboard/teacher" then Some Teacher
  else if String.eqb u "/dashboard/crp" then Some CRP
  else if String.eqb u "/dashboard/diet" then Some DIET
  else None.

End Analytics.

(** ** App.jsx: authentication state and routes *)

Module AppShell.

Definition setItem (k v : string) (b : Client.Browser) : Client.Browser :=
  Client.mkBrowser (<[k := v]> (Client.localStorage b)) (Client.href b).

(** The state of [App]: its three [useState] cells and the browser. *)
Record State : Type := mkState {
  isAuthenticated : bool;
  user : option App.User;
  loading : bool;
  browser : Client.Browser
}.

(** The state of a freshly loaded page. *)
Definition initial (b : Client.Browser) : State :=
  mkState false None true b.

Inductive Inner : Type :=
| SmartDashboardView (e : Completion App.Element)
| LegacyDashboard (u : option App.User)
| HistoryPage.

(** What [App] renders. [Blank] is the router's answer when no route
    matches. *)
Inductive Element : Type :=
| Spinner
| LandingPage
| LoginPage
| RegisterPage
| SOSPage
| DashboardLayout (u : option App.User) (child : Inner)
| Navigate (to : string)
| Blank.

Definition is_navigate (e : Element) : bool :=
  match e with
  | Navigate _ => true
  | _ => false
  end.

Definition is_protected (e : Element) : bool :=
  match e with
  | DashboardLayout _ _ => true
  | _ => false
  end.

Section Shell.

(** [JSON.stringify(userData)] as [setItem] stores it, and [JSON.parse],
    which throws on text that is not JSON; [None] is a null user. *)
Variable JSON_stringify : option App.User -> string.
Variable JSON_parse : string -> Completion (option App.User).
Variable toLowerCase : string -> string.
(** The router's test of a route pattern against a pathname. *)
Variable matchPath : string -> string -> bool.

(** The effect run on mount: [if (token && savedUser)]. *)
Definition mount (st : State) : Completion State :=
  let token := Client.getItem (browser st) "token" in
  let savedUser := Client.getItem (browser st) "user" in
  match token, savedUser with
  | Some t, Some u =>
      if truthy (JStr t) && truthy (JStr u) then
        match JSON_parse u with
        | Normal v => Normal (mkState true v false (browser st))
        | Throw m => Throw m
        end
      else Normal (mkState (isAuthenticated st) (user st) false (browser st))
  | _, _ => Normal (mkState (isAuthenticated st) (user st) false (browser st))
  end.

(** [setItem] stores the string conversion of its argument. *)
Definition handleLogin (userData : option App.User) (token : JsVal)
    (st : State) : State :=
  mkState true userData (loading st)
          (setItem "user" (JSON_stringify userData)
             (setItem "token" (Client.to_string token) (browser st))).

Definition handleLogout (st : State) : State :=
  mkState false None (loading st)
          (Client.removeItem "user" (Client.removeItem "token" (browser st))).

(** The [<Route>] elements, in source order. *)
Definition routes : list (string * (State -> Element)) :=
  [ ("/", fun _ => LandingPage);
    ("/login", fun st =>
       if isAuthenticated st then Navigate "/dashboard" else LoginPage);
    ("/register", fun st =>
       if isAuthenticated st then Navigate "/dashboard" else RegisterPage);
    ("/sos", fun _ => SOSPage);
    ("/dashboard", fun st =>
       if isAuthenticated st
       then DashboardLayout (user st)
              (SmartDashboardView (App.SmartDashboard toLowerCase (user st)))
       else Navigate "/login");
    ("/dashboard/legacy", fun st =>
       if isAuthenticated st
       then DashboardLayout (user st) (LegacyDashboard (user st))
       else Navigate "/login");
    ("/history", fun st =>
       if isAuthenticated st
       then DashboardLayout (user st) HistoryPage
       else Navigate "/login");
    ("*", fun _ => Navigate "/") ].

(** [App]'s render at a pathname. *)
Definition render (st : State) (pathname : string) : Element :=
  if loading st then Spinner
  else match find (fun r => matchPath (fst r) pathname) routes with
       | Some r => snd r st
       | None => Blank
       end.

End Shell.

(** The literal paths of the route table; [*] matches everything. *)
Definition static_paths : list string :=
  ["/"; "/login"; "/register"; "/sos"; "/dashboard"; "/dashboard/legacy";
   "/history"].

(** Exact matching, the router's behaviour on the literal paths. *)
Definition matchExact (pattern pathname : string) : bool :=
  String.eqb pattern "*" || String.eqb pattern pathname.

End AppShell.

(** ** pages/Register.jsx: the two-step form *)

Module Register.

(** The inputs of the form, by their [name] attribute. *)
Inductive Field : Type :=
| name | email | password | confirmPassword
| role | school_name | district | phone | preferred_language.

Definition field_eqb (a b : Field) : bool :=
  match a, b with
  | name, name | email, email | password, password
  | confirmPassword, confirmPassword | role, role
  | school_name, school_name | district, district | phone, phone
  | preferred_language, preferred_language => true
  | _, _ => false
  end.

(** The component state. [formData] holds the text fields; [subjects] and
    [grades] start as empty arrays and no input writes to them. *)
Record State : Type := mkState {
  step : nat;
  formData : Field -> string;
  subjects : list string;
  grades : list string;
  showPassword : bool;
  loading : bool;
  error : JsVal
}.

Definition initial_formData (f : Field) : string :=
  match f with
  | role => "teacher"
  | preferred_language => "en"
  | _ => ""
  end.

Definition initial : State :=
  mkState 1 initial_formData [] [] false false (JStr "").

(** The body of [authAPI.register]. *)
Record Payload : Type := mkPayload {
  p_name : string;
  p_email : string;
  p_password : string;
  p_role : string;
  p_school_name : string;
  p_district : string;
  p_phone : string;
  p_subjects : list string;
  p_grades : list string;
  p_preferred_language : string
}.

Inductive Effect : Type :=
| PostRegister (body : Payload)
| OnLogin (user : option App.User) (access_token : JsVal)
| NavigateTo (path : string).

(** How the registration request ends: the answer's [user] and
    [access_token], or an error with [err.response?.data?.detail]. *)
Inductive RegisterResult : Type :=
| Registered (user : option App.User) (access_token : JsVal)
| Refused (detail : JsVal).

Inductive Event : Type :=
| Change (f : Field) (value : string)
| TogglePassword
| Back
| Submit
| Settle (r : RegisterResult).

(** [setFormData({ ...formData, [e.target.name]: e.target.value })] *)
Definition handleChange (f : Field) (value : string) (st : State) : State :=
  mkState (step st)
          (fun g => if field_eqb g f then value else formData st g)
          (subjects st) (grades st) (showPassword st) (loading st) (error st).

(** [handleSubmit] up to the [await]: the new state and what is sent. *)
Definition handleSubmit (st : State) : State * list Effect :=
  if Nat.eqb (step st) 1 then
    if negb (String.eqb (formData st password) (formData st confirmPassword))
    then (mkState (step st) (formData st) (subjects st) (grades st)
                  (showPassword st) (loading st) (JStr "Passwords do not match"), [])
    else (mkState 2 (formData st) (subjects st) (grades st)
                  (showPassword st) (loading st) (JStr ""), [])
  else
    (mkState (step st) (formData st) (subjects st) (grades st)
             (showPassword st) true (JStr ""),
     [PostRegister
        (mkPayload (formData st name) (formData st email)
                   (formData st password) (formData st role)
                   (formData st school_name) (formData st district)
                   (formData st phone) (subjects st) (grades st)
                   (formData st preferred_language))]).

(** [handleSubmit] after the [await]: [try], [catch] and [finally]. *)
Definition settle (r : RegisterResult) (st : State) : State * list Effect :=
  match r with
  | Registered u t =>
      (mkState (step st) (formData st) (subjects st) (grades st)
               (showPassword st) false (error st),
       [OnLogin u t; NavigateTo "/dashboard"])
  | Refused detail =>
      (mkState (step st) (formData st) (subjects st) (grades st)
               (showPassword st) false
               (if truthy detail then detail
                else JStr "Registration failed. Please try again."),
       [])
  end.

Definition handle (ev : Event) (st : State) : State * list Effect :=
  match ev with
  | Change f v => (handleChange f v st, [])
  | TogglePassword =>
      (mkState (step st) (formData st) (subjects st) (grades st)
               (negb (showPassword st)) (loading st) (error st), [])
  | Back =>
      (mkState 1 (formData st) (subjects st) (grades st)
               (showPassword st) (loading st) (error st), [])
  | Submit => handleSubmit st
  | Settle r => settle r st
  end.

(** What the rendered form lets happen in a state: step 1 shows the
    account inputs, any other step the profile inputs, whose two selects
    offer fixed values; Back exists on step 2; the submit button is
    disabled while loading; a request settles only while one is pending. *)
Definition offered (st : State) (ev : Event) : bool :=
  match ev with
  | Change f v =>
      if Nat.eqb (step st) 1 then
        match f with
        | name | email | password | confirmPassword => true
        | _ => false
        end
      else
        match f with
        | role => existsb (String.eqb v) ["teacher"; "crp"; "diet"]
        | preferred_language =>
            existsb (String.eqb v) ["en"; "hi"; "kn"; "ta"; "te"]
        | school_name | district | phone => true
        | _ => false
        end
  | TogglePassword => Nat.eqb (step st) 1
  | Back => Nat.eqb (step st) 2
  | Submit => negb (loading st)
  | Settle _ => loading st
  end.

(** A session with the form: events the form does not offer do not
    happen.  The effects are listed in the order they occur. *)
Fixpoint run (evs : list Event) (st : State) : State * list Effect :=
  match evs with
  | [] => (st, [])
  | ev :: rest =>
      if offered st ev then
        let '(st1, out1) := handle ev st in
        let '(st2, out2) := run rest st1 in
        (st2, (out1 ++ out2)%list)
      else run rest st
  end.

(** What holds of the form in every state a session reaches. *)
Definition invariant (st : State) : Prop :=
  (step st = 1 \/ step st = 2) /\
  (step st = 2 -> formData st password = formData st confirmPassword) /\
  In (formData st role) ["teacher"; "crp"; "diet"] /\
  In (formData st preferred_language) ["en"; "hi"; "kn"; "ta"; "te"] /\
  subjects st = [] /\ grades st = [].

End Register.

(** ** Browser extension: what popup.js, background.js and content.js share *)

Module Ext.

Definition nl : string := String (ascii_of_nat 10) EmptyString.
Definition dq : string := String (ascii_of_nat 34) EmptyString.

(** The pieces of a template literal, put together. *)
Definition cat (pieces : list string) : string :=
  fold_right String.append EmptyString pieces.

(** The playbook object of an API answer; a field is [None] when it is
    null or missing. *)
Record Playbook : Type := mkPlaybook {
  title : option string;
  summary : option string;
  immediate_actions : option (list string);
  recovery_steps : option (list string);
  teaching_tips : option (list string);
  success_indicators : option (list string)
}.

(** [v || d] *)
Definition or_else (v : option string) (d : string) : string :=
  match v with
  | Some s => if String.eqb s EmptyString then d else s
  | None => d
  end.

(** [if (v)] for a string field, and the text a template shows for it. *)
Definition present (v : option string) : bool :=
  match v with
  | Some s => negb (String.eqb s EmptyString)
  | None => false
  end.

Definition text_of (v : option string) : string :=
  match v with
  | Some s => s
  | None => EmptyString
  end.

(** [l?.length > 0] *)
Definition nonempty (l : option (list string)) : bool :=
  match l with
  | Some (_ :: _) => true
  | _ => false
  end.

Definition items_of (l : option (list string)) : list string :=
  match l with
  | Some l => l
  | None => []
  end.

(** [l.map(a => `<li>${a}</li>`).join('')] *)
Definition list_items (l : list string) : string :=
  cat (map (fun a => cat ["<li>"; a; "</li>"]) l).

(** [encodeURIComponent] on UTF-8 bytes: letters, digits and
    - _ . ! ~ * ' ( ) stay, every other byte becomes %XX. *)
Definition uri_unreserved (c : ascii) : bool :=
  let n := nat_of_ascii c in
  ((48 <=? n)%nat && (n <=? 57)%nat) ||
  ((65 <=? n)%nat && (n <=? 90)%nat) ||
  ((97 <=? n)%nat && (n <=? 122)%nat) ||
  existsb (Ascii.eqb c)
    ["-"; "_"; "."; "!"; "~"; "*"; "'"; "("; ")"]%char.

Definition encode_component_byte (c : ascii) : string :=
  if uri_unreserved c then String c EmptyString
  else let n := nat_of_ascii c in
       String "%" (String (Client.hex_digit (n / 16))
                     (String (Client.hex_digit (n mod 16)) EmptyString)).

Fixpoint encodeURIComponent (s : string) : string :=
  match s with
  | EmptyString => EmptyString
  | String c s' => encode_component_byte c +:+ encodeURIComponent s'
  end.

(** A [fetch] call. *)
Record Request : Type := mkRequest {
  req_url : string;
  req_method : string;
  req_headers : list (string * string);
  req_body : option string
}.

(** How a [fetch] followed by [response.json()] ends: the promise rejects,
    or there is a response with its [ok] flag, whose body gives the field
    the caller reads or throws (no JSON, or no object to read from). *)
Inductive FetchResult (A : Type) : Type :=
| NetworkError
| Response (ok : bool) (status : Z) (payload : Completion A).
Arguments NetworkError {A}.
Arguments Response {A} ok status payload.

End Ext.

(** ** chrome-extension/popup.js *)

Module Popup.

Import Ext.

Definition DEFAULT_API_URL : string := "https://sahayak-ai-p720.onrender.com".

(** The five panels. [None]: the element is not in the page; [Some h]:
    it is, and [h] tells whether it carries the class [hidden]. *)
Record Sections : Type := mkSections {
  authSection : option bool;
  sosSection : option bool;
  loadingSection : option bool;
  resultSection : option bool;
  settingsPanel : option bool
}.

(** [e?.classList.add('hidden')] and [e?.classList.remove('hidden')] *)
Definition hide (e : option bool) : option bool :=
  match e with
  | Some _ => Some true
  | None => None
  end.

Definition unhide (e : option bool) : option bool :=
  match e with
  | Some _ => Some false
  | None => None
  end.

Definition showSection (section : string) (s : Sections) : Sections :=
  let s := mkSections (hide (authSection s)) (hide (sosSection s))
                      (hide (loadingSection s)) (hide (resultSection s))
                      (hide (settingsPanel s)) in
  if String.eqb section "auth" then
    mkSections (unhide (authSection s)) (sosSection s) (loadingSection s)
               (resultSection s) (settingsPanel s)
  else if String.eqb section "sos" then
    mkSections (authSection s) (unhide (sosSection s)) (loadingSection s)
               (resultSection s) (settingsPanel s)
  else if String.eqb section "loading" then
    mkSections (authSection s) (sosSection s) (unhide (loadingSection s))
               (resultSection s) (settingsPanel s)
  else if String.eqb section "result" then
    mkSections (authSection s) (sosSection s) (loadingSection s)
               (unhide (resultSection s)) (settingsPanel s)
  else if String.eqb section "settings" then
    mkSections (authSection s) (sosSection s) (loadingSection s)
               (resultSection s) (unhide (settingsPanel s))
  else s.

Definition shown (e : option bool) : bool :=
  match e with
  | Some false => true
  | _ => false
  end.

(** The panels a user sees. *)
Definition visible (s : Sections) : list string :=
  (if shown (authSection s) then ["auth"] else []) ++
  (if shown (sosSection s) then ["sos"] else []) ++
  (if shown (loadingSection s) then ["loading"] else []) ++
  (if shown (resultSection s) then ["result"] else []) ++
  (if shown (settingsPanel s) then ["settings"] else []).

(** The script's variables, [chrome.storage.local], and the page: the
    panels, the [value] of the inputs and selects by id, the result title,
    the playbook markup and the toast on screen. *)
Record State : Type := mkState {
  currentPlaybook : option Playbook;
  apiUrl : JsVal;
  authToken : JsVal;
  storage : gmap string JsVal;
  sections : Sections;
  inputs : gmap string string;
  resultTitle : string;
  playbookContent : string;
  toast : option string
}.

Definition initial (stored : gmap string JsVal) (s : Sections)
    (values : gmap string string) : State :=
  mkState None (JStr DEFAULT_API_URL) JNull stored s values
          EmptyString EmptyString None.

Definition set_playbook (p : option Playbook) (st : State) : State :=
  mkState p (apiUrl st) (authToken st) (storage st) (sections st)
          (inputs st) (resultTitle st) (playbookContent st) (toast st).

Definition set_apiUrl (v : JsVal) (st : State) : State :=
  mkState (currentPlaybook st) v (authToken st) (storage st) (sections st)
          (inputs st) (resultTitle st) (playbookContent st) (toast st).

Definition set_authToken (v : JsVal) (st : State) : State :=
  mkState (currentPlaybook st) (apiUrl st) v (storage st) (sections st)
          (inputs st) (resultTitle st) (playbookContent st) (toast st).

Definition set_storage (m : gmap string JsVal) (st : State) : State :=
  mkState (currentPlaybook st) (apiUrl st) (authToken st) m (sections st)
          (inputs st) (resultTitle st) (playbookContent st) (toast st).

Definition show (section : string) (st : State) : State :=
  mkState (currentPlaybook st) (apiUrl st) (authToken st) (storage st)
          (showSection section (sections st))
          (inputs st) (resultTitle st) (playbookContent st) (toast st).

Definition set_input (id v : string) (st : State) : State :=
  mkState (currentPlaybook st) (apiUrl st) (authToken st) (storage st)
          (sections st) (<[id := v]> (inputs st))
          (resultTitle st) (playbookContent st) (toast st).

Definition set_title (t : string) (st : State) : State :=
  mkState (currentPlaybook st) (apiUrl st) (authToken st) (storage st)
          (sections st) (inputs st) t (playbookContent st) (toast st).

Definition set_content (h : string) (st : State) : State :=
  mkState (currentPlaybook st) (apiUrl st) (authToken st) (storage st)
          (sections st) (inputs st) (resultTitle st) h (toast st).

(** [showToast]: the toast on screen is replaced. *)
Definition showToast (message : string) (st : State) : State :=
  mkState (currentPlaybook st) (apiUrl st) (authToken st) (storage st)
          (sections st) (inputs st) (resultTitle st) (playbookContent st)
          (Some message).

(** [document.getElementById(id).value] *)
Definition value (id : string) (st : State) : string :=
  match inputs st !! id with
  | Some v => v
  | None => EmptyString
  end.

(** A stored item, [undefined] when there is none. *)
Definition stored (k : string) (st : State) : JsVal :=
  match storage st !! k with
  | Some v => v
  | None => JUndefined
  end.

(** [chrome.storage.local.set({ k: v })]: a property whose value is
    [undefined] is not stored. *)
Definition storage_set (k : string) (v : JsVal) (m : gmap string JsVal)
    : gmap string JsVal :=
  match v with
  | JUndefined => m
  | _ => <[k := v]> m
  end.

(** *** displayPlaybook *)

Definition html_summary (summary : string) : string :=
  cat [nl; "      <div class="; dq; "playbook-section"; dq; ">"; nl;
       "        <h4>ðŸ“‹ Summary</h4>"; nl; "        <p>"; summary; "</p>";
       nl; "      </div>"; nl; "    "].

Definition html_actions (items : list string) : string :=
  cat [nl; "      <div class="; dq; "playbook-section"; dq; ">"; nl;
       "        <h4>âš¡ Do Right Now</h4>"; nl; "        <ul>"; nl;
       "          "; list_items items; nl; "        </ul>"; nl;
       "      </div>"; nl; "    "].

Definition html_recovery (items : list string) : string :=
  cat [nl; "      <div class="; dq; "playbook-section"; dq; ">"; nl;
       "        <h4>ðŸ“ˆ Recovery Steps</h4>"; nl; "        <ul>"; nl;
       "          "; list_items items; nl; "        </ul>"; nl;
       "      </div>"; nl; "    "].

Definition html_tips (items : list string) : string :=
  cat [nl; "      <div class="; dq; "playbook-section"; dq; ">"; nl;
       "        <h4>ðŸ’¡ Teaching Tips</h4>"; nl; "        <ul>"; nl;
       "          "; list_items items; nl; "        </ul>"; nl;
       "      </div>"; nl; "    "].

Definition html_success (items : list string) : string :=
  cat [nl; "      <div class="; dq; "playbook-section"; dq; ">"; nl;
       "        <h4>âœ… Success Indicators</h4>"; nl; "        <ul>"; nl;
       "          "; list_items items; nl; "        </ul>"; nl;
       "      </div>"; nl; "    "].

Definition playbook_html (playbook : Playbook) : string :=
  cat [ (if present (summary playbook)
         then html_summary (text_of (summary playbook)) else EmptyString);
        (if nonempty (immediate_actions playbook)
         then html_actions (items_of (immediate_actions playbook))
         else EmptyString);
        (if nonempty (recovery_steps playbook)
         then html_recovery (items_of (recovery_steps playbook))
         else EmptyString);
        (if nonempty (teaching_tips playbook)
         then html_tips (items_of (teaching_tips playbook)) else EmptyString);
        (if nonempty (success_indicators playbook)
         then html_success (items_of (success_indicators playbook))
         else EmptyString) ].

Definition displayPlaybook (playbook : option Playbook) (st : State) : State :=
  match playbook with
  | None => set_content "<p>No playbook available</p>" st
  | Some p =>
      let st := set_title (or_else (title p) "Teaching Rescue Playbook") st in
      let html := playbook_html p in
      set_content (if String.eqb html EmptyString
                   then "<p>Playbook generated successfully!</p>"
                   else html) st
  end.

(** *** formatPlaybookAsText *)

Definition text_title (title : string) : string :=
  cat ["ðŸŽ“ "; title; nl; nl].

Definition text_summary (summary : string) : string :=
  cat ["ðŸ“‹ Summary:"; nl; summary; nl; nl].

Definition text_actions_head : string :=
  cat ["âš¡ Do Right Now:"; nl].

Definition text_recovery_head : string :=
  cat ["ðŸ“ˆ Recovery Steps:"; nl].

Definition text_line (i : nat) (a : string) : string :=
  cat [Client.to_string (JNum (Z.of_nat i + 1)); ". "; a; nl].

Definition text_footer : string :=
  cat [nl; "ðŸŽ“ Generated by SAHAYAK AI"].

(** [l.forEach((a, i) => { text += `${i + 1}. ${a}\n` })], from index [i]. *)
Fixpoint text_lines (i : nat) (l : list string) : string :=
  match l with
  | [] => EmptyString
  | a :: rest => text_line i a +:+ text_lines (S i) rest
  end.

(** The lines the copied text is to hold for a list, in words: the items in
    their order, the one at position [k] (from 0) as [k + 1], a dot, a
    space, the item and a line break. *)
Definition numbered (l : list string) : list string :=
  imap (fun k a => cat [Client.to_string (JNum (Z.of_nat k + 1)); ". "; a; nl]) l.

Definition formatPlaybookAsText (playbook : Playbook) : string :=
  cat [ text_title (or_else (title playbook) "Teaching Rescue Playbook");
        (if present (summary playbook)
         then text_summary (text_of (summary playbook)) else EmptyString);
        (if nonempty (immediate_actions playbook)
         then cat [text_actions_head;
                   text_lines 0 (items_of (immediate_actions playbook)); nl]
         else EmptyString);
        (if nonempty (recovery_steps playbook)
         then cat [text_recovery_head;
                   text_lines 0 (items_of (recovery_steps playbook)); nl]
         else EmptyString);
        text_footer ].

(** *** The handlers *)

Inductive Effect : Type :=
| Fetch (r : Request)
| ClipboardWrite (text : string).

Section Handlers.

(** [String.prototype.trim] is the engine's. *)
Variable trim : string -> string.

(** [loadSettings]: what [chrome.storage.local.get] found. *)
Definition loadSettings (st : State) : State :=
  let st :=
    if truthy (stored "apiUrl" st)
    then set_input "apiUrlInput" (Client.to_string (stored "apiUrl" st))
           (set_apiUrl (stored "apiUrl" st) st)
    else st in
  let st :=
    if truthy (stored "authToken" st)
    then set_authToken (stored "authToken" st) st
    else st in
  if truthy (stored "defaultLang" st)
  then set_input "languageSelect" (Client.to_string (stored "defaultLang" st)) st
  else st.

(** [checkAuth] up to the [await]. *)
Definition checkAuth_start (st : State) : State * list Effect :=
  if truthy (authToken st) then
    (st, [Fetch (mkRequest
                   (cat [Client.to_string (apiUrl st); "/api/v1/auth/me"])
                   "GET"
                   [("Authorization",
                     cat ["Bearer "; Client.to_string (authToken st)])]
                   None)])
  else (show "sos" st, []).

(** [checkAuth] after the [await]. *)
Definition checkAuth_finish (res : FetchResult unit) (st : State) : State :=
  match res with
  | Response true _ _ => show "sos" st
  | _ =>
      show "sos"
        (set_storage (delete "authToken" (storage st))
           (set_authToken JNull st))
  end.

(** [submitSOS] up to the [await]. *)
Definition submitSOS_start (st : State) : State * list Effect :=
  let problem := trim (value "problemInput" st) in
  if String.eqb problem EmptyString then
    (showToast "Please describe your problem" st, [])
  else
    let language := value "languageSelect" st in
    let st := show "loading" st in
    let url := cat [Client.to_string (apiUrl st);
                    "/api/v1/sos/quick?raw_input=";
                    encodeURIComponent problem; "&language="; language] in
    (st, [Fetch (mkRequest url "POST"
                   [("Content-Type", "application/json")] None)]).

(** [submitSOS] after the [await]; the payload is [data.playbook]. *)
Definition submitSOS_finish (res : FetchResult (option Playbook)) (st : State)
    : State :=
  match res with
  | Response true _ (Normal playbook) =>
      show "result" (displayPlaybook playbook (set_playbook playbook st))
  | _ =>
      show "sos" (showToast "Failed to get help. Please try again." st)
  end.

(** [handleLogin] up to the [await]. *)
Definition handleLogin_start (st : State) : State * list Effect :=
  let email := trim (value "emailInput" st) in
  let password := value "passwordInput" st in
  if String.eqb email EmptyString || String.eqb password EmptyString then
    (showToast "Please enter email and password" st, [])
  else
    (st, [Fetch (mkRequest
                   (cat [Client.to_string (apiUrl st); "/api/v1/auth/login"])
                   "POST"
                   [("Content-Type", "application/x-www-form-urlencoded")]
                   (Some (cat ["username="; encodeURIComponent email;
                               "&password="; encodeURIComponent password])))]).

(** [handleLogin] after the [await]; the payload is [data.access_token]. *)
Definition handleLogin_finish (res : FetchResult JsVal) (st : State) : State :=
  match res with
  | Response true _ (Normal access_token) =>
      show "sos"
        (showToast "Logged in successfully!"
           (set_storage (storage_set "authToken" access_token (storage st))
              (set_authToken access_token st)))
  | _ => showToast "Login failed. Check your credentials." st
  end.

Definition handleLogout (st : State) : State :=
  show "sos"
    (showToast "Logged out"
       (set_storage (delete "authToken" (storage st))
          (set_authToken JNull st))).

(** [copyPlaybook] up to the [await], and after it. *)
Definition copyPlaybook_start (st : State) : State * list Effect :=
  match currentPlaybook st with
  | None => (st, [])
  | Some p => (st, [ClipboardWrite (formatPlaybookAsText p)])
  end.

Definition copyPlaybook_finish (written : bool) (st : State) : State :=
  if written then showToast "Copied to clipboard!" st
  else showToast "Failed to copy" st.

Definition savePlaybook (st : State) : State :=
  if negb (truthy (authToken st))
  then showToast "Please login to save playbooks" st
  else showToast "Playbook saved to your history!" st.

Definition saveSettings (st : State) : State :=
  let newApiUrl := trim (value "apiUrlInput" st) in
  let defaultLang := value "defaultLangSelect" st in
  let url := JStr (if String.eqb newApiUrl EmptyString
                   then DEFAULT_API_URL else newApiUrl) in
  show "sos"
    (showToast "Settings saved!"
       (set_storage
          (storage_set "defaultLang" (JStr defaultLang)
             (storage_set "apiUrl" url (storage st)))
          (set_apiUrl url st))).

(** The "New SOS" button. *)
Definition newSos (st : State) : State :=
  show "sos" (set_playbook None (set_input "problemInput" EmptyString st)).

(** What can happen to the popup: its listeners, the user typing into an
    input, and the answers to what it sent. *)
Inductive Event : Type :=
| LoadSettings
| CheckAuth
| AuthChecked (res : FetchResult unit)
| Typed (id v : string)
| QuickCard (problem : string)
| SubmitSOS
| SOSAnswered (res : FetchResult (option Playbook))
| Login
| LoginAnswered (res : FetchResult JsVal)
| Logout
| Copy
| Copied (written : bool)
| NewSOS
| Save
| OpenSettings
| SaveSettings
| CloseSettings.

Definition handle (ev : Event) (st : State) : State * list Effect :=
  match ev with
  | LoadSettings => (loadSettings st, [])
  | CheckAuth => checkAuth_start st
  | AuthChecked res => (checkAuth_finish res st, [])
  | Typed id v => (set_input id v st, [])
  | QuickCard problem => submitSOS_start (set_input "problemInput" problem st)
  | SubmitSOS => submitSOS_start st
  | SOSAnswered res => (submitSOS_finish res st, [])
  | Login => handleLogin_start st
  | LoginAnswered res => (handleLogin_finish res st, [])
  | Logout => (handleLogout st, [])
  | Copy => copyPlaybook_start st
  | Copied written => (copyPlaybook_finish written st, [])
  | NewSOS => (newSos st, [])
  | Save => (savePlaybook st, [])
  | OpenSettings => (show "settings" st, [])
  | SaveSettings => (saveSettings st, [])
  | CloseSettings => (show "sos" st, [])
  end.

Fixpoint run (evs : list Event) (st : State) : State * list Effect :=
  match evs with
  | [] => (st, [])
  | ev :: rest =>
      let '(st1, out1) := handle ev st in
      let '(st2, out2) := run rest st1 in
      (st2, (out1 ++ out2)%list)
  end.

End Handlers.

(** The pairs of a form body or query string, decoded as the server reads
    them. *)
Definition form_pairs (body : string) : list (string * string) :=
  map (fun piece =>
         let p := Client.pair_of piece in
         (Client.urldecode (fst p), Client.urldecode (snd p)))
      (split_on "&" body).

(** ASCII white space at both ends removed: [trim] on text that has no
    other white space. *)
Fixpoint trim_left (s : string) : string :=
  match s with
  | String c s' =>
      if existsb (Nat.eqb (nat_of_ascii c)) [9; 10; 11; 12; 13; 32]
      then trim_left s' else s
  | EmptyString => EmptyString
  end.

Fixpoint rev_string (s acc : string) : string :=
  match s with
  | EmptyString => acc
  | String c s' => rev_string s' (String c acc)
  end.

Definition trim_ascii (s : string) : string :=
  rev_string (trim_left (rev_string (trim_left s) EmptyString)) EmptyString.

(** What holds of the popup in every state it reaches: the API address is
    a non-empty string, what is stored as the address is a string, and at
    most one panel is visible. *)
Definition invariant (st : State) : Prop :=
  (exists s, apiUrl st = JStr s /\ s <> EmptyString) /\
  (forall v, storage st !! "apiUrl" = Some v -> exists s, v = JStr s) /\
  length (visible (sections st)) <= 1.

End Popup.

(** ** chrome-extension/content.js *)

Module Content.

Import Ext.

(** The part of the page the content script touches: the elements with
    id [sahayak-overlay] in document order, each with its markup; the
    toasts it appended; and what it wrote to the clipboard. *)
Record Doc : Type := mkDoc {
  overlays : list string;
  toasts : list string;
  clipboard : list string
}.

Definition overlay_summary (summary : string) : string :=
  cat [nl; "          <div class="; dq; "sahayak-section"; dq; ">"; nl;
       "            <h4>📋 Summary</h4>"; nl; "            <p>"; summary;
       "</p>"; nl; "          </div>"; nl; "        "].

Definition overlay_actions (items : list string) : string :=
  cat [nl; "          <div class="; dq; "sahayak-section"; dq; ">"; nl;
       "            <h4>⚡ Do Right Now</h4>"; nl; "            <ul>"; nl;
       "              "; list_items items; nl; "            </ul>"; nl;
       "          </div>"; nl; "        "].

Definition overlay_recovery (items : list string) : string :=
  cat [nl; "          <div class="; dq; "sahayak-section"; dq; ">"; nl;
       "            <h4>📈 Recovery Steps</h4>"; nl; "            <ul>"; nl;
       "              "; list_items items; nl; "            </ul>"; nl;
       "          </div>"; nl; "        "].

Definition overlay_html (playbook : Playbook) : string :=
  cat [nl; "    <div class="; dq; "sahayak-modal"; dq; ">"; nl;
       "      <div class="; dq; "sahayak-modal-header"; dq; ">"; nl;
       "        <span class="; dq; "sahayak-logo"; dq;
       ">🎓 SAHAYAK AI</span>"; nl; "        <button class="; dq;
       "sahayak-close"; dq; " id="; dq; "sahayak-close"; dq;
       ">&times;</button>"; nl; "      </div>"; nl; "      <div class="; dq;
       "sahayak-modal-content"; dq; ">"; nl; "        <h3>";
       or_else (title playbook) "Teaching Rescue Playbook"; "</h3>"; nl;
       "        "; nl; "        ";
       (if present (summary playbook)
        then overlay_summary (text_of (summary playbook)) else EmptyString);
       nl; "        "; nl; "        ";
       (if nonempty (immediate_actions playbook)
        then overlay_actions (items_of (immediate_actions playbook))
        else EmptyString);
       nl; "        "; nl; "        ";
       (if nonempty (recovery_steps playbook)
        then overlay_recovery (items_of (recovery_steps playbook))
        else EmptyString);
       nl; "      </div>"; nl; "      <div class="; dq;
       "sahayak-modal-footer"; dq; ">"; nl; "        <button class="; dq;
       "sahayak-btn"; dq; " id="; dq; "sahayak-copy"; dq; ">📋 Copy</button>";
       nl; "        <button class="; dq; "sahayak-btn sahayak-btn-primary";
       dq; " id="; dq; "sahayak-open-app"; dq; ">Open Full App</button>"; nl;
       "      </div>"; nl; "    </div>"; nl; "  "].

(** [existing.remove()] for the element [getElementById] finds, the first
    in document order. *)
Definition remove_first (l : list string) : list string :=
  match l with
  | [] => []
  | _ :: rest => rest
  end.

(** [createPlaybookOverlay]: reading [playbook.title] throws when the
    playbook is null or undefined, after the existing overlay is removed. *)
Definition createPlaybookOverlay (playbook : option Playbook) (d : Doc)
    : Doc * Completion unit :=
  let d := mkDoc (remove_first (overlays d)) (toasts d) (clipboard d) in
  match playbook with
  | None =>
      (d, Throw "TypeError: Cannot read properties of undefined (reading 'title')")
  | Some p =>
      (mkDoc (overlays d ++ [overlay_html p]) (toasts d) (clipboard d),
       Normal tt)
  end.

Definition copy_title (title : string) : string :=
  cat ["🎓 "; title; nl; nl].

Definition copy_summary (summary : string) : string :=
  cat ["📋 Summary:"; nl; summary; nl; nl].

Definition copy_actions_head : string :=
  cat ["⚡ Do Right Now:"; nl].

Definition copy_line (i : nat) (a : string) : string :=
  cat [Client.to_string (JNum (Z.of_nat i + 1)); ". "; a; nl].

Fixpoint copy_lines (i : nat) (l : list string) : string :=
  match l with
  | [] => EmptyString
  | a :: rest => copy_line i a +:+ copy_lines (S i) rest
  end.

(** The text [copyPlaybookText] hands to the clipboard. *)
Definition copy_text (playbook : Playbook) : string :=
  cat [ copy_title (or_else (title playbook) "Teaching Rescue Playbook");
        (if present (summary playbook)
         then copy_summary (text_of (summary playbook)) else EmptyString);
        (if nonempty (immediate_actions playbook)
         then cat [copy_actions_head;
                   copy_lines 0 (items_of (immediate_actions playbook))]
         else EmptyString) ].

(** [copyPlaybookText]: the toast comes when the write succeeds. *)
Definition copyPlaybookText (playbook : Playbook) (written : bool) (d : Doc)
    : Doc :=
  mkDoc (overlays d)
        (if written then toasts d ++ ["Copied to clipboard!"] else toasts d)
        (if written then clipboard d ++ [copy_text playbook] else clipboard d).

(** A message from the background script. *)
Record Message : Type := mkMessage {
  type : string;
  playbook : option Playbook
}.

Definition onMessage (message : Message) (d : Doc) : Doc * Completion unit :=
  if String.eqb (type message) "SHOW_PLAYBOOK"
  then createPlaybookOverlay (playbook message) d
  else (d, Normal tt).

(** The close button and a click on the overlay itself remove the overlay
    they belong to. *)
Definition closeOverlay (d : Doc) : Doc :=
  mkDoc (remove_first (overlays d)) (toasts d) (clipboard d).

Inductive Event : Type :=
| Received (message : Message)
| Close.

Definition handle (ev : Event) (d : Doc) : Doc :=
  match ev with
  | Received message => fst (onMessage message d)
  | Close => closeOverlay d
  end.

Definition run (evs : list Event) (d : Doc) : Doc :=
  fold_left (fun d ev => handle ev d) evs d.

End Content.

(** ** chrome-extension/background.js *)

Module Background.

Import Ext.

Definition DEFAULT_API_URL : string := "https://sahayak-ai-p720.onrender.com".

(** The click data of a context menu item. *)
Record Info : Type := mkInfo {
  menuItemId : string;
  selectionText : option string
}.

(** [const { apiUrl = DEFAULT } = await chrome.storage.local.get('apiUrl')]:
    the default replaces a missing item only. *)
Definition apiUrl_of (storage : gmap string JsVal) : JsVal :=
  match storage !! "apiUrl" with
  | Some JUndefined | None => JStr DEFAULT_API_URL
  | Some v => v
  end.

(** The click listener up to the [fetch]. *)
Definition onClicked_start (info : Info) (storage : gmap string JsVal)
    : list Request :=
  if String.eqb (menuItemId info) "sahayak-sos" && present (selectionText info)
  then [mkRequest
          (cat [Client.to_string (apiUrl_of storage);
                "/api/v1/sos/quick?raw_input=";
                encodeURIComponent (text_of (selectionText info))])
          "POST" [] None]
  else [].

(** The click listener after the [fetch]: the messages sent to the tab. *)
Definition onClicked_finish (res : FetchResult (option Playbook))
    : list Content.Message :=
  match res with
  | Response true _ (Normal playbook) =>
      [Content.mkMessage "SHOW_PLAYBOOK" playbook]
  | _ => []
  end.

End Background.

(** ** pages/CRPDashboard.jsx: bars and rows *)

Module CRPDashboard.

(** Counts are integers, on which the arithmetic of JS numbers is exact. *)

(** The rows shown: [list.slice(0, n)]. *)
Definition slice0 {A : Type} (n : nat) (l : list A) : list A := firstn n l.

(** [Math.min(100, item.count * 5)], the width of a problem's bar in
    percent. *)
Definition problem_bar_width (count : Z) : Z := Z.min 100 (count * 5).

(** [Object.values(day).reduce((a, b) => typeof b === 'number' ? a + b : a, 0)] *)
Definition trend_total (values : list JsVal) : Z :=
  fold_left (fun a b => match b with JNum n => (a + n)%Z | _ => a end) values 0%Z.

(** [Math.max(10, total * 8)], the height of a day's bar in percent. *)
Definition trend_bar_height (total : Z) : Z := Z.max 10 (total * 8).

Definition is_number (v : JsVal) : bool :=
  match v with
  | JNum _ => true
  | _ => false
  end.

Definition number_of (v : JsVal) : Z :=
  match v with
  | JNum n => n
  | _ => 0%Z
  end.

End CRPDashboard.

(** * Properties *)

(** ** Role dispatch *)

Lemma switch_role_cases (r : option string) :
  App.switch_role r =
    match r with
    | Some s =>
        if String.eqb s "crp" then App.CRPDashboard
        else if String.eqb s "diet" then App.DIETDashboard
        else App.TeacherDashboard
    | None => App.TeacherDashboard
    end.
Proof.
  destruct r as [s|]; simpl; [|reflexivity].
  destruct (String.eqb s "crp"); [reflexivity|].
  destruct (String.eqb s "diet"); [reflexivity|].
  destruct (String.eqb s "teacher"); reflexivity.
Qed.

(** C1: the dashboard shown at /dashboard is chosen by comparing the
    lower-cased role string: 'crp' gives the CRP dashboard, 'diet' the DIET
    dashboard, and 'teacher', any other string and a missing role (or a
    missing user) give the Teacher dashboard; the chosen component gets the
    user as its prop. *)
Theorem SmartDashboard_dispatch :
  forall (toLowerCase : string -> string) (n : JsVal) (s : string),
    let u := Some (App.mkUser n (JStr s)) in
    (toLowerCase s = "crp" ->
       App.SmartDashboard toLowerCase u
       = Normal (App.mkElement App.CRPDashboard u)) /\
    (toLowerCase s = "diet" ->
       App.SmartDashboard toLowerCase u
       = Normal (App.mkElement App.DIETDashboard u)) /\
    (toLowerCase s = "teacher" ->
       App.SmartDashboard toLowerCase u
       = Normal (App.mkElement App.TeacherDashboard u)) /\
    (toLowerCase s <> "crp" -> toLowerCase s <> "diet" ->
       App.SmartDashboard toLowerCase u
       = Normal (App.mkElement App.TeacherDashboard u)) /\
    (forall r, nullish r = true ->
       App.SmartDashboard toLowerCase (Some (App.mkUser n r))
       = Normal (App.mkElement App.TeacherDashboard (Some (App.mkUser n r)))) /\
    App.SmartDashboard toLowerCase None
    = Normal (App.mkElement App.TeacherDashboard None).
Proof.
  intros lc n s u.
  assert (Hu : App.SmartDashboard lc u
               = Normal (App.mkElement (App.switch_role (Some (lc s))) u))
    by reflexivity.
  rewrite switch_role_cases in Hu.
  repeat split.
  - intros E. rewrite Hu, E. reflexivity.
  - intros E. rewrite Hu, E. reflexivity.
  - intros E. rewrite Hu, E. reflexivity.
  - intros N1 N2. rewrite Hu.
    apply String.eqb_neq in N1, N2. rewrite N1, N2. reflexivity.
  - intros r Hr. destruct r; try discriminate; reflexivity.
Qed.

Lemma SmartDashboard_dispatch_witness :
  App.SmartDashboard App.toLowerCase_ascii
    (Some (App.mkUser (JStr "Asha") (JStr "CRP")))
  = Normal (App.mkElement App.CRPDashboard
              (Some (App.mkUser (JStr "Asha") (JStr "CRP")))) /\
  App.SmartDashboard App.toLowerCase_ascii
    (Some (App.mkUser (JStr "Asha") (JStr "Principal")))
  = Normal (App.mkElement App.TeacherDashboard
              (Some (App.mkUser (JStr "Asha") (JStr "Principal")))).
Proof.
  split.
  - destruct (SmartDashboard_dispatch App.toLowerCase_ascii (JStr "Asha") "CRP")
      as (Hcrp & _).
    apply Hcrp. reflexivity.
  - destruct (SmartDashboard_dispatch App.toLowerCase_ascii (JStr "Asha") "Principal")
      as (_ & _ & _ & Hother & _).
    apply Hother; intros E; vm_compute in E; discriminate E.
Defined.


(** ** Interceptors *)

Lemma on_rejected_401 (b : Client.Browser) (e : Client.AxiosError) :
  Client.is_401 e = true ->
  Client.on_rejected b e
  = (Client.mkBrowser (delete "user" (delete "token" (Client.localStorage b)))
                      "/login",
     Client.Rejected e).
Proof.
  intros H. unfold Client.on_rejected. rewrite H. reflexivity.
Qed.

Lemma on_rejected_other (b : Client.Browser) (e : Client.AxiosError) :
  Client.is_401 e = false ->
  Client.on_rejected b e = (b, Client.Rejected e).
Proof.
  intros H. unfold Client.on_rejected. rewrite H. reflexivity.
Qed.

Lemma validateStatus_401 : Client.validateStatus 401 = false.
Proof. reflexivity. Qed.

(** C2: a response with status 401 makes the client remove 'token' and
    'user' from local storage and set the location to the login page, and
    the error is still handed on as a rejection; any other response, and a
    request that got no response, leaves the browser state as it was. *)
Theorem response_interceptor_401 :
  forall (b : Client.Browser) (r : Client.Response),
    (Client.status r = 401%Z ->
       let b' := fst (Client.receive b (Client.Answer r)) in
       Client.getItem b' "token" = None /\
       Client.getItem b' "user" = None /\
       (forall k, k <> "token" -> k <> "user" ->
                  Client.getItem b' k = Client.getItem b k) /\
       Client.href b' = "/login" /\
       snd (Client.receive b (Client.Answer r))
       = Client.Rejected (Client.mkError (Some r))) /\
    (Client.status r <> 401%Z ->
       fst (Client.receive b (Client.Answer r)) = b /\
       snd (Client.receive b (Client.Answer r))
       = if Client.validateStatus (Client.status r)
         then Client.Fulfilled r
         else Client.Rejected (Client.mkError (Some r))) /\
    Client.receive b Client.NoAnswer
    = (b, Client.Rejected (Client.mkError None)).
Proof.
  intros b r. split; [|split].
  - intros H. unfold Client.receive. rewrite H, validateStatus_401.
    rewrite on_rejected_401 by (unfold Client.is_401; simpl; rewrite H; reflexivity).
    unfold Client.getItem; simpl.
    split; [|split; [|split; [|split]]]; try reflexivity.
    + rewrite lookup_delete_ne by discriminate. apply lookup_delete_eq.
    + apply lookup_delete_eq.
    + intros k Ht Hu.
      rewrite lookup_delete_ne by congruence.
      rewrite lookup_delete_ne by congruence. reflexivity.
  - intros H. unfold Client.receive.
    destruct (Client.validateStatus (Client.status r)); [split; reflexivity|].
    rewrite on_rejected_other; [split; reflexivity|].
    unfold Client.is_401; simpl. apply Z.eqb_neq. exact H.
  - reflexivity.
Qed.

Lemma response_interceptor_401_witness :
  let b := Client.mkBrowser {[ "token" := "abc"; "user" := "{}"; "lang" := "en" ]}
                            "/dashboard" in
  (Client.getItem (fst (Client.receive b (Client.Answer (Client.mkResponse 401 ""))))
                  "token" = None /\
   Client.href (fst (Client.receive b (Client.Answer (Client.mkResponse 401 ""))))
   = "/login") /\
  fst (Client.receive b (Client.Answer (Client.mkResponse 500 ""))) = b.
Proof.
  intros b. split.
  - destruct (response_interceptor_401 b (Client.mkResponse 401 "")) as (H & _).
    destruct (H eq_refl) as (Ht & _ & _ & Hh & _). split; [exact Ht | exact Hh].
  - destruct (response_interceptor_401 b (Client.mkResponse 500 "")) as (_ & H & _).
    apply H. simpl. lia.
Defined.

(** The claim of C3 as it is worded, "a token is present" read as "the
    storage holds an entry for 'token'", does not hold: an empty string
    stored under 'token' is present and falsy, and the interceptor adds no
    header for it. *)
Lemma request_interceptor_empty_token :
  ~ (forall (b : Client.Browser) (config : Client.Config) (t : string),
       Client.getItem b "token" = Some t ->
       Client.headers (Client.request_interceptor b config) !! "Authorization"
       = Some ("Bearer " +:+ t)).
Proof.
  intros H.
  specialize (H (Client.mkBrowser {[ "token" := "" ]} "/")
                (Client.defaults Client.GET "/auth/me" [] None) "" eq_refl).
  vm_compute in H. discriminate H.
Qed.

(** C3, amended: when the storage holds a non-empty token the request
    carries the header Authorization = 'Bearer ' + token; when it holds no
    token, or an empty one, the configuration is returned as it came.  In
    both cases every other header and every other field is unchanged. *)
Theorem request_interceptor_bearer :
  forall (b : Client.Browser) (config : Client.Config),
    let config' := Client.request_interceptor b config in
    (forall t, Client.getItem b "token" = Some t -> t <> "" ->
       Client.headers config' !! "Authorization" = Some ("Bearer " +:+ t)) /\
    (Client.getItem b "token" = None \/ Client.getItem b "token" = Some "" ->
       config' = config) /\
    (forall k, k <> "Authorization" ->
       Client.headers config' !! k = Client.headers config !! k) /\
    Client.baseURL config' = Client.baseURL config /\
    Client.url config' = Client.url config /\
    Client.method config' = Client.method config /\
    Client.params config' = Client.params config /\
    Client.data config' = Client.data config.
Proof.
  intros b config config'. subst config'. unfold Client.request_interceptor.
  destruct (Client.getItem b "token") as [t|] eqn:E.
  - unfold truthy. destruct (String.eqb_spec t "") as [->|Hne]; simpl.
    + repeat split; try reflexivity. intros t' [= <-] N. congruence.
    + repeat split; try reflexivity.
      * intros t' [= <-] _. apply lookup_insert_eq.
      * intros [H|H]; [discriminate H | congruence].
      * intros k Hk. apply lookup_insert_ne. congruence.
  - simpl. repeat split; try reflexivity. intros t H. discriminate H.
Qed.

Lemma request_interceptor_bearer_witness :
  Client.headers
    (Client.request_interceptor
       (Client.mkBrowser {[ "token" := "abc" ]} "/")
       (Client.defaults Client.GET "/auth/me" [] None)) !! "Authorization"
  = Some "Bearer abc".
Proof.
  destruct (request_interceptor_bearer
              (Client.mkBrowser {[ "token" := "abc" ]} "/")
              (Client.defaults Client.GET "/auth/me" [] None)) as (H & _).
  apply (H "abc"); [reflexivity | discriminate].
Defined.


(** ** History filter *)

Lemma append_cons (c : ascii) (s t : string) :
  String c s +:+ t = String c (s +:+ t).
Proof. reflexivity. Qed.

Lemma append_empty (t : string) : "" +:+ t = t.
Proof. reflexivity. Qed.

Lemma prefix_spec (p s : string) :
  String.prefix p s = true <-> exists rest, s = p +:+ rest.
Proof.
  revert s. induction p as [|c p IH]; intros s.
  - split; [intros _; exists s; reflexivity | destruct s; reflexivity].
  - destruct s as [|d s]; simpl.
    + split; [discriminate | intros [rest H]; discriminate H].
    + destruct (ascii_dec c d) as [->|Hcd].
      * rewrite IH.
        split; intros [rest H]; exists rest; rewrite ?append_cons in *; congruence.
      * split; [discriminate | intros [rest H]; rewrite append_cons in H; congruence].
Qed.

Lemma includes_unfold (s sub : string) :
  includes s sub =
    if String.prefix sub s then true
    else match s with
         | EmptyString => false
         | String _ s' => includes s' sub
         end.
Proof. destruct s; reflexivity. Qed.

Lemma includes_spec (s sub : string) :
  includes s sub = true <-> exists before after, s = before +:+ sub +:+ after.
Proof.
  split.
  - induction s as [|c s IH]; rewrite includes_unfold;
      destruct (String.prefix sub _) eqn:P.
    + intros _. apply prefix_spec in P as [rest ->]. exists "", rest. reflexivity.
    + discriminate.
    + intros _. apply prefix_spec in P as [rest ->]. exists "", rest. reflexivity.
    + intros H. destruct (IH H) as (a & b & ->). exists (String c a), b. reflexivity.
  - intros (a & b & ->). induction a as [|c a IH]; rewrite includes_unfold.
    + replace (String.prefix sub ("" +:+ sub +:+ b)) with true; [reflexivity|].
      symmetry. apply prefix_spec. exists b. reflexivity.
    + destruct (String.prefix sub _); [reflexivity|]. exact IH.
Qed.

Lemma includes_empty (s : string) : includes s "" = true.
Proof. rewrite includes_unfold. destruct s; reflexivity. Qed.

Section HistoryFacts.

Variable toLowerCase : string -> string.

(** The callback of the filter, as a condition on the row. *)
Lemma keep_spec (filter searchQuery : string) (sos : History.SOS) :
  truthy (History.keep toLowerCase filter searchQuery sos) = true <->
  (filter = "all" \/ History.status sos = filter) /\
  (History.contains_ci toLowerCase (History.raw_input sos) searchQuery \/
   exists s, History.subject sos = Some s /\
             History.contains_ci toLowerCase s searchQuery).
Proof.
  unfold History.keep, History.matchesFilter, History.matchesSearch,
    History.contains_ci.
  rewrite <- !includes_spec.
  destruct (String.eqb_spec filter "all") as [Ha|Ha];
    destruct (String.eqb_spec (History.status sos) filter) as [Hs|Hs]; simpl;
    destruct (includes (toLowerCase (History.raw_input sos))
                       (toLowerCase searchQuery)) eqn:Hr; simpl;
    destruct (History.subject sos) as [subj|] eqn:Hsubj; simpl;
    try setoid_rewrite <- includes_spec;
    repeat match goal with
    | |- context [includes (toLowerCase subj) ?q] =>
        destruct (includes (toLowerCase subj) q) eqn:?; simpl
    end;
    split; intros H; try discriminate H; try tauto;
    try (split; [tauto | right; eexists; split; [reflexivity | assumption]]);
    try (destruct H as [[?|?] [?|(s' & E & I)]]; try congruence;
         try discriminate E; injection E as <-; congruence).
Qed.

End HistoryFacts.


(** C9: the filtered list of the History page keeps, in order, exactly the
    loaded rows whose status is the selected filter (every row when the
    filter is 'all') and whose raw_input, or subject when there is one,
    contains the query once both are lower-cased.  With filter 'all' and an
    empty query it is the loaded list, and a row without subject is kept
    through its raw_input. *)
Theorem filteredRequests_spec :
  forall (toLowerCase : string -> string) (sosRequests : list History.SOS)
         (filter searchQuery : string),
    (exists p : History.SOS -> bool,
       History.filteredRequests toLowerCase sosRequests filter searchQuery
       = List.filter p sosRequests /\
       forall sos, p sos = true <->
         (filter = "all" \/ History.status sos = filter) /\
         (History.contains_ci toLowerCase (History.raw_input sos) searchQuery \/
          exists s, History.subject sos = Some s /\
                    History.contains_ci toLowerCase s searchQuery)) /\
    (forall sos,
       In sos (History.filteredRequests toLowerCase sosRequests filter searchQuery)
       <-> In sos sosRequests /\
           (filter = "all" \/ History.status sos = filter) /\
           (History.contains_ci toLowerCase (History.raw_input sos) searchQuery \/
            exists s, History.subject sos = Some s /\
                      History.contains_ci toLowerCase s searchQuery)) /\
    (toLowerCase "" = "" ->
       History.filteredRequests toLowerCase sosRequests "all" "" = sosRequests) /\
    (forall sos,
       In sos sosRequests -> History.subject sos = None ->
       (filter = "all" \/ History.status sos = filter) ->
       History.contains_ci toLowerCase (History.raw_input sos) searchQuery ->
       In sos (History.filteredRequests toLowerCase sosRequests filter searchQuery)).
Proof.
  intros lc reqs f q.
  assert (Hin : forall sos,
     In sos (History.filteredRequests lc reqs f q)
     <-> In sos reqs /\
         (f = "all" \/ History.status sos = f) /\
         (History.contains_ci lc (History.raw_input sos) q \/
          exists s, History.subject sos = Some s /\ History.contains_ci lc s q)).
  { intros sos. unfold History.filteredRequests.
    rewrite filter_In, keep_spec. reflexivity. }
  split; [|split; [|split]].
  - exists (fun sos => truthy (History.keep lc f q sos)).
    split; [reflexivity | intros sos; apply keep_spec].
  - exact Hin.
  - intros Hlc. unfold History.filteredRequests.
    induction reqs as [|r rs IH]; [reflexivity|]. simpl.
    unfold History.keep at 1, History.matchesSearch. simpl.
    rewrite Hlc, includes_empty. simpl. f_equal.
    apply IH. intros sos. unfold History.filteredRequests.
    rewrite filter_In, keep_spec. reflexivity.
  - intros sos Hi _ Hf Hc. apply Hin. tauto.
Qed.

Lemma filteredRequests_spec_witness :
  let rows :=
    [ History.mkSOS "1" "Students don't understand Fractions" None "resolved";
      History.mkSOS "2" "Noisy class" (Some "Science") "pending" ] in
  History.filteredRequests App.toLowerCase_ascii rows "all" "" = rows /\
  In (History.mkSOS "1" "Students don't understand Fractions" None "resolved")
     (History.filteredRequests App.toLowerCase_ascii rows "resolved" "FRACTION").
Proof.
  intros rows.
  destruct (filteredRequests_spec App.toLowerCase_ascii rows "all" "")
    as (_ & _ & Hall & _).
  destruct (filteredRequests_spec App.toLowerCase_ascii rows "resolved" "FRACTION")
    as (_ & _ & _ & Hnull).
  split.
  - apply Hall. reflexivity.
  - apply Hnull.
    + left. reflexivity.
    + reflexivity.
    + right. reflexivity.
    + exists "students don't understand ", "s". reflexivity.
Defined.


(** ** The query string of the quick SOS request *)

Lemma occurs_append (c : ascii) (s t : string) :
  occurs c (s +:+ t) = occurs c s || occurs c t.
Proof.
  induction s as [|a s IH]; [reflexivity|].
  rewrite append_cons. simpl. rewrite IH. apply orb_assoc.
Qed.

Lemma encode_byte_no_amp (b : ascii) : occurs "&" (Client.encode_byte b) = false.
Proof. destruct b as [[] [] [] [] [] [] [] []]; vm_compute; reflexivity. Qed.

Lemma encode_byte_no_eq (b : ascii) : occurs "=" (Client.encode_byte b) = false.
Proof. destruct b as [[] [] [] [] [] [] [] []]; vm_compute; reflexivity. Qed.

Lemma urlencode_no_amp (s : string) : occurs "&" (Client.urlencode s) = false.
Proof.
  induction s as [|a s IH]; [reflexivity|]. simpl.
  rewrite occurs_append, encode_byte_no_amp, IH. reflexivity.
Qed.

Lemma urlencode_no_eq (s : string) : occurs "=" (Client.urlencode s) = false.
Proof.
  induction s as [|a s IH]; [reflexivity|]. simpl.
  rewrite occurs_append, encode_byte_no_eq, IH. reflexivity.
Qed.

Lemma urldecode_encode_byte (b : ascii) (rest : string) :
  Client.urldecode (Client.encode_byte b +:+ rest)
  = String b (Client.urldecode rest).
Proof. destruct b as [[] [] [] [] [] [] [] []]; reflexivity. Qed.

(** Decoding what the serializer wrote gives the text back. *)
Lemma urldecode_urlencode (s : string) :
  Client.urldecode (Client.urlencode s) = s.
Proof.
  induction s as [|b s IH]; [reflexivity|].
  change (Client.urlencode (String b s))
    with (Client.encode_byte b +:+ Client.urlencode s).
  rewrite urldecode_encode_byte, IH. reflexivity.
Qed.

Lemma split_on_absent (c : ascii) (s : string) :
  occurs c s = false -> split_on c s = [s].
Proof.
  induction s as [|a s IH]; [reflexivity|]. simpl.
  destruct (Ascii.eqb a c); [discriminate|]. simpl.
  intros H. rewrite (IH H). reflexivity.
Qed.

Lemma split_on_first (c : ascii) (s t : string) :
  occurs c s = false ->
  split_on c (s +:+ String c t) = s :: split_on c t.
Proof.
  induction s as [|a s IH]; intros H.
  - rewrite append_empty. simpl. rewrite Ascii.eqb_refl. reflexivity.
  - rewrite append_cons. simpl in *.
    destruct (Ascii.eqb a c); [discriminate|]. simpl in H.
    rewrite (IH H). reflexivity.
Qed.

Lemma cut_first_found (c : ascii) (k v : string) :
  occurs c k = false ->
  cut_first c (k +:+ String c v) = (k, Some v).
Proof.
  induction k as [|a k IH]; intros H.
  - rewrite append_empty. simpl. rewrite Ascii.eqb_refl. reflexivity.
  - rewrite append_cons. simpl in *.
    destruct (Ascii.eqb a c); [discriminate|]. simpl in H.
    rewrite (IH H). reflexivity.
Qed.

Lemma append_assoc (a b c : string) : (a +:+ b) +:+ c = a +:+ (b +:+ c).
Proof.
  induction a as [|x a IH]; [reflexivity|].
  rewrite !append_cons, IH. reflexivity.
Qed.

Lemma serialize_pair_no_amp (p : string * string) :
  occurs "&" (Client.serialize_pair p) = false.
Proof.
  unfold Client.serialize_pair.
  rewrite !occurs_append, !urlencode_no_amp. reflexivity.
Qed.

Lemma pair_of_serialize (p : string * string) :
  Client.pair_of (Client.serialize_pair p)
  = (Client.urlencode (fst p), Client.urlencode (snd p)).
Proof.
  unfold Client.pair_of, Client.serialize_pair.
  change ("=" +:+ Client.urlencode (snd p))
    with (String "=" (Client.urlencode (snd p))).
  rewrite cut_first_found by apply urlencode_no_eq. reflexivity.
Qed.

(** Reading back what [toString] wrote gives the pairs, each encoded. *)
Lemma pairs_of_toString (p : string * string) (ps : list (string * string)) :
  map Client.pair_of (split_on "&" (Client.toString (p :: ps)))
  = map (fun q => (Client.urlencode (fst q), Client.urlencode (snd q))) (p :: ps).
Proof.
  revert p. induction ps as [|q ps IH]; intros p.
  - unfold Client.toString. simpl.
    rewrite split_on_absent by apply serialize_pair_no_amp.
    simpl. rewrite pair_of_serialize. reflexivity.
  - unfold Client.toString in *.
    change (join "&" (map Client.serialize_pair (p :: q :: ps)))
      with (Client.serialize_pair p
            +:+ String "&" (join "&" (map Client.serialize_pair (q :: ps)))).
    rewrite split_on_first by apply serialize_pair_no_amp.
    change (map ?f (?x :: ?l)) with (f x :: map f l) at 1.
    rewrite IH, pair_of_serialize. reflexivity.
Qed.

Lemma query_of_quick_url (rawInput : string) (subject grade : JsVal) :
  Client.query_of (Client.quick_url rawInput subject grade)
  = Client.toString (Client.quick_params rawInput subject grade).
Proof.
  unfold Client.query_of, Client.quick_url.
  change ("/sos/quick?" +:+ ?q) with ("/sos/quick" +:+ String "?" q).
  rewrite cut_first_found by reflexivity. reflexivity.
Qed.

Lemma truthy_default_null (v : JsVal) :
  truthy (Client.default_param JNull v) = truthy v.
Proof. destruct v; reflexivity. Qed.

Lemma to_string_default_null (v : JsVal) :
  truthy v = true ->
  Client.to_string (Client.default_param JNull v) = Client.to_string v.
Proof. destruct v; try discriminate; reflexivity. Qed.


(** C10: the URL [sosAPI.quick] posts to has a query string whose pairs are
    raw_input with the URL-encoded input (which decodes back to the input),
    then subject exactly when a truthy subject was given, then grade
    exactly when a truthy grade was given; null, undefined and the empty
    string leave the key out. *)
Theorem quick_query_keys :
  forall (rawInput : string) (subject grade : JsVal),
    let u := Client.quick_url rawInput subject grade in
    Client.query_pairs u
    = ([("raw_input", Client.urlencode rawInput)]
       ++ (if truthy subject
           then [("subject", Client.urlencode (Client.to_string subject))]
           else [])
       ++ (if truthy grade
           then [("grade", Client.urlencode (Client.to_string grade))]
           else []))%list /\
    In ("raw_input", Client.urlencode rawInput) (Client.query_pairs u) /\
    Client.urldecode (Client.urlencode rawInput) = rawInput /\
    Client.has_key "raw_input" u = true /\
    Client.has_key "subject" u = truthy subject /\
    Client.has_key "grade" u = truthy grade /\
    Client.url (Client.quick rawInput subject grade) = u /\
    Client.method (Client.quick rawInput subject grade) = Client.POST.
Proof.
  intros rawInput subject grade u.
  assert (Hp : Client.query_pairs u
    = ([("raw_input", Client.urlencode rawInput)]
       ++ (if truthy subject
           then [("subject", Client.urlencode (Client.to_string subject))]
           else [])
       ++ (if truthy grade
           then [("grade", Client.urlencode (Client.to_string grade))]
           else []))%list).
  { unfold Client.query_pairs. subst u. rewrite query_of_quick_url.
    unfold Client.quick_params. rewrite !truthy_default_null.
    destruct (truthy subject) eqn:Hs; destruct (truthy grade) eqn:Hg;
      unfold Client.append; simpl app;
      rewrite pairs_of_toString; simpl map;
      rewrite ?to_string_default_null by assumption; reflexivity. }
  split; [exact Hp|].
  unfold Client.has_key. rewrite Hp.
  split; [left; reflexivity|].
  split; [apply urldecode_urlencode|].
  destruct (truthy subject); destruct (truthy grade);
    repeat split; reflexivity.
Qed.

(** The three falsy ways of leaving the subject out, and a raw input that
    itself spells a subject key, evaluated. *)
Example quick_query_examples :
  Client.quick_url "Students don't understand fractions" JUndefined JUndefined
  = "/sos/quick?raw_input=Students+don%27t+understand+fractions" /\
  Client.quick_url "noise" JNull (JStr "") = "/sos/quick?raw_input=noise" /\
  Client.quick_url "a&subject=b" (JStr "Math") (JNum 5)
  = "/sos/quick?raw_input=a%26subject%3Db&subject=Math&grade=5" /\
  Client.has_key "subject" (Client.quick_url "a&subject=b" JNull JNull) = false.
Proof. repeat split; vm_compute; reflexivity. Qed.


(** ** Request status *)

Lemma set_status_allowed (s' : Lifecycle.Status) (r r' : Lifecycle.Request) :
  Lifecycle.set_status s' r = Some r' ->
  r' = Lifecycle.with_status s' r /\
  ((Lifecycle.req_status r = Lifecycle.Pending /\ s' = Lifecycle.Processing) \/
   (Lifecycle.req_status r = Lifecycle.Processing /\
    (s' = Lifecycle.Resolved \/ s' = Lifecycle.Failed))).
Proof.
  unfold Lifecycle.set_status.
  destruct (Lifecycle.req_status r) eqn:E; destruct s'; simpl;
    intros H; try discriminate H; injection H as <-;
    split; try reflexivity; tauto.
Qed.

Lemma run_terminal (attempts : list Lifecycle.Status) (r : Lifecycle.Request) :
  Lifecycle.successors (Lifecycle.req_status r) = [] ->
  Lifecycle.run attempts r = (r, []).
Proof.
  intros H. induction attempts as [|s' rest IH]; [reflexivity|].
  simpl. unfold Lifecycle.set_status, Lifecycle.allowed. rewrite H. simpl.
  exact IH.
Qed.

Lemma run_from_processing (attempts : list Lifecycle.Status) (r : Lifecycle.Request) :
  Lifecycle.req_status r = Lifecycle.Processing ->
  snd (Lifecycle.run attempts r) = [] \/
  snd (Lifecycle.run attempts r) = [Lifecycle.Resolved] \/
  snd (Lifecycle.run attempts r) = [Lifecycle.Failed].
Proof.
  revert r. induction attempts as [|s' rest IH]; intros r H; [left; reflexivity|].
  simpl. unfold Lifecycle.set_status, Lifecycle.allowed. rewrite H.
  destruct s'; simpl; try (apply IH; exact H).
  - rewrite run_terminal by reflexivity. right; left; reflexivity.
  - rewrite run_terminal by reflexivity. right; right; reflexivity.
Qed.

Lemma run_from_pending (attempts : list Lifecycle.Status) (r : Lifecycle.Request) :
  Lifecycle.req_status r = Lifecycle.Pending ->
  snd (Lifecycle.run attempts r) = [] \/
  snd (Lifecycle.run attempts r) = [Lifecycle.Processing] \/
  snd (Lifecycle.run attempts r) = [Lifecycle.Processing; Lifecycle.Resolved] \/
  snd (Lifecycle.run attempts r) = [Lifecycle.Processing; Lifecycle.Failed].
Proof.
  revert r. induction attempts as [|s' rest IH]; intros r H; [left; reflexivity|].
  simpl. unfold Lifecycle.set_status, Lifecycle.allowed. rewrite H.
  destruct s'; simpl; try (apply IH; exact H).
  destruct (Lifecycle.run rest (Lifecycle.with_status Lifecycle.Processing r))
    as [r'' h] eqn:E.
  pose proof (run_from_processing rest
                (Lifecycle.with_status Lifecycle.Processing r) eq_refl) as P.
  rewrite E in P. simpl in *.
  destruct P as [-> | [-> | ->]]; tauto.
Qed.

(** C7: a Request status is one of pending, processing, resolved, failed;
    an applied status change is pending -> processing, processing ->
    resolved or processing -> failed; no attempted change alters a resolved
    Request, nor a failed one (so nothing re-runs it); and the statuses a
    submitted Request goes through are a prefix of one of the two
    progressions.  The History page tells the four statuses apart and
    offers each as a filter. *)
Theorem request_status_progression :
  (forall s, In (Lifecycle.status_name s)
                ["pending"; "processing"; "resolved"; "failed"]) /\
  (forall s' r r',
     Lifecycle.set_status s' r = Some r' ->
     r' = Lifecycle.with_status s' r /\
     ((Lifecycle.req_status r = Lifecycle.Pending /\ s' = Lifecycle.Processing) \/
      (Lifecycle.req_status r = Lifecycle.Processing /\
       (s' = Lifecycle.Resolved \/ s' = Lifecycle.Failed)))) /\
  (forall attempts r,
     Lifecycle.req_status r = Lifecycle.Resolved ->
     Lifecycle.run attempts r = (r, [])) /\
  (forall attempts r,
     Lifecycle.req_status r = Lifecycle.Failed ->
     Lifecycle.run attempts r = (r, [])) /\
  (forall attempts i a text now,
     let h := snd (Lifecycle.run attempts (Lifecycle.submit i a text now)) in
     h = [] \/ h = [Lifecycle.Processing] \/
     h = [Lifecycle.Processing; Lifecycle.Resolved] \/
     h = [Lifecycle.Processing; Lifecycle.Failed]) /\
  (forall s s',
     History.getStatusIcon (Lifecycle.status_name s)
     = History.getStatusIcon (Lifecycle.status_name s') -> s = s') /\
  (forall s, In (Lifecycle.status_name s) History.filter_buttons).
Proof.
  split; [|split; [|split; [|split; [|split; [|split]]]]].
  - intros []; simpl; tauto.
  - intros s' r r'. apply set_status_allowed.
  - intros attempts r H. apply run_terminal. rewrite H. reflexivity.
  - intros attempts r H. apply run_terminal. rewrite H. reflexivity.
  - intros attempts i a text now. apply run_from_pending. reflexivity.
  - intros [] []; simpl; intros H; try reflexivity; discriminate H.
  - intros []; simpl; tauto.
Qed.

Lemma request_status_progression_witness :
  let r := Lifecycle.mkRequest 1 7 "Students don't understand fractions"
                               (Some "Math") None Lifecycle.Resolved 0 in
  Lifecycle.run [Lifecycle.Processing; Lifecycle.Failed; Lifecycle.Pending] r
  = (r, []).
Proof.
  intros r.
  destruct request_status_progression as (_ & _ & H & _).
  apply H. reflexivity.
Defined.

(** ** Gateway fallback *)

(** C6: when the call to the hosted model fails with a network or timeout
    error, the adapter returns the static fallback playbook and does not
    raise, it has called the model exactly once, and the endpoint answers
    with that playbook and no error. *)
Theorem gateway_fallback :
  forall (external_model : nat -> string -> Gateway.ModelOutcome)
         (build_prompt : Gateway.Context -> string -> string)
         (parse : string -> Gateway.Playbook)
         (fallback_playbook : Gateway.Playbook)
         (ctx : Gateway.Context) (raw : string) (calls : nat),
    external_model calls (build_prompt ctx raw) = Gateway.NetworkFailure \/
    external_model calls (build_prompt ctx raw) = Gateway.TimedOut ->
    Gateway.generate external_model build_prompt parse fallback_playbook
                     ctx raw calls
    = (Normal fallback_playbook, S calls) /\
    Gateway.sos_submit external_model build_prompt parse fallback_playbook
                       ctx raw calls
    = (Gateway.mkReply 200 (Some fallback_playbook) None, S calls).
Proof.
  intros em bp parse fb ctx raw calls H.
  unfold Gateway.sos_submit, Gateway.generate.
  destruct H as [-> | ->]; split; reflexivity.
Qed.

Lemma gateway_fallback_witness :
  let fb := Gateway.mkPlaybook "Teaching Rescue Playbook" "" [] [] [] [] in
  let ctx := Gateway.mkContext None None None None in
  Gateway.generate (fun _ _ => Gateway.TimedOut) (fun _ raw => raw)
                   (fun text => Gateway.mkPlaybook text "" [] [] [] []) fb
                   ctx "Students don't understand fractions" 0
  = (Normal fb, 1).
Proof.
  intros fb ctx.
  apply (gateway_fallback (fun _ _ => Gateway.TimedOut) (fun _ raw => raw)
           (fun text => Gateway.mkPlaybook text "" [] [] [] []) fb ctx
           "Students don't understand fractions" 0).
  right. reflexivity.
Defined.


(** ** Votes *)

Lemma step_keeps (st : gmap nat Knowledge.SharedSolution) (op : Knowledge.Op)
    (i : nat) (s : Knowledge.SharedSolution) :
  st !! i = Some s ->
  exists s', Knowledge.step st op !! i = Some s' /\
             Knowledge.votes s <= Knowledge.votes s' /\
             Knowledge.author s' = Knowledge.author s /\
             Knowledge.content s' = Knowledge.content s.
Proof.
  intros H. destruct op as [a c | j]; simpl.
  - exists s. rewrite lookup_insert_ne; [auto|].
    intros E. pose proof (is_fresh (dom st)) as F.
    rewrite E in F. apply F. apply elem_of_dom. eauto.
  - destruct (decide (j = i)) as [->|N].
    + exists (Knowledge.upvote s). rewrite lookup_alter_eq, H. simpl.
      repeat split; lia.
    + exists s. rewrite lookup_alter_ne by exact N. auto.
Qed.

Lemma run_keeps (ops : list Knowledge.Op) (st : gmap nat Knowledge.SharedSolution)
    (i : nat) (s : Knowledge.SharedSolution) :
  st !! i = Some s ->
  exists s', Knowledge.run ops st !! i = Some s' /\
             Knowledge.votes s <= Knowledge.votes s' /\
             Knowledge.author s' = Knowledge.author s /\
             Knowledge.content s' = Knowledge.content s.
Proof.
  revert st s. induction ops as [|op ops IH]; intros st s H.
  - exists s. auto.
  - destruct (step_keeps st op i s H) as (s1 & H1 & V1 & A1 & C1).
    destruct (IH _ _ H1) as (s2 & H2 & V2 & A2 & C2).
    exists s2. unfold Knowledge.run in *. simpl.
    repeat split; [exact H2 | lia | congruence | congruence].
Qed.

Lemma run_app (pre post : list Knowledge.Op) (st : gmap nat Knowledge.SharedSolution) :
  Knowledge.run (pre ++ post) st = Knowledge.run post (Knowledge.run pre st).
Proof. unfold Knowledge.run. apply fold_left_app. Qed.

(** C5: whatever the clients do and however their operations interleave,
    a shared solution stays in the collection and its vote count never
    goes down: the count after any prefix of the schedule is at most the
    count after the whole schedule. *)
Theorem votes_monotone :
  forall (st : gmap nat Knowledge.SharedSolution)
         (threads : list (list Knowledge.Op)) (schedule : list Knowledge.Op),
    Knowledge.interleave threads schedule ->
    forall (pre post : list Knowledge.Op), schedule = (pre ++ post)%list ->
    forall (i : nat) (s : Knowledge.SharedSolution),
      Knowledge.run pre st !! i = Some s ->
      exists s', Knowledge.run schedule st !! i = Some s' /\
                 Knowledge.votes s <= Knowledge.votes s' /\
                 Knowledge.author s' = Knowledge.author s /\
                 Knowledge.content s' = Knowledge.content s.
Proof.
  intros st threads schedule _ pre post -> i s H.
  rewrite run_app. apply run_keeps. exact H.
Qed.

Lemma votes_monotone_witness :
  let st : gmap nat Knowledge.SharedSolution :=
    {[ 0 := Knowledge.mkSolution 7 "Use fraction strips" 2 ]} in
  exists s',
    Knowledge.run [Knowledge.Vote 0; Knowledge.Share 8 "Number line";
                   Knowledge.Vote 0] st !! 0 = Some s' /\
    3 <= Knowledge.votes s'.
Proof.
  intros st.
  destruct (votes_monotone st
              [[Knowledge.Vote 0; Knowledge.Vote 0];
               [Knowledge.Share 8 "Number line"]]
              [Knowledge.Vote 0; Knowledge.Share 8 "Number line"; Knowledge.Vote 0])
    with (pre := [Knowledge.Vote 0])
         (post := [Knowledge.Share 8 "Number line"; Knowledge.Vote 0])
         (i := 0) (s := Knowledge.mkSolution 7 "Use fraction strips" 3)
    as (s' & H & V & _).
  - apply (Knowledge.interleave_cons [] (Knowledge.Vote 0) [Knowledge.Vote 0]
             [[Knowledge.Share 8 "Number line"]]).
    apply (Knowledge.interleave_cons [[Knowledge.Vote 0]]
             (Knowledge.Share 8 "Number line") [] []).
    apply (Knowledge.interleave_cons [] (Knowledge.Vote 0) [] [[]]).
    apply Knowledge.interleave_nil. repeat constructor.
  - reflexivity.
  - reflexivity.
  - exists s'. split; [exact H | exact V].
Defined.


(** ** Dashboard counts *)

Lemma bump_lookup `{Countable K} (k k' : K) (m : gmap K nat) :
  default 0 (Analytics.bump k m !! k')
  = default 0 (m !! k') + (if bool_decide (k = k') then 1 else 0).
Proof.
  unfold Analytics.bump. case_bool_decide as E.
  - subst k'. rewrite lookup_insert_eq. simpl. lia.
  - rewrite lookup_insert_ne by exact E. lia.
Qed.

Lemma credit_lookup_eq (t v : nat) (m : gmap nat (nat * nat)) :
  Analytics.credit t v m !! t
  = Some (S (fst (default (0, 0) (m !! t))), snd (default (0, 0) (m !! t)) + v).
Proof. unfold Analytics.credit. apply lookup_insert_eq. Qed.

Lemma credit_lookup_ne (t t' v : nat) (m : gmap nat (nat * nat)) :
  t <> t' -> Analytics.credit t v m !! t' = m !! t'.
Proof. intros N. unfold Analytics.credit. apply lookup_insert_ne. exact N. Qed.

(** The ranking keeps the rows and puts them in descending order. *)
Lemma insert_ranked_In (e x : Analytics.Entry) (l : list Analytics.Entry) :
  In x (Analytics.insert_ranked e l) <-> x = e \/ In x l.
Proof.
  induction l as [|y l IH]; simpl.
  - split; intros [H|H]; auto.
  - destruct (Nat.ltb (Analytics.score y) (Analytics.score e)); simpl.
    + split; intros [H|H]; auto.
    + rewrite IH. split; intros H; decompose [or] H; auto.
Qed.

Lemma rank_In (x : Analytics.Entry) (l : list Analytics.Entry) :
  In x (Analytics.rank l) <-> In x l.
Proof.
  induction l as [|y l IH]; simpl; [reflexivity|].
  rewrite insert_ranked_In, IH. split; intros [H|H]; auto.
Qed.

Lemma insert_ranked_perm (e : Analytics.Entry) (l : list Analytics.Entry) :
  Permutation (Analytics.insert_ranked e l) (e :: l).
Proof.
  induction l as [|y l IH]; simpl; [reflexivity|].
  destruct (Nat.ltb (Analytics.score y) (Analytics.score e)); [reflexivity|].
  rewrite IH. apply perm_swap.
Qed.

Lemma rank_perm (l : list Analytics.Entry) : Permutation (Analytics.rank l) l.
Proof.
  induction l as [|y l IH]; simpl; [reflexivity|].
  rewrite insert_ranked_perm, IH. reflexivity.
Qed.

Lemma insert_ranked_descending (e : Analytics.Entry) (l : list Analytics.Entry) :
  Analytics.descending l -> Analytics.descending (Analytics.insert_ranked e l).
Proof.
  induction l as [|y l IH]; intros D; [simpl; auto|].
  simpl. destruct (Nat.ltb_spec (Analytics.score y) (Analytics.score e)) as [L|L].
  - split; [lia | exact D].
  - destruct D as (Hd & D). specialize (IH D).
    split; [|exact IH].
    destruct l as [|z l]; simpl in *; [exact L|].
    destruct (Nat.ltb (Analytics.score z) (Analytics.score e)); [exact L | exact Hd].
Qed.

Lemma rank_descending (l : list Analytics.Entry) :
  Analytics.descending (Analytics.rank l).
Proof.
  induction l as [|y l IH]; simpl; [exact I|].
  apply insert_ranked_descending. exact IH.
Qed.

(** Running a handler that does not write leaves the store as it is. *)
Lemma exec_no_write {A : Type} (h : Analytics.Handler A) (s : Analytics.Store) :
  Analytics.writes h s = 0 -> fst (Analytics.exec h s) = s.
Proof.
  revert s. induction h as [a|k IH|k IH|r k IH|x k IH]; intros s; simpl.
  - reflexivity.
  - apply IH.
  - apply IH.
  - discriminate.
  - discriminate.
Qed.

Section AggregateFacts.

Variable in_scope : Analytics.Role -> nat -> Lifecycle.Request -> bool.
Variable teacher_in_scope : Analytics.Role -> nat -> nat -> bool.
Variables share_weight vote_weight : nat.
Variables (role : Analytics.Role) (viewer : nat) (days now : Z).

Local Abbreviation keep := (Analytics.matches in_scope role viewer days now).
Local Abbreviation add :=
  (fun (d : Analytics.Dashboard) (r : Lifecycle.Request) =>
     if keep r then Analytics.count_in r d else d).
Local Abbreviation scoped :=
  (fun x : Knowledge.SharedSolution =>
     teacher_in_scope role viewer (Knowledge.author x)).
Local Abbreviation tstep :=
  (fun (m : gmap nat (nat * nat)) (x : Knowledge.SharedSolution) =>
     if scoped x
     then Analytics.credit (Knowledge.author x) (Knowledge.votes x) m else m).
Local Abbreviation by_teacher t :=
  (fun x : Knowledge.SharedSolution =>
     scoped x && Nat.eqb (Knowledge.author x) t).

Lemma fold_total (db : list Lifecycle.Request) (d0 : Analytics.Dashboard) :
  Analytics.total (fold_left add db d0)
  = Analytics.total d0 + length (List.filter keep db).
Proof.
  revert d0. induction db as [|r db IH]; intros d0; simpl; [lia|].
  rewrite IH. destruct (keep r); simpl; lia.
Qed.

Lemma fold_per_subject (db : list Lifecycle.Request) (d0 : Analytics.Dashboard)
    (s : option string) :
  default 0 (Analytics.per_subject (fold_left add db d0) !! s)
  = default 0 (Analytics.per_subject d0 !! s)
    + length (List.filter
                (fun r => keep r && bool_decide (Lifecycle.detected_subject r = s))
                db).
Proof.
  revert d0. induction db as [|r db IH]; intros d0; simpl; [lia|].
  rewrite IH. destruct (keep r); simpl; [|lia].
  rewrite bump_lookup. case_bool_decide; simpl; lia.
Qed.

Lemma fold_per_day (db : list Lifecycle.Request) (d0 : Analytics.Dashboard)
    (day : Z) :
  default 0 (Analytics.per_day (fold_left add db d0) !! day)
  = default 0 (Analytics.per_day d0 !! day)
    + length (List.filter
                (fun r => keep r
                          && bool_decide (Analytics.day_of (Lifecycle.timestamp r) = day))
                db).
Proof.
  revert d0. induction db as [|r db IH]; intros d0; simpl; [lia|].
  rewrite IH. destruct (keep r); simpl; [|lia].
  rewrite bump_lookup. case_bool_decide; simpl; lia.
Qed.

Lemma fold_leaderboard (db : list Lifecycle.Request) (d0 : Analytics.Dashboard) :
  Analytics.leaderboard (fold_left add db d0) = Analytics.leaderboard d0.
Proof.
  revert d0. induction db as [|r db IH]; intros d0; simpl; [reflexivity|].
  rewrite IH. destruct (keep r); reflexivity.
Qed.

Lemma tally_fold (shared : list Knowledge.SharedSolution)
    (m : gmap nat (nat * nat)) (t : nat) :
  default (0, 0) (fold_left tstep shared m !! t)
  = (fst (default (0, 0) (m !! t)) + length (List.filter (by_teacher t) shared),
     snd (default (0, 0) (m !! t))
     + list_sum (map Knowledge.votes (List.filter (by_teacher t) shared))).
Proof.
  revert m. induction shared as [|x xs IH]; intros m; simpl.
  - rewrite !Nat.add_0_r. destruct (default (0, 0) (m !! t)); reflexivity.
  - rewrite IH. destruct (scoped x) eqn:S; simpl; [|reflexivity].
    destruct (Nat.eqb_spec (Knowledge.author x) t) as [E|E]; simpl.
    + rewrite E. rewrite credit_lookup_eq. simpl. f_equal; lia.
    + rewrite credit_lookup_ne by exact E. reflexivity.
Qed.

Lemma tally_present (shared : list Knowledge.SharedSolution)
    (m : gmap nat (nat * nat)) (t : nat) :
  is_Some (fold_left tstep shared m !! t) <->
  is_Some (m !! t) \/
  exists x, In x shared /\ scoped x = true /\ Knowledge.author x = t.
Proof.
  revert m. induction shared as [|x xs IH]; intros m; simpl.
  - split; [auto | intros [H | (x & [] & _)]; exact H].
  - rewrite IH. destruct (scoped x) eqn:S.
    + destruct (Nat.eq_dec (Knowledge.author x) t) as [E|E].
      * rewrite E, credit_lookup_eq. split.
        -- intros _. right. exists x. auto.
        -- intros _. left. eauto.
      * rewrite credit_lookup_ne by exact E. split.
        -- intros [H | (y & Hy & Sy & Ey)]; [auto|]. right. exists y. auto.
        -- intros [H | (y & [<- | Hy] & Sy & Ey)]; [auto | contradiction |].
           right. exists y. auto.
    + split.
      * intros [H | (y & Hy & Sy & Ey)]; [auto|]. right. exists y. auto.
      * intros [H | (y & [<- | Hy] & Sy & Ey)]; [auto | congruence |].
        right. exists y. auto.
Qed.

(** The rows of the leaderboard are the teachers of the tally. *)
Lemma leaderboard_rows (shared : list Knowledge.SharedSolution)
    (e : Analytics.Entry) :
  In e (Analytics.leaderboard_of teacher_in_scope share_weight vote_weight
          role viewer shared) <->
  exists sh vo,
    Analytics.tally teacher_in_scope role viewer shared !! Analytics.teacher e
    = Some (sh, vo) /\
    e = Analytics.mkEntry (Analytics.teacher e) sh vo
          (share_weight * sh + vote_weight * vo).
Proof.
  unfold Analytics.leaderboard_of. rewrite rank_In, in_map_iff. split.
  - intros ([t [sh vo]] & <- & Hin). apply list_elem_of_In in Hin.
    apply elem_of_map_to_list in Hin. exists sh, vo. simpl. auto.
  - intros (sh & vo & Hl & He). exists (Analytics.teacher e, (sh, vo)).
    split; [rewrite He; reflexivity|].
    apply list_elem_of_In, elem_of_map_to_list. exact Hl.
Qed.

Lemma leaderboard_teachers_NoDup (shared : list Knowledge.SharedSolution) :
  NoDup (map Analytics.teacher
           (Analytics.leaderboard_of teacher_in_scope share_weight vote_weight
              role viewer shared)).
Proof.
  unfold Analytics.leaderboard_of.
  rewrite rank_perm, map_map. simpl. apply NoDup_fst_map_to_list.
Qed.

End AggregateFacts.

(** The claim of C4 as it is worded, every aggregate count of the dashboard
    being a number of Request records that match the filter, does not hold
    of the leaderboard: with no request at all and a teacher who shared two
    solutions, the dashboard returns 2 shares, and every count of matching
    requests is 0. *)
Lemma dashboard_counts_not_all_requests :
  ~ (forall (in_scope : Analytics.Role -> nat -> Lifecycle.Request -> bool)
            (teacher_in_scope : Analytics.Role -> nat -> nat -> bool)
            (share_weight vote_weight : nat)
            (role : Analytics.Role) (viewer : nat) (days now : Z)
            (s : Analytics.Store) (c : nat),
       In c (Analytics.counts_returned
               (snd (Analytics.exec
                       (Analytics.dashboard in_scope teacher_in_scope
                          share_weight vote_weight role viewer days now) s))) ->
       exists p : Lifecycle.Request -> bool,
         c = length (List.filter
                       (fun r => Analytics.matches in_scope role viewer days now r
                                 && p r)
                       (Analytics.requests s))).
Proof.
  intros H.
  destruct (H (fun _ _ _ => true) (fun _ _ _ => true) 10 1 Analytics.CRP 0 7%Z 0%Z
              (Analytics.mkStore []
                 [Knowledge.mkSolution 7 "Use fraction strips" 3;
                  Knowledge.mkSolution 7 "Number line" 0])
              2) as (p & E).
  - vm_compute. tauto.
  - simpl in E. discriminate E.
Qed.

(** C4, amended: for every role scope and every window of days, the total,
    each per-subject count and each per-day count of the dashboard is the
    number of persisted Request records that the filter keeps (and that
    have that subject, or fall on that day).  The counts of the leaderboard
    are not of requests: each row is a teacher in scope who shared at least
    one solution, each such teacher has one row, with the number of
    solutions the teacher shared, the sum of the votes on them and the
    weighted score of the two, in descending order of score.  Computing
    the dashboard reads the two collections and writes nothing: the store
    after is the store before.  The client asks for every dashboard with a
    GET, passing the window in [days] (7 when none is given). *)
Theorem dashboard_counts :
  forall (in_scope : Analytics.Role -> nat -> Lifecycle.Request -> bool)
         (teacher_in_scope : Analytics.Role -> nat -> nat -> bool)
         (share_weight vote_weight : nat)
         (role : Analytics.Role) (viewer : nat) (days now : Z)
         (s : Analytics.Store),
    let keep := Analytics.matches in_scope role viewer days now in
    let h := Analytics.dashboard in_scope teacher_in_scope share_weight
               vote_weight role viewer days now in
    let d := snd (Analytics.exec h s) in
    let by_teacher := fun t (x : Knowledge.SharedSolution) =>
                        Nat.eqb (Knowledge.author x) t in
    fst (Analytics.exec h s) = s /\
    Analytics.writes h s = 0 /\
    Analytics.total d = length (List.filter keep (Analytics.requests s)) /\
    (forall sub,
       default 0 (Analytics.per_subject d !! sub)
       = length (List.filter
                   (fun r => keep r
                             && bool_decide (Lifecycle.detected_subject r = sub))
                   (Analytics.requests s))) /\
    (forall day,
       default 0 (Analytics.per_day d !! day)
       = length (List.filter
                   (fun r => keep r
                             && bool_decide
                                  (Analytics.day_of (Lifecycle.timestamp r) = day))
                   (Analytics.requests s))) /\
    (forall e,
       In e (Analytics.leaderboard d) ->
       teacher_in_scope role viewer (Analytics.teacher e) = true /\
       Analytics.solutions_shared e
       = length (List.filter (by_teacher (Analytics.teacher e))
                             (Analytics.solutions s)) /\
       1 <= Analytics.solutions_shared e /\
       Analytics.helpful_votes e
       = list_sum (map Knowledge.votes
                     (List.filter (by_teacher (Analytics.teacher e))
                                  (Analytics.solutions s))) /\
       Analytics.score e
       = share_weight * Analytics.solutions_shared e
         + vote_weight * Analytics.helpful_votes e) /\
    (forall t,
       In t (map Analytics.teacher (Analytics.leaderboard d)) <->
       teacher_in_scope role viewer t = true /\
       exists x, In x (Analytics.solutions s) /\ Knowledge.author x = t) /\
    NoDup (map Analytics.teacher (Analytics.leaderboard d)) /\
    Analytics.descending (Analytics.leaderboard d) /\
    Client.method Client.getTeacher = Client.GET /\
    Client.method Client.getOverview = Client.GET /\
    (forall v,
       Client.method (Client.getCRP v) = Client.GET /\
       Client.method (Client.getDIET v) = Client.GET /\
       Client.params (Client.getCRP v)
       = [("days", Client.default_param (JNum 7) v)] /\
       Client.params (Client.getDIET v)
       = [("days", Client.default_param (JNum 7) v)]).
Proof.
  intros in_scope tscope wS wV role viewer days now s keep h d by_teacher.
  assert (W : Analytics.writes h s = 0) by reflexivity.
  split; [apply exec_no_write; exact W|]. split; [exact W|].
  assert (D : d = Analytics.aggregate in_scope tscope wS wV role viewer days now
                    (Analytics.requests s) (Analytics.solutions s))
    by reflexivity.
  assert (L : Analytics.leaderboard d
              = Analytics.leaderboard_of tscope wS wV role viewer
                  (Analytics.solutions s)).
  { rewrite D. unfold Analytics.aggregate. rewrite fold_leaderboard. reflexivity. }
  assert (Rows : forall e, In e (Analytics.leaderboard d) ->
            tscope role viewer (Analytics.teacher e) = true /\
            (exists x, In x (Analytics.solutions s)
                       /\ Knowledge.author x = Analytics.teacher e) /\
            Analytics.solutions_shared e
            = length (List.filter (by_teacher (Analytics.teacher e))
                                  (Analytics.solutions s)) /\
            Analytics.helpful_votes e
            = list_sum (map Knowledge.votes
                          (List.filter (by_teacher (Analytics.teacher e))
                                       (Analytics.solutions s))) /\
            Analytics.score e
            = wS * Analytics.solutions_shared e + wV * Analytics.helpful_votes e).
  { intros e He. rewrite L in He.
    apply leaderboard_rows in He as (sh & vo & Hl & He).
    assert (P : is_Some (Analytics.tally tscope role viewer (Analytics.solutions s)
                         !! Analytics.teacher e)) by eauto.
    unfold Analytics.tally in P.
    apply tally_present in P as [P | (x & Hx & Sx & Ex)];
      [rewrite lookup_empty in P; destruct P as [? P]; discriminate P|].
    assert (T : tscope role viewer (Analytics.teacher e) = true)
      by (rewrite <- Ex; exact Sx).
    pose proof (tally_fold tscope role viewer (Analytics.solutions s) ∅
                  (Analytics.teacher e)) as F.
    cbv beta in F. unfold Analytics.tally in Hl.
    rewrite Hl, lookup_empty in F. simpl in F.
    assert (Same : List.filter
                     (fun x => tscope role viewer (Knowledge.author x)
                               && Nat.eqb (Knowledge.author x) (Analytics.teacher e))
                     (Analytics.solutions s)
                   = List.filter (by_teacher (Analytics.teacher e))
                                 (Analytics.solutions s)).
    { apply filter_ext. intros y. unfold by_teacher.
      destruct (Nat.eqb_spec (Knowledge.author y) (Analytics.teacher e)) as [E|E];
        [rewrite E, T; reflexivity | apply andb_false_r]. }
    rewrite Same in F. injection F as -> ->.
    split; [exact T|]. split; [exists x; auto|].
    rewrite He. simpl. auto. }
  split; [rewrite D; unfold Analytics.aggregate; rewrite fold_total; reflexivity|].
  split; [intros sub; rewrite D; unfold Analytics.aggregate;
          rewrite fold_per_subject; reflexivity|].
  split; [intros day; rewrite D; unfold Analytics.aggregate;
          rewrite fold_per_day; reflexivity|].
  split.
  { intros e He. destruct (Rows e He) as (T & (x & Hx & Ex) & Sh & Vo & Sc).
    split; [exact T|]. split; [exact Sh|]. split; [|split; [exact Vo | exact Sc]].
    rewrite Sh.
    assert (Hin : In x (List.filter (by_teacher (Analytics.teacher e))
                                    (Analytics.solutions s))).
    { apply filter_In. split; [exact Hx|]. unfold by_teacher.
      apply Nat.eqb_eq. exact Ex. }
    destruct (List.filter _ _); [destruct Hin | simpl; lia]. }
  split.
  { intros t. rewrite in_map_iff. split.
    - intros (e & <- & He). destruct (Rows e He) as (T & X & _). auto.
    - intros (T & x & Hx & Ex).
      assert (P : is_Some (Analytics.tally tscope role viewer (Analytics.solutions s)
                           !! t)).
      { unfold Analytics.tally. apply tally_present. right. exists x.
        rewrite Ex. auto. }
      destruct P as [[sh vo] P].
      exists (Analytics.mkEntry t sh vo (wS * sh + wV * vo)). split; [reflexivity|].
      rewrite L. apply leaderboard_rows. exists sh, vo. auto. }
  split; [rewrite L; apply leaderboard_teachers_NoDup|].
  split; [rewrite L; apply rank_descending|].
  split; [reflexivity|]. split; [reflexivity|].
  intros v. repeat split; reflexivity.
Qed.

Lemma dashboard_counts_witness :
  let s := Analytics.mkStore []
             [Knowledge.mkSolution 7 "Use fraction strips" 3;
              Knowledge.mkSolution 9 "Clap pattern" 1;
              Knowledge.mkSolution 7 "Number line" 0] in
  let row := Analytics.mkEntry 7 2 3 23 in
  In row
     (Analytics.leaderboard
        (snd (Analytics.exec
                (Analytics.dashboard (fun _ _ _ => true) (fun _ _ _ => true)
                   10 1 Analytics.CRP 0 7 0) s))) /\
  Analytics.solutions_shared row
  = length (List.filter (fun x => Nat.eqb (Knowledge.author x) 7)
                        (Analytics.solutions s)).
Proof.
  intros s row.
  assert (Hin : In row
     (Analytics.leaderboard
        (snd (Analytics.exec
                (Analytics.dashboard (fun _ _ _ => true) (fun _ _ _ => true)
                   10 1 Analytics.CRP 0 7 0) s))))
    by (vm_compute; tauto).
  split; [exact Hin|].
  destruct (dashboard_counts (fun _ _ _ => true) (fun _ _ _ => true)
              10 1 Analytics.CRP 0 7%Z 0%Z s)
    as (_ & _ & _ & _ & _ & H & _).
  destruct (H row Hin) as (_ & Hs & _). exact Hs.
Defined.

(** A store of four requests, two of them of the viewer and in the last
    seven days, and three shared solutions, seen through a scope that shows
    the viewer their own requests and every teacher. *)
Example dashboard_counts_example :
  let own := fun (_ : Analytics.Role) (viewer : nat) (r : Lifecycle.Request) =>
               Nat.eqb (Lifecycle.author r) viewer in
  let s := Analytics.mkStore
    [ Lifecycle.mkRequest 1 7 "fractions" (Some "Math") None Lifecycle.Resolved 900000;
      Lifecycle.mkRequest 2 7 "noise" None None Lifecycle.Failed 950000;
      Lifecycle.mkRequest 3 7 "old" (Some "Math") None Lifecycle.Resolved 10;
      Lifecycle.mkRequest 4 9 "other" (Some "Math") None Lifecycle.Resolved 950000 ]
    [ Knowledge.mkSolution 7 "Use fraction strips" 3;
      Knowledge.mkSolution 9 "Clap pattern" 40;
      Knowledge.mkSolution 7 "Number line" 0 ] in
  let d := snd (Analytics.exec
                  (Analytics.dashboard own (fun _ _ _ => true) 10 1
                     Analytics.Teacher 7 7 1000000) s) in
  Analytics.total d = 2 /\
  Analytics.per_subject d !! Some "Math" = Some 1 /\
  Analytics.per_subject d !! None = Some 1 /\
  Analytics.per_day d !! 10%Z = Some 2 /\
  Analytics.leaderboard d
  = [Analytics.mkEntry 9 1 40 50; Analytics.mkEntry 7 2 3 23] /\
  Analytics.writes (Analytics.share 7 "Bundle sticks") s = 1.
Proof. repeat split; vm_compute; reflexivity. Qed.

(** * Further properties of the client *)

(** ** App.jsx: login, logout, reload and routes *)

Lemma getItem_setItem_eq (k v : string) (b : Client.Browser) :
  Client.getItem (AppShell.setItem k v b) k = Some v.
Proof. unfold Client.getItem, AppShell.setItem. simpl. apply lookup_insert_eq. Qed.

Lemma getItem_setItem_ne (k k' v : string) (b : Client.Browser) :
  k <> k' ->
  Client.getItem (AppShell.setItem k v b) k' = Client.getItem b k'.
Proof.
  intros N. unfold Client.getItem, AppShell.setItem. simpl.
  apply lookup_insert_ne. exact N.
Qed.

Lemma getItem_removeItem_eq (k : string) (b : Client.Browser) :
  Client.getItem (Client.removeItem k b) k = None.
Proof. unfold Client.getItem, Client.removeItem. simpl. apply lookup_delete_eq. Qed.

Lemma getItem_removeItem_ne (k k' : string) (b : Client.Browser) :
  k <> k' ->
  Client.getItem (Client.removeItem k b) k' = Client.getItem b k'.
Proof.
  intros N. unfold Client.getItem, Client.removeItem. simpl.
  apply lookup_delete_ne. exact N.
Qed.

Lemma truthy_JStr (s : string) : truthy (JStr s) = true <-> s <> "".
Proof.
  simpl. destruct (String.eqb_spec s ""); simpl; split; congruence.
Qed.

Lemma token_after_login (stringify : option App.User -> string)
    (u : option App.User) (token : JsVal) (st : AppShell.State) :
  Client.getItem (AppShell.browser (AppShell.handleLogin stringify u token st))
                 "token"
  = Some (Client.to_string token).
Proof.
  simpl. rewrite getItem_setItem_ne by discriminate. apply getItem_setItem_eq.
Qed.

(** X1: after [handleLogin] every request carries the token just stored:
    the header is 'Bearer ' followed by the string conversion of the token
    (so 'Bearer undefined' when the login answer had no access_token),
    whatever the storage held before; only the empty string is stored
    without effect on the requests. *)
Theorem login_then_bearer :
  forall (stringify : option App.User -> string) (u : option App.User)
         (token : JsVal) (st : AppShell.State) (config : Client.Config),
    let b := AppShell.browser (AppShell.handleLogin stringify u token st) in
    (Client.to_string token <> "" ->
       Client.headers (Client.request_interceptor b config) !! "Authorization"
       = Some ("Bearer " +:+ Client.to_string token)) /\
    (Client.to_string token = "" ->
       Client.request_interceptor b config = config).
Proof.
  intros stringify u token st config b. subst b.
  unfold Client.request_interceptor. rewrite token_after_login.
  split; intros H.
  - apply truthy_JStr in H. rewrite H. simpl. apply lookup_insert_eq.
  - rewrite H. reflexivity.
Qed.

Lemma login_then_bearer_witness :
  Client.headers
    (Client.request_interceptor
       (AppShell.browser
          (AppShell.handleLogin (fun _ => "{}") None JUndefined
             (AppShell.initial (Client.mkBrowser {[ "token" := "old" ]} "/login"))))
       Client.getTeacher) !! "Authorization"
  = Some "Bearer undefined".
Proof.
  destruct (login_then_bearer (fun _ => "{}") None JUndefined
              (AppShell.initial (Client.mkBrowser {[ "token" := "old" ]} "/login"))
              Client.getTeacher) as (H & _).
  apply H. discriminate.
Defined.

(** X2: [handleLogout] and the 401 branch of the response interceptor leave
    the same local storage; after either, requests go out as they are
    configured (no Authorization header is added), and the page reloaded by
    the redirect starts unauthenticated without parsing anything. *)
Theorem logout_matches_401 :
  forall (st : AppShell.State) (r : Client.Response),
    Client.status r = 401%Z ->
    let b401 := fst (Client.receive (AppShell.browser st) (Client.Answer r)) in
    let bout := AppShell.browser (AppShell.handleLogout st) in
    Client.localStorage b401 = Client.localStorage bout /\
    (forall config,
       Client.request_interceptor b401 config = config /\
       Client.request_interceptor bout config = config) /\
    (forall parse,
       AppShell.mount parse (AppShell.initial b401)
       = Normal (AppShell.mkState false None false b401) /\
       AppShell.mount parse (AppShell.initial bout)
       = Normal (AppShell.mkState false None false bout)).
Proof.
  intros st r H b401 bout.
  assert (E : b401 = Client.set_href "/login" bout).
  { subst b401 bout. unfold Client.receive.
    rewrite H, validateStatus_401, on_rejected_401
      by (unfold Client.is_401; simpl; rewrite H; reflexivity).
    reflexivity. }
  assert (T : Client.getItem bout "token" = None).
  { subst bout. simpl. rewrite getItem_removeItem_ne by discriminate.
    apply getItem_removeItem_eq. }
  assert (T' : Client.getItem b401 "token" = None) by (rewrite E; exact T).
  split; [rewrite E; reflexivity|]. split.
  - intros config. unfold Client.request_interceptor. rewrite T, T'. tauto.
  - intros parse. unfold AppShell.mount, AppShell.initial. simpl AppShell.browser.
    rewrite T, T'. tauto.
Qed.

Lemma logout_matches_401_witness :
  let st := AppShell.mkState true None false
              (Client.mkBrowser {[ "token" := "abc"; "user" := "{}"; "lang" := "en" ]}
                                "/history") in
  Client.localStorage
    (fst (Client.receive (AppShell.browser st)
            (Client.Answer (Client.mkResponse 401 ""))))
  = Client.localStorage (AppShell.browser (AppShell.handleLogout st)).
Proof.
  intros st.
  destruct (logout_matches_401 st (Client.mkResponse 401 "") eq_refl) as (H & _).
  exact H.
Defined.

(** X3: a reload after [handleLogin] restores the session: when the token
    and the serialized user are non-empty and the user parses back, the
    mount effect ends authenticated with that user and the spinner off. *)
Theorem reload_restores_login :
  forall (stringify : option App.User -> string)
         (parse : string -> Completion (option App.User))
         (u : option App.User) (token : JsVal) (st : AppShell.State),
    parse (stringify u) = Normal u ->
    Client.to_string token <> "" ->
    stringify u <> "" ->
    let b := AppShell.browser (AppShell.handleLogin stringify u token st) in
    AppShell.mount parse (AppShell.initial b)
    = Normal (AppShell.mkState true u false b).
Proof.
  intros stringify parse u token st Hp Ht Hu b.
  unfold AppShell.mount, AppShell.initial. simpl AppShell.browser.
  subst b. rewrite token_after_login.
  simpl AppShell.browser at 1. rewrite getItem_setItem_eq.
  apply truthy_JStr in Ht, Hu. rewrite Ht, Hu. simpl. rewrite Hp. reflexivity.
Qed.

Lemma reload_restores_login_witness :
  let u := Some (App.mkUser (JStr "Asha") (JStr "crp")) in
  let stringify := fun (_ : option App.User) => "{...}" in
  let parse := fun (_ : string) => Normal u in
  let b := AppShell.browser
             (AppShell.handleLogin stringify u (JStr "abc")
                (AppShell.initial (Client.mkBrowser ∅ "/login"))) in
  AppShell.mount parse (AppShell.initial b)
  = Normal (AppShell.mkState true u false b).
Proof.
  intros u stringify parse b.
  apply (reload_restores_login stringify parse u (JStr "abc")
           (AppShell.initial (Client.mkBrowser ∅ "/login")));
    [reflexivity | discriminate | discriminate].
Defined.

(** X4: the mount effect needs both entries: when 'token' or 'user' is
    missing or empty the page stays unauthenticated and the stored user is
    not parsed; when both are there and the stored user is not JSON, the
    effect throws. *)
Theorem mount_needs_both :
  forall (parse : string -> Completion (option App.User)) (b : Client.Browser),
    (Client.getItem b "token" = None \/ Client.getItem b "token" = Some "" \/
     Client.getItem b "user" = None \/ Client.getItem b "user" = Some "" ->
     AppShell.mount parse (AppShell.initial b)
     = Normal (AppShell.mkState false None false b)) /\
    (forall t u m,
       Client.getItem b "token" = Some t -> t <> "" ->
       Client.getItem b "user" = Some u -> u <> "" ->
       parse u = Throw m ->
       AppShell.mount parse (AppShell.initial b) = Throw m).
Proof.
  intros parse b. unfold AppShell.mount, AppShell.initial. simpl.
  split.
  - intros H.
    destruct (Client.getItem b "token") as [t|], (Client.getItem b "user") as [u|];
      try reflexivity.
    destruct (String.eqb_spec t "") as [->|Nt]; [reflexivity|].
    destruct (String.eqb_spec u "") as [->|Nu]; [reflexivity|].
    exfalso. destruct H as [H|[H|[H|H]]]; congruence.
  - intros t u m -> Nt -> Nu Hp.
    apply String.eqb_neq in Nt, Nu. rewrite Nt, Nu. simpl. rewrite Hp. reflexivity.
Qed.

Lemma mount_needs_both_witness :
  AppShell.mount (fun _ => Throw "SyntaxError")
                 (AppShell.initial (Client.mkBrowser {[ "token" := "abc" ]} "/"))
  = Normal (AppShell.mkState false None false
              (Client.mkBrowser {[ "token" := "abc" ]} "/")).
Proof.
  destruct (mount_needs_both (fun _ => Throw "SyntaxError")
              (Client.mkBrowser {[ "token" := "abc" ]} "/")) as (H & _).
  apply H. right; right; left. reflexivity.
Defined.

Section RouteFacts.

Variable toLowerCase : string -> string.
Variable matchPath : string -> string -> bool.

(** Without a session no route shows the dashboard layout, and with one no
    route shows the login or the registration form. *)
Lemma render_guard (st : AppShell.State) (pathname : string) :
  (AppShell.isAuthenticated st = false ->
   AppShell.is_protected (AppShell.render toLowerCase matchPath st pathname)
   = false) /\
  (AppShell.isAuthenticated st = true ->
   AppShell.render toLowerCase matchPath st pathname <> AppShell.LoginPage /\
   AppShell.render toLowerCase matchPath st pathname <> AppShell.RegisterPage).
Proof.
  unfold AppShell.render, AppShell.routes.
  destruct (AppShell.loading st); [split; intros; [reflexivity | split; discriminate]|].
  simpl.
  split; intros H;
    repeat match goal with
    | |- context [matchPath ?p pathname] => destruct (matchPath p pathname); simpl
    end;
    rewrite ?H; simpl; try reflexivity; split; discriminate.
Qed.

Hypothesis match_star : forall p, matchPath "*" p = true.
Hypothesis match_self :
  forall t, In t ["/"; "/login"; "/dashboard"] -> matchPath t t = true.
Hypothesis match_other :
  forall pat t,
    In pat AppShell.static_paths -> In t ["/"; "/login"; "/dashboard"] ->
    pat <> t -> matchPath pat t = false.

Lemma render_root (st : AppShell.State) :
  AppShell.loading st = false ->
  AppShell.render toLowerCase matchPath st "/" = AppShell.LandingPage.
Proof.
  intros L. unfold AppShell.render, AppShell.routes. rewrite L. simpl.
  rewrite match_self by (simpl; tauto). reflexivity.
Qed.

Lemma render_login (st : AppShell.State) :
  AppShell.loading st = false ->
  AppShell.render toLowerCase matchPath st "/login"
  = if AppShell.isAuthenticated st then AppShell.Navigate "/dashboard"
    else AppShell.LoginPage.
Proof.
  intros L. unfold AppShell.render, AppShell.routes. rewrite L. simpl.
  rewrite (match_other "/" "/login") by (simpl; tauto || discriminate).
  rewrite match_self by (simpl; tauto). reflexivity.
Qed.

Lemma render_dashboard (st : AppShell.State) :
  AppShell.loading st = false ->
  AppShell.render toLowerCase matchPath st "/dashboard"
  = if AppShell.isAuthenticated st
    then AppShell.DashboardLayout (AppShell.user st)
           (AppShell.SmartDashboardView
              (App.SmartDashboard toLowerCase (AppShell.user st)))
    else AppShell.Navigate "/login".
Proof.
  intros L. unfold AppShell.render, AppShell.routes. rewrite L. simpl.
  rewrite (match_other "/" "/dashboard") by (simpl; tauto || discriminate).
  rewrite (match_other "/login" "/dashboard") by (simpl; tauto || discriminate).
  rewrite (match_other "/register" "/dashboard") by (simpl; tauto || discriminate).
  rewrite (match_other "/sos" "/dashboard") by (simpl; tauto || discriminate).
  rewrite match_self by (simpl; tauto). reflexivity.
Qed.

Lemma render_navigate_targets (st : AppShell.State) (pathname t : string) :
  AppShell.loading st = false ->
  AppShell.render toLowerCase matchPath st pathname = AppShell.Navigate t ->
  (t = "/dashboard" /\ AppShell.isAuthenticated st = true) \/
  (t = "/login" /\ AppShell.isAuthenticated st = false) \/
  t = "/".
Proof.
  intros L. unfold AppShell.render, AppShell.routes. rewrite L. simpl.
  repeat match goal with
  | |- context [matchPath ?p pathname] => destruct (matchPath p pathname); simpl
  end;
  destruct (AppShell.isAuthenticated st); intros E; try discriminate E;
    injection E as <-; tauto.
Qed.

End RouteFacts.

(** X5: route guards and redirects.  Once the spinner is off: without a
    session no pathname renders the dashboard layout (dashboard, legacy
    dashboard and history redirect to /login); with a session no pathname
    renders the login or registration form; and every redirect lands on a
    page after one hop, so redirects never chain or loop.  The router's
    matcher is a parameter: it has to match the three redirect targets with
    their own routes only, and [*] with everything. *)
Theorem routes_guard_and_settle :
  forall (toLowerCase : string -> string) (matchPath : string -> string -> bool),
    (forall p, matchPath "*" p = true) ->
    (forall t, In t ["/"; "/login"; "/dashboard"] -> matchPath t t = true) ->
    (forall pat t,
       In pat AppShell.static_paths -> In t ["/"; "/login"; "/dashboard"] ->
       pat <> t -> matchPath pat t = false) ->
    forall (st : AppShell.State) (pathname : string),
      AppShell.loading st = false ->
      (AppShell.isAuthenticated st = false ->
       AppShell.is_protected (AppShell.render toLowerCase matchPath st pathname)
       = false) /\
      (AppShell.isAuthenticated st = true ->
       AppShell.render toLowerCase matchPath st pathname <> AppShell.LoginPage /\
       AppShell.render toLowerCase matchPath st pathname <> AppShell.RegisterPage) /\
      AppShell.render toLowerCase matchPath st pathname <> AppShell.Blank /\
      (forall t,
         AppShell.render toLowerCase matchPath st pathname = AppShell.Navigate t ->
         AppShell.is_navigate (AppShell.render toLowerCase matchPath st t) = false /\
         AppShell.render toLowerCase matchPath st t <> AppShell.Spinner).
Proof.
  intros lc mp Hstar Hself Hother st pathname L.
  destruct (render_guard lc mp st pathname) as (G1 & G2).
  split; [exact G1|]. split; [exact G2|]. split.
  - unfold AppShell.render, AppShell.routes. rewrite L. simpl.
    rewrite Hstar.
    repeat match goal with
    | |- context [mp ?p pathname] => destruct (mp p pathname); simpl
    end;
    destruct (AppShell.isAuthenticated st); discriminate.
  - intros t E.
    destruct (render_navigate_targets lc mp st pathname t L E)
      as [[-> A] | [[-> A] | ->]].
    + rewrite (render_dashboard lc mp Hself Hother st L), A.
      split; [reflexivity | discriminate].
    + rewrite (render_login lc mp Hself Hother st L), A.
      split; [reflexivity | discriminate].
    + rewrite (render_root lc mp Hself st L). split; [reflexivity | discriminate].
Qed.

Lemma routes_guard_and_settle_witness :
  let st := AppShell.mkState false None false (Client.mkBrowser ∅ "/history") in
  AppShell.render App.toLowerCase_ascii AppShell.matchExact st "/history"
  = AppShell.Navigate "/login" /\
  AppShell.is_navigate
    (AppShell.render App.toLowerCase_ascii AppShell.matchExact st "/login") = false.
Proof.
  intros st. split; [reflexivity|].
  assert (Hstar : forall p, AppShell.matchExact "*" p = true) by reflexivity.
  assert (Hself : forall t, In t ["/"; "/login"; "/dashboard"] ->
                            AppShell.matchExact t t = true).
  { intros t _. unfold AppShell.matchExact. rewrite String.eqb_refl.
    apply orb_true_r. }
  assert (Hother : forall pat t,
             In pat AppShell.static_paths -> In t ["/"; "/login"; "/dashboard"] ->
             pat <> t -> AppShell.matchExact pat t = false).
  { intros pat t Hp _ N. unfold AppShell.matchExact.
    apply String.eqb_neq in N. rewrite N.
    simpl in Hp. decompose [or] Hp; subst; try reflexivity; contradiction. }
  destruct (routes_guard_and_settle App.toLowerCase_ascii AppShell.matchExact
              Hstar Hself Hother st "/history" eq_refl) as (_ & _ & _ & H).
  apply (H "/login"). reflexivity.
Defined.

(** ** History.jsx: how searches and status filters compose *)

Lemma includes_refl (s : string) : includes s s = true.
Proof.
  apply includes_spec. exists "", "". rewrite append_empty.
  induction s as [|c s IH]; [reflexivity|].
  rewrite append_cons, <- IH. reflexivity.
Qed.

Lemma includes_trans (a b c : string) :
  includes a b = true -> includes b c = true -> includes a c = true.
Proof.
  rewrite !includes_spec. intros (x & y & ->) (u & v & ->).
  exists (x +:+ u), (v +:+ y). rewrite !append_assoc. reflexivity.
Qed.

Lemma filter_filter_implied {A : Type} (p q : A -> bool) (l : list A) :
  (forall x, p x = true -> q x = true) ->
  List.filter p (List.filter q l) = List.filter p l.
Proof.
  intros H. induction l as [|x l IH]; [reflexivity|]. simpl.
  destruct (q x) eqn:Q; simpl.
  - rewrite IH. reflexivity.
  - destruct (p x) eqn:P; [|exact IH].
    apply H in P. congruence.
Qed.

Lemma filter_filter_both {A : Type} (p q : A -> bool) (l : list A) :
  List.filter p (List.filter q l) = List.filter (fun x => q x && p x) l.
Proof.
  induction l as [|x l IH]; [reflexivity|]. simpl.
  destruct (q x); simpl; [destruct (p x)|]; rewrite ?IH; reflexivity.
Qed.

Lemma filter_sublist {A : Type} (p : A -> bool) (l : list A) :
  sublist (List.filter p l) l.
Proof.
  induction l as [|x l IH]; simpl; [constructor|].
  destruct (p x); constructor; exact IH.
Qed.

Section SearchFacts.

Variable toLowerCase : string -> string.

Lemma keep_narrower (filter q q' : string) (sos : History.SOS) :
  includes (toLowerCase q') (toLowerCase q) = true ->
  truthy (History.keep toLowerCase filter q' sos) = true ->
  truthy (History.keep toLowerCase filter q sos) = true.
Proof.
  intros Hq. unfold History.keep, History.matchesSearch.
  destruct (History.matchesFilter filter sos); [|discriminate].
  destruct (includes (toLowerCase (History.raw_input sos)) (toLowerCase q')) eqn:R'.
  - rewrite (includes_trans _ _ _ R' Hq). reflexivity.
  - destruct (History.subject sos) as [s|]; [|discriminate]. simpl.
    intros S'. rewrite (includes_trans _ _ _ S' Hq).
    destruct (includes (toLowerCase (History.raw_input sos)) (toLowerCase q));
      reflexivity.
Qed.

End SearchFacts.

(** X6: refining a search narrows it.  When the new query, lower-cased,
    contains the old one, searching again within the rows the old query
    kept gives exactly the rows the new query keeps on the full list, so
    typing more never adds a row; in particular filtering twice with the
    same filter and query changes nothing.  The filtered list is a sublist
    of the loaded one (order kept, nothing added). *)
Theorem search_refines :
  forall (toLowerCase : string -> string) (sosRequests : list History.SOS)
         (filter q q' : string),
    (includes (toLowerCase q') (toLowerCase q) = true ->
       History.filteredRequests toLowerCase
         (History.filteredRequests toLowerCase sosRequests filter q) filter q'
       = History.filteredRequests toLowerCase sosRequests filter q' /\
       forall sos,
         In sos (History.filteredRequests toLowerCase sosRequests filter q') ->
         In sos (History.filteredRequests toLowerCase sosRequests filter q)) /\
    History.filteredRequests toLowerCase
      (History.filteredRequests toLowerCase sosRequests filter q) filter q
    = History.filteredRequests toLowerCase sosRequests filter q /\
    sublist (History.filteredRequests toLowerCase sosRequests filter q) sosRequests /\
    length (History.filteredRequests toLowerCase sosRequests filter q)
    <= length sosRequests.
Proof.
  intros lc reqs f q q'. unfold History.filteredRequests.
  split; [|split; [|split]].
  - intros Hq. split.
    + apply filter_filter_implied. intros sos. apply keep_narrower. exact Hq.
    + intros sos. rewrite !filter_In. intros [Hi Hk]. split; [exact Hi|].
      apply (keep_narrower lc f q q' sos Hq Hk).
  - apply filter_filter_implied. intros sos. apply keep_narrower.
    apply includes_refl.
  - apply filter_sublist.
  - apply sublist_length, filter_sublist.
Qed.

Lemma search_refines_witness :
  let rows :=
    [ History.mkSOS "1" "Students don't understand Fractions" None "resolved";
      History.mkSOS "2" "Fraction games are too noisy" (Some "Math") "pending";
      History.mkSOS "3" "Noisy class" (Some "Science") "pending" ] in
  History.filteredRequests App.toLowerCase_ascii
    (History.filteredRequests App.toLowerCase_ascii rows "all" "Fr") "all" "FRACTIONS"
  = History.filteredRequests App.toLowerCase_ascii rows "all" "FRACTIONS".
Proof.
  intros rows.
  destruct (search_refines App.toLowerCase_ascii rows "all" "Fr" "FRACTIONS")
    as (H & _).
  destruct H as (H1 & _); [vm_compute; reflexivity | exact H1].
Defined.

(** X7: the status filter and the search are independent.  Filtering by a
    status and a query at once gives the rows of that status among those
    the query keeps under 'all'; two different status filters (neither
    'all') never keep the same row; and a filter that is no status of any
    loaded row leaves the list empty. *)
Theorem status_filter_splits :
  forall (toLowerCase : string -> string) (sosRequests : list History.SOS)
         (f q : string),
    f <> "all" ->
    History.filteredRequests toLowerCase sosRequests f q
    = List.filter (fun sos => String.eqb (History.status sos) f)
        (History.filteredRequests toLowerCase sosRequests "all" q) /\
    (forall g sos,
       g <> "all" -> g <> f ->
       In sos (History.filteredRequests toLowerCase sosRequests f q) ->
       ~ In sos (History.filteredRequests toLowerCase sosRequests g q)) /\
    ((forall sos, In sos sosRequests -> History.status sos <> f) ->
     History.filteredRequests toLowerCase sosRequests f q = []).
Proof.
  intros lc reqs f q Nf. apply String.eqb_neq in Nf as Nfb.
  assert (K : forall g sos, g <> "all" ->
            truthy (History.keep lc g q sos) = true ->
            History.status sos = g).
  { intros g sos Ng. apply String.eqb_neq in Ng.
    unfold History.keep, History.matchesFilter. rewrite Ng. simpl.
    destruct (String.eqb_spec (History.status sos) g); [auto | discriminate]. }
  split; [|split].
  - unfold History.filteredRequests. rewrite filter_filter_both.
    apply filter_ext. intros sos.
    unfold History.keep, History.matchesFilter. rewrite Nfb. simpl.
    destruct (String.eqb (History.status sos) f); simpl;
      [rewrite andb_true_r|rewrite andb_false_r]; reflexivity.
  - intros g sos Ng Ngf. unfold History.filteredRequests. rewrite !filter_In.
    intros [_ H1] [_ H2]. apply K in H1, H2; congruence.
  - intros H. unfold History.filteredRequests.
    induction reqs as [|r rs IH]; [reflexivity|]. simpl.
    destruct (truthy (History.keep lc f q r)) eqn:E.
    + apply K in E; [|exact Nf]. exfalso. apply (H r); [left; reflexivity | exact E].
    + apply IH. intros sos Hi. apply H. right. exact Hi.
Qed.

Lemma status_filter_splits_witness :
  let rows :=
    [ History.mkSOS "1" "Students don't understand Fractions" None "resolved";
      History.mkSOS "2" "Noisy class" (Some "Science") "pending" ] in
  History.filteredRequests App.toLowerCase_ascii rows "archived" "" = [].
Proof.
  intros rows.
  destruct (status_filter_splits App.toLowerCase_ascii rows "archived" "")
    as (_ & _ & H); [discriminate|].
  apply H. intros sos [<- | [<- | []]]; discriminate.
Defined.

(** X8: the icon and the badge colour of a status always agree: both pick
    the resolved, failed or processing case on exactly these three strings
    and the neutral case on every other string, 'pending' and unknown
    statuses alike. *)
Theorem status_icon_and_color_agree :
  forall status : string,
    (status = "resolved" /\
     History.getStatusIcon status = History.CheckCircle /\
     History.getStatusColor status = "bg-secondary-50 text-secondary-700") \/
    (status = "failed" /\
     History.getStatusIcon status = History.XCircle /\
     History.getStatusColor status = "bg-red-50 text-red-700") \/
    (status = "processing" /\
     History.getStatusIcon status = History.Clock /\
     History.getStatusColor status = "bg-accent-50 text-accent-700") \/
    (status <> "resolved" /\ status <> "failed" /\ status <> "processing" /\
     History.getStatusIcon status = History.AlertCircle /\
     History.getStatusColor status = "bg-slate-100 text-slate-600").
Proof.
  intros status. unfold History.getStatusIcon, History.getStatusColor.
  destruct (String.eqb_spec status "resolved") as [->|N1]; [left; auto|].
  destruct (String.eqb_spec status "failed") as [->|N2]; [right; left; auto|].
  destruct (String.eqb_spec status "processing") as [->|N3];
    [right; right; left; auto|].
  right; right; right. auto.
Qed.

(** ** client.js: the quick SOS URL determines what was asked *)

Lemma quick_url_pairs (rawInput : string) (subject grade : JsVal) :
  Client.query_pairs (Client.quick_url rawInput subject grade)
  = (("raw_input", Client.urlencode rawInput)
     :: (if truthy subject
         then [("subject", Client.urlencode (Client.to_string subject))]
         else [])
     ++ (if truthy grade
         then [("grade", Client.urlencode (Client.to_string grade))]
         else []))%list.
Proof.
  unfold Client.query_pairs. rewrite query_of_quick_url.
  unfold Client.quick_params. rewrite !truthy_default_null.
  destruct (truthy subject) eqn:Hs; destruct (truthy grade) eqn:Hg;
    unfold Client.append; simpl app;
    rewrite pairs_of_toString; simpl map;
    rewrite ?to_string_default_null by assumption; reflexivity.
Qed.

Lemma urlencode_inj (s t : string) :
  Client.urlencode s = Client.urlencode t -> s = t.
Proof.
  intros H. rewrite <- (urldecode_urlencode s), <- (urldecode_urlencode t), H.
  reflexivity.
Qed.

(** X9: the URL of a quick SOS request determines the request: two calls
    that produce the same URL had the same raw input, agreed on whether a
    subject and a grade are sent, and sent the same subject and grade text.
    No raw input can pass for another one or smuggle in a subject. *)
Theorem quick_url_injective :
  forall (rawInput rawInput' : string) (subject subject' grade grade' : JsVal),
    Client.quick_url rawInput subject grade
    = Client.quick_url rawInput' subject' grade' ->
    rawInput = rawInput' /\
    truthy subject = truthy subject' /\
    truthy grade = truthy grade' /\
    (truthy subject = true ->
     Client.to_string subject = Client.to_string subject') /\
    (truthy grade = true ->
     Client.to_string grade = Client.to_string grade').
Proof.
  intros r r' s s' g g' E.
  apply (f_equal Client.query_pairs) in E. rewrite !quick_url_pairs in E.
  destruct (truthy s), (truthy s'), (truthy g), (truthy g');
    simpl in E; try discriminate E; injection E; intros;
    repeat match goal with
    | H : Client.urlencode _ = Client.urlencode _ |- _ =>
        apply urlencode_inj in H
    end;
    repeat split; intros; congruence.
Qed.

Lemma quick_url_injective_witness :
  "a&subject=Math" = "a&subject=Math" /\ truthy JNull = truthy (JStr "").
Proof.
  destruct (quick_url_injective "a&subject=Math" "a&subject=Math"
              JNull (JStr "") JUndefined (JNum 0) eq_refl) as (H1 & H2 & _).
  split; [exact H1 | exact H2].
Defined.

(** ** Register.jsx: what a registration request can carry *)

Lemma existsb_eqb_In (v : string) (l : list string) :
  existsb (String.eqb v) l = true -> In v l.
Proof.
  intros H. apply existsb_exists in H as (x & Hx & E).
  apply String.eqb_eq in E. subst x. exact Hx.
Qed.

Lemma register_initial_inv : Register.invariant Register.initial.
Proof.
  unfold Register.invariant. simpl. repeat split; try tauto; discriminate.
Qed.

Lemma register_handle_inv (ev : Register.Event) (st : Register.State) :
  Register.invariant st -> Register.offered st ev = true ->
  Register.invariant (fst (Register.handle ev st)).
Proof.
  intros (S & P & R & L & Su & Gr) O.
  destruct ev as [f v| | | |r]; simpl in *.
  - destruct (Nat.eqb_spec (Register.step st) 1) as [E|E].
    + unfold Register.invariant. simpl.
      destruct f; try discriminate O; simpl;
        (split; [exact S|]); (split; [intros E2; lia|]); tauto.
    + assert (E2 : Register.step st = 2) by lia.
      unfold Register.invariant. simpl.
      destruct f; try discriminate O; simpl;
        (split; [exact S|]); (split; [exact P|]); try tauto.
      * apply (existsb_eqb_In v ["teacher"; "crp"; "diet"]) in O. tauto.
      * apply (existsb_eqb_In v ["en"; "hi"; "kn"; "ta"; "te"]) in O. tauto.
  - unfold Register.invariant. simpl. tauto.
  - unfold Register.invariant. simpl.
    split; [left; reflexivity|]. split; [discriminate|]. tauto.
  - unfold Register.handleSubmit.
    destruct (Nat.eqb_spec (Register.step st) 1) as [E|E].
    + destruct (String.eqb_spec (Register.formData st Register.password)
                  (Register.formData st Register.confirmPassword)) as [Q|Q];
        unfold Register.invariant; simpl.
      * split; [right; reflexivity|]. tauto.
      * split; [exact S|]. split; [intros E2; lia|]. tauto.
    + unfold Register.invariant. simpl. tauto.
  - destruct r; unfold Register.invariant; simpl; tauto.
Qed.

Lemma register_run_inv (evs : list Register.Event) (st : Register.State) :
  Register.invariant st ->
  Register.invariant (fst (Register.run evs st)) /\
  forall body,
    In (Register.PostRegister body) (snd (Register.run evs st)) ->
    In (Register.p_role body) ["teacher"; "crp"; "diet"] /\
    In (Register.p_preferred_language body) ["en"; "hi"; "kn"; "ta"; "te"] /\
    Register.p_subjects body = [] /\ Register.p_grades body = [].
Proof.
  revert st. induction evs as [|ev rest IH]; intros st I.
  - simpl. split; [exact I | intros body []].
  - simpl. destruct (Register.offered st ev) eqn:O; [|apply IH; exact I].
    pose proof (register_handle_inv ev st I O) as I1.
    destruct (Register.handle ev st) as [st1 out1] eqn:H. simpl in I1.
    destruct (IH st1 I1) as (I2 & B2).
    destruct (Register.run rest st1) as [st2 out2]. simpl in *.
    split; [exact I2|]. intros body Hin. apply in_app_or in Hin as [Hin|Hin].
    + destruct I as (S & P & R & L & Su & Gr).
      destruct ev as [f v| | | |r]; simpl in H.
      * injection H as <- <-. destruct Hin.
      * injection H as <- <-. destruct Hin.
      * injection H as <- <-. destruct Hin.
      * unfold Register.handleSubmit in H.
        destruct (Nat.eqb (Register.step st) 1);
          [destruct (negb _); injection H as <- <-; destruct Hin|].
        injection H as <- <-. destruct Hin as [Hin|[]].
        injection Hin as <-. simpl. tauto.
      * destruct r; injection H as <- <-; simpl in Hin;
          repeat (destruct Hin as [Hin|Hin]; try discriminate Hin); destruct Hin.
    + apply B2. exact Hin.
Qed.

(** X10: a registration request carries a confirmed password.  In every
    state a session with the form reaches, a submit that posts to
    /auth/register posts the password that equals the confirmation field;
    and on step 1 a submit with differing passwords posts nothing, stays on
    step 1 and shows 'Passwords do not match'. *)
Theorem register_password_confirmed :
  forall (evs : list Register.Event) (body : Register.Payload),
    let st := fst (Register.run evs Register.initial) in
    (In (Register.PostRegister body) (snd (Register.handleSubmit st)) ->
     Register.p_password body = Register.formData st Register.password /\
     Register.p_password body = Register.formData st Register.confirmPassword) /\
    (Register.step st = 1 ->
     Register.formData st Register.password
     <> Register.formData st Register.confirmPassword ->
     snd (Register.handleSubmit st) = [] /\
     Register.step (fst (Register.handleSubmit st)) = 1 /\
     Register.error (fst (Register.handleSubmit st))
     = JStr "Passwords do not match").
Proof.
  intros evs body st.
  destruct (register_run_inv evs Register.initial register_initial_inv)
    as ((S & P & _) & _).
  fold st in S, P. unfold Register.handleSubmit. split.
  - destruct (Nat.eqb_spec (Register.step st) 1) as [E|E].
    + destruct (negb _); intros [].
    + intros [Hin|[]]. injection Hin as <-. simpl.
      split; [reflexivity|]. apply P. lia.
  - intros E N. rewrite E. simpl.
    apply String.eqb_neq in N. rewrite N. simpl. tauto.
Qed.

Lemma register_password_confirmed_witness :
  let evs := [Register.Change Register.password "secret1";
              Register.Change Register.confirmPassword "secret2";
              Register.Submit;
              Register.Change Register.role "crp"] in
  snd (Register.handleSubmit (fst (Register.run evs Register.initial))) = [] /\
  Register.error
    (fst (Register.handleSubmit (fst (Register.run evs Register.initial))))
  = JStr "Passwords do not match".
Proof.
  intros evs.
  destruct (register_password_confirmed evs
              (Register.mkPayload "" "" "" "" "" "" "" [] [] "")) as (_ & H).
  destruct H as (H1 & _ & H3); [reflexivity | discriminate |].
  split; [exact H1 | exact H3].
Defined.

(** X11: whatever is done with the form, every registration request it
    sends has a role among 'teacher', 'crp' and 'diet' (the values the
    dashboard dispatch knows), a preferred language among the five offered,
    and empty subjects and grades: no input of the form writes to them. *)
Theorem register_request_fields :
  forall (evs : list Register.Event) (body : Register.Payload),
    In (Register.PostRegister body) (snd (Register.run evs Register.initial)) ->
    In (Register.p_role body) ["teacher"; "crp"; "diet"] /\
    In (Register.p_preferred_language body) ["en"; "hi"; "kn"; "ta"; "te"] /\
    Register.p_subjects body = [] /\ Register.p_grades body = [].
Proof.
  intros evs body.
  apply (register_run_inv evs Register.initial register_initial_inv).
Qed.

Lemma register_request_fields_witness :
  let evs := [Register.Change Register.password "secret1";
              Register.Change Register.confirmPassword "secret1";
              Register.Submit;
              Register.Change Register.role "crp";
              Register.Change Register.role "admin";
              Register.Submit] in
  exists body,
    In (Register.PostRegister body) (snd (Register.run evs Register.initial)) /\
    Register.p_role body = "crp" /\ Register.p_subjects body = [].
Proof.
  intros evs.
  exists (Register.mkPayload "" "" "secret1" "crp" "" "" "" [] [] "en").
  assert (Hin : In (Register.PostRegister
                      (Register.mkPayload "" "" "secret1" "crp" "" "" "" [] [] "en"))
                   (snd (Register.run evs Register.initial)))
    by (left; reflexivity).
  destruct (register_request_fields evs _ Hin) as (_ & _ & Hs & _).
  split; [exact Hin|]. split; [reflexivity | exact Hs].
Defined.

(** ** popup.js: panels *)

Lemma shown_hide (x : option bool) : Popup.shown (Popup.hide x) = false.
Proof. destruct x; reflexivity. Qed.

Lemma hide_hide (x : option bool) : Popup.hide (Popup.hide x) = Popup.hide x.
Proof. destruct x; reflexivity. Qed.

Lemma hide_unhide (x : option bool) : Popup.hide (Popup.unhide x) = Popup.hide x.
Proof. destruct x; reflexivity. Qed.

Lemma visible_hidden (a b c d e : option bool) :
  Popup.visible (Popup.mkSections (Popup.hide a) (Popup.hide b) (Popup.hide c)
                                  (Popup.hide d) (Popup.hide e)) = [].
Proof. unfold Popup.visible. simpl. rewrite !shown_hide. reflexivity. Qed.

Lemma showSection_visible (section : string) (s : Popup.Sections) :
  Popup.visible (Popup.showSection section s) = [] \/
  (In section ["auth"; "sos"; "loading"; "result"; "settings"] /\
   Popup.visible (Popup.showSection section s) = [section]).
Proof.
  unfold Popup.showSection. destruct s as [a b c d e].
  destruct (String.eqb_spec section "auth") as [->|_];
    [unfold Popup.visible; simpl; rewrite !shown_hide;
     destruct a as [[]|]; simpl; tauto|].
  destruct (String.eqb_spec section "sos") as [->|_];
    [unfold Popup.visible; simpl; rewrite !shown_hide;
     destruct b as [[]|]; simpl; tauto|].
  destruct (String.eqb_spec section "loading") as [->|_];
    [unfold Popup.visible; simpl; rewrite !shown_hide;
     destruct c as [[]|]; simpl; tauto|].
  destruct (String.eqb_spec section "result") as [->|_];
    [unfold Popup.visible; simpl; rewrite !shown_hide;
     destruct d as [[]|]; simpl; tauto|].
  destruct (String.eqb_spec section "settings") as [->|_];
    [unfold Popup.visible; simpl; rewrite !shown_hide;
     destruct e as [[]|]; simpl; tauto|].
  left. apply visible_hidden.
Qed.

Lemma showSection_absorbs (section other : string) (s : Popup.Sections) :
  Popup.showSection section (Popup.showSection other s)
  = Popup.showSection section s.
Proof.
  destruct s as [a b c d e]. unfold Popup.showSection at 2.
  destruct (String.eqb other "auth");
    [|destruct (String.eqb other "sos");
      [|destruct (String.eqb other "loading");
        [|destruct (String.eqb other "result");
          [|destruct (String.eqb other "settings")]]]];
    unfold Popup.showSection; simpl;
    rewrite ?hide_unhide, ?hide_hide; reflexivity.
Qed.

Lemma showSection_auth (s : Popup.Sections) :
  Popup.visible (Popup.showSection "auth" s)
  = match Popup.authSection s with Some _ => ["auth"] | None => [] end.
Proof.
  destruct s as [a b c d e]. unfold Popup.showSection, Popup.visible. simpl.
  rewrite !shown_hide. destruct a as [[]|]; reflexivity.
Qed.

Lemma showSection_sos (s : Popup.Sections) :
  Popup.visible (Popup.showSection "sos" s)
  = match Popup.sosSection s with Some _ => ["sos"] | None => [] end.
Proof.
  destruct s as [a b c d e]. unfold Popup.showSection, Popup.visible. simpl.
  rewrite !shown_hide. destruct b as [[]|]; reflexivity.
Qed.

Lemma showSection_loading (s : Popup.Sections) :
  Popup.visible (Popup.showSection "loading" s)
  = match Popup.loadingSection s with Some _ => ["loading"] | None => [] end.
Proof.
  destruct s as [a b c d e]. unfold Popup.showSection, Popup.visible. simpl.
  rewrite !shown_hide. destruct c as [[]|]; reflexivity.
Qed.

Lemma showSection_result (s : Popup.Sections) :
  Popup.visible (Popup.showSection "result" s)
  = match Popup.resultSection s with Some _ => ["result"] | None => [] end.
Proof.
  destruct s as [a b c d e]. unfold Popup.showSection, Popup.visible. simpl.
  rewrite !shown_hide. destruct d as [[]|]; reflexivity.
Qed.

Lemma showSection_settings (s : Popup.Sections) :
  Popup.visible (Popup.showSection "settings" s)
  = match Popup.settingsPanel s with Some _ => ["settings"] | None => [] end.
Proof.
  destruct s as [a b c d e]. unfold Popup.showSection, Popup.visible. simpl.
  rewrite !shown_hide. destruct e as [[]|]; reflexivity.
Qed.

(** X12: [showSection] shows at most one panel, and only the one asked
    for: for each of the five names, after it the visible panels are
    exactly the named one when its element is in the page and none when it
    is not; for any other name none is visible; what was shown before does
    not matter, and a second call overrides the first completely. *)
Theorem showSection_exclusive :
  forall (section : string) (s : Popup.Sections),
    Popup.visible (Popup.showSection "auth" s)
    = match Popup.authSection s with Some _ => ["auth"] | None => [] end /\
    Popup.visible (Popup.showSection "sos" s)
    = match Popup.sosSection s with Some _ => ["sos"] | None => [] end /\
    Popup.visible (Popup.showSection "loading" s)
    = match Popup.loadingSection s with Some _ => ["loading"] | None => [] end /\
    Popup.visible (Popup.showSection "result" s)
    = match Popup.resultSection s with Some _ => ["result"] | None => [] end /\
    Popup.visible (Popup.showSection "settings" s)
    = match Popup.settingsPanel s with Some _ => ["settings"] | None => [] end /\
    length (Popup.visible (Popup.showSection section s)) <= 1 /\
    (forall x, In x (Popup.visible (Popup.showSection section s)) -> x = section) /\
    (~ In section ["auth"; "sos"; "loading"; "result"; "settings"] ->
     Popup.visible (Popup.showSection section s) = []) /\
    (forall other,
       Popup.showSection section (Popup.showSection other s)
       = Popup.showSection section s) /\
    (Popup.sosSection s <> None ->
     Popup.visible (Popup.showSection "sos" s) = ["sos"]).
Proof.
  intros section s.
  pose proof (showSection_visible section s) as Cases.
  split; [apply showSection_auth|]. split; [apply showSection_sos|].
  split; [apply showSection_loading|]. split; [apply showSection_result|].
  split; [apply showSection_settings|].
  split; [|split; [|split; [|split]]].
  - destruct Cases as [-> | [_ ->]]; simpl; lia.
  - intros x. destruct Cases as [-> | [_ ->]]; simpl; [tauto|]. intros [<-|[]].
    reflexivity.
  - intros N. destruct Cases as [H | [H _]]; [exact H | contradiction].
  - intros other. apply showSection_absorbs.
  - intros N. rewrite showSection_sos.
    destruct (Popup.sosSection s); [reflexivity | contradiction].
Qed.

Lemma showSection_exclusive_witness :
  Popup.visible
    (Popup.showSection "sos"
       (Popup.mkSections (Some false) (Some true) None (Some false) (Some true)))
  = ["sos"] /\
  Popup.visible
    (Popup.showSection "result"
       (Popup.mkSections (Some false) (Some true) None (Some true) (Some true)))
  = ["result"] /\
  Popup.visible
    (Popup.showSection "loading"
       (Popup.mkSections (Some false) (Some true) None (Some true) (Some true)))
  = [].
Proof.
  pose proof (showSection_exclusive "sos"
                (Popup.mkSections (Some false) (Some true) None (Some false)
                                  (Some true))) as (_ & _ & _ & _ & _ & _ & _ & _ & _ & H).
  pose proof (showSection_exclusive "result"
                (Popup.mkSections (Some false) (Some true) None (Some true)
                                  (Some true))) as (_ & _ & L & R & _).
  split; [refine (H _); discriminate|]. split; [exact R | exact L].
Defined.

(** ** popup.js: what stays true while the popup is used *)

Lemma showSection_at_most_one (section : string) (s : Popup.Sections) :
  length (Popup.visible (Popup.showSection section s)) <= 1.
Proof.
  destruct (showSection_visible section s) as [-> | [_ ->]]; simpl; lia.
Qed.

Lemma invariant_show (section : string) (st : Popup.State) :
  Popup.invariant st -> Popup.invariant (Popup.show section st).
Proof.
  intros (A & S & _). unfold Popup.invariant. simpl.
  split; [exact A|]. split; [exact S|]. apply showSection_at_most_one.
Qed.

Lemma invariant_same (st st' : Popup.State) :
  Popup.apiUrl st' = Popup.apiUrl st ->
  Popup.storage st' !! "apiUrl" = Popup.storage st !! "apiUrl" ->
  Popup.sections st' = Popup.sections st ->
  Popup.invariant st -> Popup.invariant st'.
Proof.
  intros Ea Es Ev (A & S & V). unfold Popup.invariant.
  rewrite Ea, Es, Ev. auto.
Qed.

Lemma storage_set_other (k k' : string) (v : JsVal) (m : gmap string JsVal) :
  k <> k' -> Popup.storage_set k v m !! k' = m !! k'.
Proof.
  intros N. unfold Popup.storage_set.
  destruct v; try reflexivity; apply lookup_insert_ne; exact N.
Qed.

Lemma invariant_loadSettings (st : Popup.State) :
  Popup.invariant st -> Popup.invariant (Popup.loadSettings st).
Proof.
  intros I. unfold Popup.loadSettings.
  assert (I1 : Popup.invariant
                 (if truthy (Popup.stored "apiUrl" st)
                  then Popup.set_input "apiUrlInput"
                         (Client.to_string (Popup.stored "apiUrl" st))
                         (Popup.set_apiUrl (Popup.stored "apiUrl" st) st)
                  else st)).
  { destruct (truthy (Popup.stored "apiUrl" st)) eqn:T; [|exact I].
    destruct I as (A & S & V). unfold Popup.invariant. simpl.
    split; [|split; [exact S | exact V]].
    unfold Popup.stored in *. destruct (Popup.storage st !! "apiUrl") as [v|];
      [|discriminate T].
    destruct (S v eq_refl) as (s & ->). exists s. split; [reflexivity|].
    apply truthy_JStr. exact T. }
  set (st1 := if truthy (Popup.stored "apiUrl" st) then _ else st) in *.
  assert (I2 : Popup.invariant
                 (if truthy (Popup.stored "authToken" st1)
                  then Popup.set_authToken (Popup.stored "authToken" st1) st1
                  else st1)).
  { destruct (truthy (Popup.stored "authToken" st1)); [|exact I1].
    apply (invariant_same st1); [reflexivity | reflexivity | reflexivity | exact I1]. }
  set (st2 := if truthy (Popup.stored "authToken" st1) then _ else st1) in *.
  destruct (truthy (Popup.stored "defaultLang" st2)); [|exact I2].
  apply (invariant_same st2); [reflexivity | reflexivity | reflexivity | exact I2].
Qed.

Section PopupFacts.

Variable trim : string -> string.

Lemma invariant_handle (ev : Popup.Event) (st : Popup.State) :
  Popup.invariant st ->
  Popup.invariant (fst (Popup.handle trim ev st)) /\
  forall r, In (Popup.Fetch r) (snd (Popup.handle trim ev st)) ->
    exists base tail,
      Ext.req_url r = base +:+ "/api/v1/" +:+ tail /\ base <> "".
Proof.
  intros I. pose proof I as ((s & As & Ns) & S & V).
  destruct ev; simpl.
  - split; [apply invariant_loadSettings; exact I | intros r []].
  - unfold Popup.checkAuth_start. destruct (truthy (Popup.authToken st)); simpl.
    + split; [exact I|]. intros r [E|[]]. injection E as <-. simpl.
      rewrite As. exists s, "auth/me". split; [reflexivity | exact Ns].
    + split; [apply invariant_show; exact I | intros r []].
  - split; [|intros r []]. unfold Popup.checkAuth_finish.
    destruct res as [|[] ? ?]; apply invariant_show;
      try exact I;
      (apply (invariant_same st); [reflexivity| |reflexivity|exact I]);
      simpl; apply lookup_delete_ne; discriminate.
  - split; [|intros r []].
    apply (invariant_same st); [reflexivity | reflexivity | reflexivity | exact I].
  - unfold Popup.submitSOS_start.
    destruct (String.eqb _ _); simpl.
    + split; [|intros r []].
      apply (invariant_same st); [reflexivity | reflexivity | reflexivity | exact I].
    + split.
      * apply invariant_show.
        apply (invariant_same st); [reflexivity | reflexivity | reflexivity | exact I].
      * intros r [E|[]]. injection E as <-. simpl. rewrite As.
        eexists s, _. split; [reflexivity | exact Ns].
  - unfold Popup.submitSOS_start.
    destruct (String.eqb _ _); simpl.
    + split; [|intros r []].
      apply (invariant_same st); [reflexivity | reflexivity | reflexivity | exact I].
    + split; [apply invariant_show; exact I|].
      intros r [E|[]]. injection E as <-. simpl. rewrite As.
      eexists s, _. split; [reflexivity | exact Ns].
  - split; [|intros r []]. unfold Popup.submitSOS_finish.
    destruct res as [|[] ? [pb|]]; apply invariant_show;
      try (apply (invariant_same st);
           [reflexivity | reflexivity | reflexivity | exact I]).
    destruct pb as [p|]; simpl;
      (apply (invariant_same st);
       [reflexivity | reflexivity | reflexivity | exact I]).
  - unfold Popup.handleLogin_start.
    destruct (_ || _); simpl.
    + split; [|intros r []].
      apply (invariant_same st); [reflexivity | reflexivity | reflexivity | exact I].
    + split; [exact I|].
      intros r [E|[]]. injection E as <-. simpl. rewrite As.
      exists s, "auth/login". split; [reflexivity | exact Ns].
  - split; [|intros r []]. unfold Popup.handleLogin_finish.
    destruct res as [|[] ? [tok|]];
      try (apply (invariant_same st);
           [reflexivity | reflexivity | reflexivity | exact I]).
    apply invariant_show.
    apply (invariant_same st); [reflexivity| |reflexivity|exact I].
    simpl. apply storage_set_other. discriminate.
  - split; [|intros r []]. unfold Popup.handleLogout. apply invariant_show.
    apply (invariant_same st); [reflexivity| |reflexivity|exact I].
    simpl. apply lookup_delete_ne. discriminate.
  - unfold Popup.copyPlaybook_start.
    destruct (Popup.currentPlaybook st); simpl;
      (split; [exact I|]); intros r Hin;
      [destruct Hin as [E|[]]; discriminate E | destruct Hin].
  - split; [|intros r []]. unfold Popup.copyPlaybook_finish.
    destruct written;
      (apply (invariant_same st);
       [reflexivity | reflexivity | reflexivity | exact I]).
  - split; [|intros r []]. unfold Popup.newSos. apply invariant_show.
    apply (invariant_same st); [reflexivity | reflexivity | reflexivity | exact I].
  - split; [|intros r []]. unfold Popup.savePlaybook.
    destruct (negb _);
      (apply (invariant_same st);
       [reflexivity | reflexivity | reflexivity | exact I]).
  - split; [apply invariant_show; exact I | intros r []].
  - split; [|intros r []]. unfold Popup.saveSettings. apply invariant_show.
    unfold Popup.invariant. simpl. split; [|split; [|exact V]].
    + eexists. split; [reflexivity|].
      destruct (String.eqb_spec (trim (Popup.value "apiUrlInput" st)) "");
        [discriminate | assumption].
    + intros v. rewrite lookup_insert_ne by discriminate.
      rewrite lookup_insert_eq. intros [= <-]. eexists. reflexivity.
  - split; [apply invariant_show; exact I | intros r []].
Qed.

Lemma invariant_run (evs : list Popup.Event) (st : Popup.State) :
  Popup.invariant st ->
  Popup.invariant (fst (Popup.run trim evs st)) /\
  forall r, In (Popup.Fetch r) (snd (Popup.run trim evs st)) ->
    exists base tail,
      Ext.req_url r = base +:+ "/api/v1/" +:+ tail /\ base <> "".
Proof.
  revert st. induction evs as [|ev rest IH]; intros st I.
  - split; [exact I | intros r []].
  - simpl. destruct (invariant_handle ev st I) as (I1 & R1).
    destruct (Popup.handle trim ev st) as [st1 out1]. simpl in *.
    destruct (IH st1 I1) as (I2 & R2).
    destruct (Popup.run trim rest st1) as [st2 out2]. simpl in *.
    split; [exact I2|]. intros r Hin.
    apply in_app_or in Hin as [Hin|Hin]; [apply R1 | apply R2]; exact Hin.
Qed.

End PopupFacts.

(** X13: however the popup is used, starting from a page with at most one
    panel visible and a store whose 'apiUrl', if any, is a string: the API
    address stays a non-empty string (an emptied settings field falls back
    to the default address), at most one panel is visible, and every
    request goes to an absolute address of the form base/api/v1/... with a
    non-empty base. *)
Theorem popup_invariant :
  forall (trim : string -> string) (evs : list Popup.Event)
         (stored : gmap string JsVal) (s : Popup.Sections)
         (values : gmap string string),
    (forall v, stored !! "apiUrl" = Some v -> exists a, v = JStr a) ->
    length (Popup.visible s) <= 1 ->
    let st := fst (Popup.run trim evs (Popup.initial stored s values)) in
    (exists a, Popup.apiUrl st = JStr a /\ a <> "") /\
    length (Popup.visible (Popup.sections st)) <= 1 /\
    forall r,
      In (Popup.Fetch r)
         (snd (Popup.run trim evs (Popup.initial stored s values))) ->
      exists base tail,
        Ext.req_url r = base +:+ "/api/v1/" +:+ tail /\ base <> "".
Proof.
  intros trim evs stored s values Hs Hv st.
  assert (I : Popup.invariant (Popup.initial stored s values)).
  { unfold Popup.invariant. simpl. split; [|split; [exact Hs | exact Hv]].
    eexists. split; [reflexivity | discriminate]. }
  destruct (invariant_run trim evs _ I) as ((A & _ & V) & R).
  split; [exact A|]. split; [exact V | exact R].
Qed.

Lemma popup_invariant_witness :
  let evs := [Popup.LoadSettings; Popup.Typed "apiUrlInput" "   ";
              Popup.SaveSettings; Popup.Typed "problemInput" "noise";
              Popup.SubmitSOS] in
  let start := Popup.initial {[ "apiUrl" := JStr "http://localhost:8000" ]}
                 (Popup.mkSections (Some true) (Some false) (Some true)
                                   (Some true) (Some true)) ∅ in
  exists a,
    Popup.apiUrl (fst (Popup.run Popup.trim_ascii evs start)) = JStr a /\ a <> "".
Proof.
  intros evs start.
  destruct (popup_invariant Popup.trim_ascii evs
              {[ "apiUrl" := JStr "http://localhost:8000" ]}
              (Popup.mkSections (Some true) (Some false) (Some true)
                                (Some true) (Some true)) ∅) as (H & _).
  - intros v Hv. apply lookup_singleton_Some in Hv as [_ <-]. eexists. reflexivity.
  - simpl. lia.
  - exact H.
Defined.

(** ** popup.js: what the requests carry *)

Lemma component_byte_no_amp (b : ascii) :
  occurs "&" (Ext.encode_component_byte b) = false.
Proof. destruct b as [[] [] [] [] [] [] [] []]; vm_compute; reflexivity. Qed.

Lemma component_byte_no_eq (b : ascii) :
  occurs "=" (Ext.encode_component_byte b) = false.
Proof. destruct b as [[] [] [] [] [] [] [] []]; vm_compute; reflexivity. Qed.

Lemma urldecode_component_byte (b : ascii) (rest : string) :
  Client.urldecode (Ext.encode_component_byte b +:+ rest)
  = String b (Client.urldecode rest).
Proof. destruct b as [[] [] [] [] [] [] [] []]; reflexivity. Qed.

Lemma encodeURIComponent_no_amp (s : string) :
  occurs "&" (Ext.encodeURIComponent s) = false.
Proof.
  induction s as [|a s IH]; [reflexivity|]. simpl.
  rewrite occurs_append, component_byte_no_amp, IH. reflexivity.
Qed.

Lemma encodeURIComponent_no_eq (s : string) :
  occurs "=" (Ext.encodeURIComponent s) = false.
Proof.
  induction s as [|a s IH]; [reflexivity|]. simpl.
  rewrite occurs_append, component_byte_no_eq, IH. reflexivity.
Qed.

(** The server's decoding undoes [encodeURIComponent]. *)
Lemma urldecode_encodeURIComponent (s : string) :
  Client.urldecode (Ext.encodeURIComponent s) = s.
Proof.
  induction s as [|b s IH]; [reflexivity|].
  change (Ext.encodeURIComponent (String b s))
    with (Ext.encode_component_byte b +:+ Ext.encodeURIComponent s).
  rewrite urldecode_component_byte, IH. reflexivity.
Qed.

Lemma append_empty_r (s : string) : s +:+ "" = s.
Proof.
  induction s as [|c s IH]; [reflexivity|]. rewrite append_cons, IH. reflexivity.
Qed.

(** Two fields written as [k1=v1&k2=v2] read back as the two pairs, when
    the keys hold no [=] or [&] and the values no [&]. *)
Lemma split_two_fields (k1 v1 k2 v2 : string) :
  occurs "&" k1 = false -> occurs "=" k1 = false ->
  occurs "&" v1 = false ->
  occurs "&" k2 = false -> occurs "=" k2 = false ->
  occurs "&" v2 = false ->
  map Client.pair_of
      (split_on "&" (Ext.cat [k1; "="; v1; "&"; k2; "="; v2]))
  = [(k1, v1); (k2, v2)].
Proof.
  intros A1 E1 B1 A2 E2 B2.
  assert (R : Ext.cat [k1; "="; v1; "&"; k2; "="; v2]
              = (k1 +:+ String "=" v1) +:+ String "&" (k2 +:+ String "=" v2)).
  { unfold Ext.cat. simpl fold_right. rewrite append_empty_r.
    rewrite append_assoc. reflexivity. }
  rewrite R.
  rewrite split_on_first
    by (rewrite occurs_append; simpl; rewrite A1, B1; reflexivity).
  rewrite split_on_absent
    by (rewrite occurs_append; simpl; rewrite A2, B2; reflexivity).
  simpl. unfold Client.pair_of.
  rewrite !cut_first_found by assumption. reflexivity.
Qed.

Lemma form_pairs_unfold (body : string) :
  Popup.form_pairs body
  = map (fun p => (Client.urldecode (fst p), Client.urldecode (snd p)))
        (map Client.pair_of (split_on "&" body)).
Proof. unfold Popup.form_pairs. rewrite map_map. reflexivity. Qed.

(** X14: the login request of the popup carries the credentials intact.
    With a non-blank e-mail and a password the popup posts one request to
    base/api/v1/auth/login whose form body reads back, on the server, as
    exactly username = the trimmed e-mail and password = the password,
    whatever characters they hold; with a blank e-mail or an empty
    password it sends nothing and asks for them. *)
Theorem popup_login_body :
  forall (trim : string -> string) (st : Popup.State),
    let email := trim (Popup.value "emailInput" st) in
    let password := Popup.value "passwordInput" st in
    (email <> "" -> password <> "" ->
     exists body,
       Popup.handleLogin_start trim st
       = (st, [Popup.Fetch
                 (Ext.mkRequest
                    (Ext.cat [Client.to_string (Popup.apiUrl st);
                              "/api/v1/auth/login"])
                    "POST"
                    [("Content-Type", "application/x-www-form-urlencoded")]
                    (Some body))]) /\
       Popup.form_pairs body = [("username", email); ("password", password)]) /\
    (email = "" \/ password = "" ->
     Popup.handleLogin_start trim st
     = (Popup.showToast "Please enter email and password" st, [])).
Proof.
  intros trim st email password. unfold Popup.handleLogin_start.
  fold email password. split.
  - intros Ne Np. apply String.eqb_neq in Ne, Np. rewrite Ne, Np. simpl.
    eexists. split; [reflexivity|].
    rewrite form_pairs_unfold.
    change (split_on "&" _)
      with (split_on "&"
              (Ext.cat ["username"; "="; Ext.encodeURIComponent email; "&";
                        "password"; "="; Ext.encodeURIComponent password])).
    rewrite split_two_fields;
      try reflexivity;
      try apply encodeURIComponent_no_amp.
    simpl. rewrite !urldecode_encodeURIComponent. reflexivity.
  - intros [E|E]; rewrite E; simpl; rewrite ?orb_true_r; reflexivity.
Qed.

Lemma popup_login_body_witness :
  let st := Popup.initial ∅
              (Popup.mkSections (Some false) (Some true) (Some true)
                                (Some true) (Some true))
              {[ "emailInput" := " a&b@school.in ";
                 "passwordInput" := "p=1&password=x" ]} in
  exists body,
    snd (Popup.handleLogin_start Popup.trim_ascii st)
    = [Popup.Fetch
         (Ext.mkRequest "https://sahayak-ai-p720.onrender.com/api/v1/auth/login"
            "POST" [("Content-Type", "application/x-www-form-urlencoded")]
            (Some body))] /\
    Popup.form_pairs body
    = [("username", "a&b@school.in"); ("password", "p=1&password=x")].
Proof.
  intros st.
  destruct (popup_login_body Popup.trim_ascii st) as (H & _).
  destruct H as (body & E & P); [discriminate | discriminate |].
  exists body. split; [rewrite E; reflexivity | exact P].
Defined.

(** X15: a quick SOS from the popup.  A blank problem sends nothing and
    asks for one, leaving the panels as they are.  Otherwise the popup
    shows the loading panel and posts one request to
    base/api/v1/sos/quick whose query reads back as raw_input = the trimmed
    problem, whatever characters it holds, and language = the selected
    language (for a language value with nothing to decode and no [&]). *)
Theorem popup_sos_request :
  forall (trim : string -> string) (st : Popup.State),
    let problem := trim (Popup.value "problemInput" st) in
    let language := Popup.value "languageSelect" st in
    (problem = "" ->
     Popup.submitSOS_start trim st
     = (Popup.showToast "Please describe your problem" st, [])) /\
    (problem <> "" ->
     exists query,
       Popup.submitSOS_start trim st
       = (Popup.show "loading" st,
          [Popup.Fetch
             (Ext.mkRequest
                (Ext.cat [Client.to_string (Popup.apiUrl st);
                          "/api/v1/sos/quick?"; query])
                "POST" [("Content-Type", "application/json")] None)]) /\
       (occurs "&" language = false -> Client.urldecode language = language ->
        Popup.form_pairs query
        = [("raw_input", problem); ("language", language)])).
Proof.
  intros trim st problem language. unfold Popup.submitSOS_start.
  fold problem language. split.
  - intros ->. reflexivity.
  - intros N. apply String.eqb_neq in N. rewrite N.
    exists (Ext.cat ["raw_input"; "="; Ext.encodeURIComponent problem; "&";
                     "language"; "="; language]).
    split.
    + unfold Ext.cat. simpl. rewrite !append_empty_r. reflexivity.
    + intros A D. rewrite form_pairs_unfold.
      rewrite split_two_fields;
        try reflexivity; try apply encodeURIComponent_no_amp; try exact A.
      simpl. rewrite urldecode_encodeURIComponent, D. reflexivity.
Qed.

Lemma popup_sos_request_witness :
  let st := Popup.initial ∅
              (Popup.mkSections (Some true) (Some false) (Some true)
                                (Some true) (Some true))
              {[ "problemInput" := "  50% don't get 1/2 + 1/4 & fractions ";
                 "languageSelect" := "en" ]} in
  exists query,
    snd (Popup.submitSOS_start Popup.trim_ascii st)
    = [Popup.Fetch
         (Ext.mkRequest
            (Ext.cat ["https://sahayak-ai-p720.onrender.com";
                      "/api/v1/sos/quick?"; query])
            "POST" [("Content-Type", "application/json")] None)] /\
    Popup.form_pairs query
    = [("raw_input", "50% don't get 1/2 + 1/4 & fractions"); ("language", "en")].
Proof.
  intros st.
  destruct (popup_sos_request Popup.trim_ascii st) as (_ & H).
  destruct H as (query & E & P); [discriminate|].
  exists query. split; [rewrite E; reflexivity|].
  apply P; reflexivity.
Defined.

(** ** popup.js: answers and the session token *)

(** X16: a quick SOS that fails, by a network error, a status that is not
    ok or a body that cannot be read, never touches what the popup shows of
    the previous playbook: the playbook kept for copying, the title and the
    markup stay, the failure toast is shown and the panel goes back to the
    SOS form (never to the result).  An answer that is ok replaces the
    playbook kept for copying by the one received. *)
Theorem popup_sos_failure_keeps_playbook :
  forall (res : Ext.FetchResult (option Ext.Playbook)) (st : Popup.State),
    let st' := Popup.submitSOS_finish res st in
    (res = Ext.NetworkError \/
     (exists status payload, res = Ext.Response false status payload) \/
     (exists status msg, res = Ext.Response true status (Throw msg)) ->
     Popup.currentPlaybook st' = Popup.currentPlaybook st /\
     Popup.resultTitle st' = Popup.resultTitle st /\
     Popup.playbookContent st' = Popup.playbookContent st /\
     Popup.toast st' = Some "Failed to get help. Please try again." /\
     Popup.sections st' = Popup.showSection "sos" (Popup.sections st) /\
     ~ In "result" (Popup.visible (Popup.sections st'))) /\
    (forall status playbook,
       res = Ext.Response true status (Normal playbook) ->
       Popup.currentPlaybook st' = playbook /\
       Popup.toast st' = Popup.toast st /\
       Popup.sections st' = Popup.showSection "result" (Popup.sections st)).
Proof.
  intros res st st'. subst st'. split.
  - intros H.
    assert (E : Popup.submitSOS_finish res st
                = Popup.show "sos"
                    (Popup.showToast "Failed to get help. Please try again." st)).
    { destruct H as [-> | [(status & payload & ->) | (status & msg & ->)]];
        reflexivity. }
    rewrite E. simpl. repeat split.
    intros Hin.
    destruct (showSection_visible "sos" (Popup.sections st)) as [V | [_ V]];
      rewrite V in Hin; simpl in Hin; [exact Hin|].
    destruct Hin as [Hin|[]]. discriminate Hin.
  - intros status playbook ->. simpl.
    destruct playbook as [p|]; simpl; repeat split.
Qed.

Lemma popup_sos_failure_keeps_playbook_witness :
  let p := Ext.mkPlaybook (Some "Fractions") None None None None None in
  let st := Popup.mkState (Some p) (JStr "http://localhost:8000") JNull ∅
              (Popup.mkSections (Some true) (Some true) (Some false)
                                (Some true) (Some true))
              ∅ "Fractions" "<p>old</p>" None in
  Popup.currentPlaybook
    (Popup.submitSOS_finish (Ext.Response false 503 (Throw "no body")) st)
  = Some p.
Proof.
  intros p st.
  destruct (popup_sos_failure_keeps_playbook
              (Ext.Response false 503 (Throw "no body")) st) as (H & _).
  destruct H as (H1 & _); [|exact H1].
  right; left. eexists _, _. reflexivity.
Defined.

Lemma loadSettings_authToken (st : Popup.State) :
  Popup.authToken (Popup.loadSettings st)
  = if truthy (Popup.stored "authToken" st)
    then Popup.stored "authToken" st else Popup.authToken st.
Proof.
  unfold Popup.loadSettings.
  destruct (truthy (Popup.stored "apiUrl" st));
    change (Popup.stored "authToken" (Popup.set_input _ _ (Popup.set_apiUrl _ st)))
      with (Popup.stored "authToken" st);
    destruct (truthy (Popup.stored "authToken" st)) eqn:T; simpl;
    match goal with
    | |- context [truthy (Popup.stored "defaultLang" ?s)] =>
        destruct (truthy (Popup.stored "defaultLang" s))
    end; reflexivity.
Qed.

(** X17: the popup's session token.  After a login answered with a
    non-empty token the token is stored, and a popup opened later over the
    same store loads it and checks it with 'Bearer ' + token.  After a
    logout, or after a check the server did not accept, the token is gone
    from the script and from the store: a popup opened later has no token,
    sends no check, and refuses to save a playbook. *)
Theorem popup_token_lifecycle :
  forall (t : string) (st : Popup.State) (s : Popup.Sections)
         (values : gmap string string),
    t <> "" ->
    let logged := Popup.handleLogin_finish
                    (Ext.Response true 200 (Normal (JStr t))) st in
    let reopened := Popup.loadSettings
                      (Popup.initial (Popup.storage logged) s values) in
    Popup.authToken logged = JStr t /\
    Popup.authToken reopened = JStr t /\
    (exists url,
       Popup.checkAuth_start reopened
       = (reopened,
          [Popup.Fetch (Ext.mkRequest url "GET"
                          [("Authorization", "Bearer " +:+ t)] None)])) /\
    (forall gone,
       gone = Popup.handleLogout reopened \/
       gone = Popup.checkAuth_finish Ext.NetworkError reopened \/
       (exists status payload,
          gone = Popup.checkAuth_finish
                   (Ext.Response false status payload) reopened) ->
       Popup.authToken gone = JNull /\
       Popup.storage gone !! "authToken" = None /\
       let again := Popup.loadSettings
                      (Popup.initial (Popup.storage gone) s values) in
       Popup.authToken again = JNull /\
       snd (Popup.checkAuth_start again) = [] /\
       Popup.toast (Popup.savePlaybook again)
       = Some "Please login to save playbooks").
Proof.
  intros t st s values Nt logged reopened.
  assert (T : truthy (JStr t) = true) by (apply truthy_JStr; exact Nt).
  assert (A1 : Popup.authToken reopened = JStr t).
  { subst reopened. rewrite loadSettings_authToken.
    unfold Popup.stored. simpl. rewrite lookup_insert_eq. rewrite T. reflexivity. }
  split; [reflexivity|]. split; [exact A1|]. split.
  - unfold Popup.checkAuth_start. rewrite A1, T. eexists.
    unfold Ext.cat. simpl. rewrite !append_empty_r. reflexivity.
  - intros gone Hg.
    assert (G : Popup.authToken gone = JNull /\
                Popup.storage gone = delete "authToken" (Popup.storage reopened)).
    { destruct Hg as [-> | [-> | (status & payload & ->)]]; split; reflexivity. }
    destruct G as (G1 & G2).
    assert (L : Popup.storage gone !! "authToken" = None)
      by (rewrite G2; apply lookup_delete_eq).
    split; [exact G1|]. split; [exact L|].
    assert (A2 : Popup.authToken
                   (Popup.loadSettings
                      (Popup.initial (Popup.storage gone) s values)) = JNull).
    { rewrite loadSettings_authToken. unfold Popup.stored. simpl.
      rewrite L. reflexivity. }
    split; [exact A2|]. split.
    + unfold Popup.checkAuth_start. rewrite A2. reflexivity.
    + unfold Popup.savePlaybook. rewrite A2. reflexivity.
Qed.

Lemma popup_token_lifecycle_witness :
  let s := Popup.mkSections (Some false) (Some true) (Some true) (Some true)
                            (Some true) in
  let st := Popup.initial ∅ s ∅ in
  Popup.authToken
    (Popup.loadSettings
       (Popup.initial
          (Popup.storage
             (Popup.handleLogin_finish
                (Ext.Response true 200 (Normal (JStr "abc"))) st)) s ∅))
  = JStr "abc".
Proof.
  intros s st.
  destruct (popup_token_lifecycle "abc" st s ∅) as (_ & H & _);
    [discriminate | exact H].
Defined.

(** ** popup.js: what is shown and copied of a playbook *)

Lemma includes_app_l (a b x : string) :
  includes a x = true -> includes (a +:+ b) x = true.
Proof.
  rewrite !includes_spec. intros (u & v & ->). exists u, (v +:+ b).
  rewrite !append_assoc. reflexivity.
Qed.

Lemma includes_app_r (a b x : string) :
  includes b x = true -> includes (a +:+ b) x = true.
Proof.
  rewrite !includes_spec. intros (u & v & ->). exists (a +:+ u), v.
  rewrite !append_assoc. reflexivity.
Qed.

Lemma includes_cat (pieces : list string) (piece x : string) :
  In piece pieces -> includes piece x = true ->
  includes (Ext.cat pieces) x = true.
Proof.
  intros Hin Hx. induction pieces as [|p ps IH]; [destruct Hin|].
  change (Ext.cat (p :: ps)) with (p +:+ Ext.cat ps).
  destruct Hin as [-> | Hin].
  - apply includes_app_l. exact Hx.
  - apply includes_app_r. apply IH. exact Hin.
Qed.

Lemma includes_nonempty (s x : string) :
  includes s x = true -> x <> "" -> s <> "".
Proof.
  intros H N ->. rewrite includes_unfold in H.
  destruct x; [contradiction | discriminate H].
Qed.

Lemma list_items_includes (l : list string) (a : string) :
  In a l -> includes (Ext.list_items l) (Ext.cat ["<li>"; a; "</li>"]) = true.
Proof.
  intros Hin. unfold Ext.list_items.
  apply (includes_cat _ (Ext.cat ["<li>"; a; "</li>"])); [|apply includes_refl].
  apply (in_map (fun a => Ext.cat ["<li>"; a; "</li>"])). exact Hin.
Qed.

Lemma In_items_nonempty (l : option (list string)) (a : string) :
  In a (Ext.items_of l) -> Ext.nonempty l = true.
Proof. destruct l as [[|x l]|]; simpl; tauto. Qed.

Lemma or_else_nonempty (v : option string) (d : string) :
  d <> "" -> Ext.or_else v d <> "".
Proof.
  intros N. unfold Ext.or_else. destruct v as [s|]; [|exact N].
  destruct (String.eqb_spec s ""); assumption.
Qed.

Lemma li_not_empty (a : string) : Ext.cat ["<li>"; a; "</li>"] <> "".
Proof. discriminate. Qed.

Lemma playbook_html_item (p : Ext.Playbook) (a : string) :
  In a (Ext.items_of (Ext.immediate_actions p)) \/
  In a (Ext.items_of (Ext.recovery_steps p)) \/
  In a (Ext.items_of (Ext.teaching_tips p)) \/
  In a (Ext.items_of (Ext.success_indicators p)) ->
  includes (Popup.playbook_html p) (Ext.cat ["<li>"; a; "</li>"]) = true.
Proof.
  intros H. unfold Popup.playbook_html.
  destruct H as [H | [H | [H | H]]];
    pose proof (In_items_nonempty _ _ H) as N; rewrite N;
    pose proof (list_items_includes _ _ H) as L.
  - apply (includes_cat _ (Popup.html_actions (Ext.items_of (Ext.immediate_actions p))));
      [simpl; tauto|].
    unfold Popup.html_actions.
    apply (includes_cat _ (Ext.list_items (Ext.items_of (Ext.immediate_actions p))));
      [simpl; tauto | exact L].
  - apply (includes_cat _ (Popup.html_recovery (Ext.items_of (Ext.recovery_steps p))));
      [simpl; tauto|].
    unfold Popup.html_recovery.
    apply (includes_cat _ (Ext.list_items (Ext.items_of (Ext.recovery_steps p))));
      [simpl; tauto | exact L].
  - apply (includes_cat _ (Popup.html_tips (Ext.items_of (Ext.teaching_tips p))));
      [simpl; tauto|].
    unfold Popup.html_tips.
    apply (includes_cat _ (Ext.list_items (Ext.items_of (Ext.teaching_tips p))));
      [simpl; tauto | exact L].
  - apply (includes_cat _ (Popup.html_success (Ext.items_of (Ext.success_indicators p))));
      [simpl; tauto|].
    unfold Popup.html_success.
    apply (includes_cat _ (Ext.list_items (Ext.items_of (Ext.success_indicators p))));
      [simpl; tauto | exact L].
Qed.

(** X18: what [displayPlaybook] puts on the page.  The markup is never
    empty.  Without a playbook it is the 'No playbook available' note and
    the title is left as it was.  With one, the title is never empty (a
    missing or empty title gives the default), every immediate action,
    recovery step, teaching tip and success indicator is there as a list
    item, and a playbook with no summary and no items gives the
    'Playbook generated successfully!' note. *)
Theorem displayPlaybook_shows :
  forall (playbook : option Ext.Playbook) (st : Popup.State),
    let st' := Popup.displayPlaybook playbook st in
    Popup.playbookContent st' <> "" /\
    (playbook = None ->
     Popup.playbookContent st' = "<p>No playbook available</p>" /\
     Popup.resultTitle st' = Popup.resultTitle st) /\
    (forall p, playbook = Some p ->
       Popup.resultTitle st' <> "" /\
       (forall a,
          In a (Ext.items_of (Ext.immediate_actions p)) \/
          In a (Ext.items_of (Ext.recovery_steps p)) \/
          In a (Ext.items_of (Ext.teaching_tips p)) \/
          In a (Ext.items_of (Ext.success_indicators p)) ->
          includes (Popup.playbookContent st')
                   (Ext.cat ["<li>"; a; "</li>"]) = true) /\
       (Ext.present (Ext.summary p) = false ->
        Ext.nonempty (Ext.immediate_actions p) = false ->
        Ext.nonempty (Ext.recovery_steps p) = false ->
        Ext.nonempty (Ext.teaching_tips p) = false ->
        Ext.nonempty (Ext.success_indicators p) = false ->
        Popup.playbookContent st' = "<p>Playbook generated successfully!</p>")).
Proof.
  intros playbook st st'. subst st'.
  destruct playbook as [p|]; simpl.
  - split; [|split; [discriminate|]].
    + destruct (String.eqb_spec (Popup.playbook_html p) ""); [discriminate | assumption].
    + intros p' [= <-]. split; [apply or_else_nonempty; discriminate|]. split.
      * intros a Ha. pose proof (playbook_html_item p a Ha) as I.
        destruct (String.eqb_spec (Popup.playbook_html p) "") as [E|_]; [|exact I].
        exfalso. apply (includes_nonempty _ _ I (li_not_empty a)). exact E.
      * intros H1 H2 H3 H4 H5. unfold Popup.playbook_html.
        rewrite H1, H2, H3, H4, H5. reflexivity.
  - split; [discriminate|]. split; [tauto|]. intros p H. discriminate H.
Qed.

Lemma displayPlaybook_shows_witness :
  let p := Ext.mkPlaybook (Some "") None (Some ["Pause"; "Use <b>strips</b>"])
                          None None None in
  let st := Popup.initial ∅ (Popup.mkSections None None None None None) ∅ in
  Popup.resultTitle (Popup.displayPlaybook (Some p) st) <> "" /\
  includes (Popup.playbookContent (Popup.displayPlaybook (Some p) st))
           "<li>Use <b>strips</b></li>" = true.
Proof.
  intros p st.
  destruct (displayPlaybook_shows (Some p) st) as (_ & _ & H).
  destruct (H p eq_refl) as (H1 & H2 & _).
  split; [exact H1|].
  apply (H2 "Use <b>strips</b>"). left. simpl. tauto.
Defined.

Lemma text_lines_includes (l : list string) (i k : nat) (a : string) :
  nth_error l k = Some a ->
  includes (Popup.text_lines i l) (Popup.text_line (i + k) a) = true.
Proof.
  revert i k. induction l as [|x l IH]; intros i k H.
  - destruct k; discriminate H.
  - simpl. destruct k as [|k]; simpl in H.
    + injection H as ->. rewrite Nat.add_0_r. apply includes_app_l, includes_refl.
    + apply includes_app_r. replace (i + S k) with (S i + k) by lia.
      apply IH. exact H.
Qed.

Lemma nth_error_nonempty (l : option (list string)) (k : nat) (a : string) :
  nth_error (Ext.items_of l) k = Some a -> Ext.nonempty l = true.
Proof. destruct l as [[|x l]|]; simpl; destruct k; try discriminate; reflexivity. Qed.

Lemma cat_cons (x : string) (l : list string) :
  Ext.cat (x :: l) = x +:+ Ext.cat l.
Proof. reflexivity. Qed.

Lemma cat_app (l1 l2 : list string) :
  Ext.cat (l1 ++ l2) = Ext.cat l1 +:+ Ext.cat l2.
Proof.
  induction l1 as [|x l1 IH]; [reflexivity|].
  rewrite <- app_comm_cons, !cat_cons, IH, append_assoc. reflexivity.
Qed.

(** The lines [forEach] writes are the numbered lines, in order. *)
Lemma text_lines_from (l : list string) (i : nat) :
  Popup.text_lines i l
  = Ext.cat (imap (fun k a => Popup.text_line (i + k) a) l).
Proof.
  revert i. induction l as [|x l IH]; intros i; [reflexivity|].
  cbn [Popup.text_lines imap]. rewrite cat_cons, Nat.add_0_r, IH.
  f_equal. f_equal. apply imap_ext. intros k a _.
  unfold compose. f_equal. lia.
Qed.

Lemma text_lines_numbered (l : list string) :
  Popup.text_lines 0 l = Ext.cat (Popup.numbered l).
Proof. rewrite text_lines_from. reflexivity. Qed.

Lemma text_lines_split (l : list string) (i k : nat) (a : string) :
  nth_error l k = Some a ->
  exists y z, Popup.text_lines i l = y +:+ Popup.text_line (i + k) a +:+ z.
Proof.
  revert i k. induction l as [|x l IH]; intros i k H.
  - destruct k; discriminate H.
  - cbn [Popup.text_lines]. destruct k as [|k]; cbn [nth_error] in H.
    + injection H as ->. exists "", (Popup.text_lines (S i) l).
      rewrite Nat.add_0_r. reflexivity.
    + destruct (IH (S i) k H) as (y & z & E).
      exists (Popup.text_line i x +:+ y), z.
      rewrite E, append_assoc. replace (i + S k) with (S i + k) by lia.
      reflexivity.
Qed.

Lemma text_lines_order (l : list string) (i j k : nat) (a b : string) :
  j < k -> nth_error l j = Some a -> nth_error l k = Some b ->
  exists x y z,
    Popup.text_lines i l
    = x +:+ Popup.text_line (i + j) a +:+ y +:+ Popup.text_line (i + k) b +:+ z.
Proof.
  revert i j k. induction l as [|u l IH]; intros i j k Hjk Ha Hb.
  - destruct j; discriminate Ha.
  - destruct k as [|k]; [lia|]. cbn [nth_error] in Hb.
    cbn [Popup.text_lines]. destruct j as [|j]; cbn [nth_error] in Ha.
    + injection Ha as ->.
      destruct (text_lines_split l (S i) k b Hb) as (y & z & E).
      exists "", y, z. rewrite E, Nat.add_0_r.
      replace (i + S k) with (S i + k) by lia. reflexivity.
    + destruct (IH (S i) j k ltac:(lia) Ha Hb) as (x & y & z & E).
      exists (Popup.text_line i u +:+ x), y, z.
      rewrite E, append_assoc.
      replace (i + S j) with (S i + j) by lia.
      replace (i + S k) with (S i + k) by lia. reflexivity.
Qed.

(** Behind a line break, every line of the list starts a line. *)
Lemma text_lines_own_line (l : list string) (i k : nat) (a pre : string) :
  nth_error l k = Some a ->
  exists before after,
    (pre +:+ Ext.nl) +:+ Popup.text_lines i l
    = before +:+ Ext.nl +:+ Popup.text_line (i + k) a +:+ after.
Proof.
  revert i k pre. induction l as [|x l IH]; intros i k pre H.
  - destruct k; discriminate H.
  - cbn [Popup.text_lines]. destruct k as [|k]; cbn [nth_error] in H.
    + injection H as ->. exists pre, (Popup.text_lines (S i) l).
      rewrite Nat.add_0_r, append_assoc. reflexivity.
    + destruct (IH (S i) k
                  (pre +:+ Ext.nl +:+ Client.to_string (JNum (Z.of_nat i + 1))
                   +:+ ". " +:+ x) H) as (before & after & E).
      exists before, after.
      replace (i + S k) with (S i + k) by lia. rewrite <- E.
      unfold Popup.text_line, Ext.cat. cbn [fold_right].
      rewrite append_empty_r, !append_assoc. reflexivity.
Qed.

Ltac flatten_cat :=
  unfold Ext.cat; cbn [fold_right];
  repeat (rewrite ?append_empty_r, ?append_empty, ?append_assoc).

Lemma cat_around_third (t s h body r f : string) :
  Ext.cat [t; s; Ext.cat [Ext.cat [h; Ext.nl]; body; Ext.nl]; r; f]
  = ((t +:+ s +:+ h) +:+ Ext.nl) +:+ body +:+ (Ext.nl +:+ r +:+ f).
Proof. flatten_cat. reflexivity. Qed.

Lemma cat_around_fourth (t s a h body f : string) :
  Ext.cat [t; s; a; Ext.cat [Ext.cat [h; Ext.nl]; body; Ext.nl]; f]
  = ((t +:+ s +:+ a +:+ h) +:+ Ext.nl) +:+ body +:+ (Ext.nl +:+ f).
Proof. flatten_cat. reflexivity. Qed.

(** Where the two lists are in the text: each behind its heading, which
    ends a line. *)
Lemma format_around_actions (p : Ext.Playbook) :
  Ext.nonempty (Ext.immediate_actions p) = true ->
  exists pre post,
    Popup.formatPlaybookAsText p
    = (pre +:+ Ext.nl)
      +:+ Popup.text_lines 0 (Ext.items_of (Ext.immediate_actions p)) +:+ post.
Proof.
  intros H. unfold Popup.formatPlaybookAsText. rewrite H.
  unfold Popup.text_actions_head. rewrite cat_around_third.
  eexists _, _. reflexivity.
Qed.

Lemma format_around_recovery (p : Ext.Playbook) :
  Ext.nonempty (Ext.recovery_steps p) = true ->
  exists pre post,
    Popup.formatPlaybookAsText p
    = (pre +:+ Ext.nl)
      +:+ Popup.text_lines 0 (Ext.items_of (Ext.recovery_steps p)) +:+ post.
Proof.
  intros H. unfold Popup.formatPlaybookAsText. rewrite H.
  unfold Popup.text_recovery_head. rewrite cat_around_fourth.
  eexists _, _. reflexivity.
Qed.

(** X19: the text the popup copies.  It is, piece by piece: the title line
    (the default title when the playbook has none), the summary when there
    is one, then for the immediate actions and after them for the recovery
    steps, when there are any, the heading, the items numbered from 1 in
    their order and an empty line, and last the 'Generated by SAHAYAK AI'
    line.  So the item at position k (from 0) reads k+1, a dot, a space and
    the item; it starts a line and ends it; and of two items of a list the
    earlier one comes first in the text. *)
Theorem formatPlaybookAsText_numbers :
  forall (p : Ext.Playbook),
    Popup.formatPlaybookAsText p
    = Ext.cat
        ([Popup.text_title (Ext.or_else (Ext.title p) "Teaching Rescue Playbook")]
         ++ (if Ext.present (Ext.summary p)
             then [Popup.text_summary (Ext.text_of (Ext.summary p))] else [])
         ++ (if Ext.nonempty (Ext.immediate_actions p)
             then [Popup.text_actions_head]
                  ++ Popup.numbered (Ext.items_of (Ext.immediate_actions p))
                  ++ [Ext.nl]
             else [])
         ++ (if Ext.nonempty (Ext.recovery_steps p)
             then [Popup.text_recovery_head]
                  ++ Popup.numbered (Ext.items_of (Ext.recovery_steps p))
                  ++ [Ext.nl]
             else [])
         ++ [Popup.text_footer])%list /\
    (forall (l : list string) (k : nat),
       Popup.numbered l !! k
       = (fun a => Ext.cat [Client.to_string (JNum (Z.of_nat k + 1)); ". "; a;
                            Ext.nl]) <$> l !! k) /\
    (exists rest,
       Popup.formatPlaybookAsText p
       = Popup.text_title (Ext.or_else (Ext.title p) "Teaching Rescue Playbook")
         +:+ rest) /\
    (exists before,
       Popup.formatPlaybookAsText p = before +:+ Popup.text_footer) /\
    (forall k a,
       nth_error (Ext.items_of (Ext.immediate_actions p)) k = Some a \/
       nth_error (Ext.items_of (Ext.recovery_steps p)) k = Some a ->
       includes (Popup.formatPlaybookAsText p)
                (Ext.cat [Client.to_string (JNum (Z.of_nat k + 1)); ". "; a;
                          Ext.nl]) = true /\
       exists before after,
         Popup.formatPlaybookAsText p
         = before +:+ Ext.nl
           +:+ Ext.cat [Client.to_string (JNum (Z.of_nat k + 1)); ". "; a; Ext.nl]
           +:+ after) /\
    (forall j k a b,
       j < k ->
       (nth_error (Ext.items_of (Ext.immediate_actions p)) j = Some a /\
        nth_error (Ext.items_of (Ext.immediate_actions p)) k = Some b) \/
       (nth_error (Ext.items_of (Ext.recovery_steps p)) j = Some a /\
        nth_error (Ext.items_of (Ext.recovery_steps p)) k = Some b) ->
       exists x y z,
         Popup.formatPlaybookAsText p
         = x +:+ Ext.cat [Client.to_string (JNum (Z.of_nat j + 1)); ". "; a; Ext.nl]
           +:+ y
           +:+ Ext.cat [Client.to_string (JNum (Z.of_nat k + 1)); ". "; b; Ext.nl]
           +:+ z).
Proof.
  intros p. split; [|split; [|split; [|split; [|split]]]].
  - unfold Popup.formatPlaybookAsText.
    rewrite !text_lines_numbered.
    destruct (Ext.present (Ext.summary p)),
      (Ext.nonempty (Ext.immediate_actions p)),
      (Ext.nonempty (Ext.recovery_steps p));
      rewrite ?cat_app;
      generalize (Ext.cat (Popup.numbered (Ext.items_of (Ext.immediate_actions p))));
      generalize (Ext.cat (Popup.numbered (Ext.items_of (Ext.recovery_steps p))));
      intros R A; flatten_cat; reflexivity.
  - intros l k. unfold Popup.numbered. apply list_lookup_imap.
  - eexists. unfold Popup.formatPlaybookAsText. rewrite cat_cons. reflexivity.
  - unfold Popup.formatPlaybookAsText.
    match goal with
    | |- exists _, Ext.cat [?a; ?b; ?c; ?d; ?e] = _ =>
        exists (a +:+ b +:+ c +:+ d);
        change (Ext.cat [a; b; c; d; e]) with (a +:+ b +:+ c +:+ d +:+ e +:+ "")
    end.
    rewrite append_empty_r, !append_assoc. reflexivity.
  - intros k a H.
    change (Ext.cat [Client.to_string (JNum (Z.of_nat k + 1)); ". "; a; Ext.nl])
      with (Popup.text_line (0 + k) a).
    assert (A : exists pre post l,
               Popup.formatPlaybookAsText p
               = (pre +:+ Ext.nl) +:+ Popup.text_lines 0 l +:+ post /\
               nth_error l k = Some a).
    { destruct H as [H | H]; pose proof (nth_error_nonempty _ _ _ H) as N.
      - destruct (format_around_actions p N) as (pre & post & E). eauto 6.
      - destruct (format_around_recovery p N) as (pre & post & E). eauto 6. }
    destruct A as (pre & post & l & E & Hl). split.
    + rewrite E. apply includes_app_r, includes_app_l.
      apply text_lines_includes. exact Hl.
    + destruct (text_lines_own_line l 0 k a pre Hl) as (before & after & O).
      exists before, (after +:+ post).
      rewrite E, <- append_assoc, O, !append_assoc. reflexivity.
  - intros j k a b Hjk H.
    change (Ext.cat [Client.to_string (JNum (Z.of_nat j + 1)); ". "; a; Ext.nl])
      with (Popup.text_line (0 + j) a).
    change (Ext.cat [Client.to_string (JNum (Z.of_nat k + 1)); ". "; b; Ext.nl])
      with (Popup.text_line (0 + k) b).
    assert (A : exists pre post l,
               Popup.formatPlaybookAsText p
               = (pre +:+ Ext.nl) +:+ Popup.text_lines 0 l +:+ post /\
               nth_error l j = Some a /\ nth_error l k = Some b).
    { destruct H as [[Ha Hb] | [Ha Hb]];
        pose proof (nth_error_nonempty _ _ _ Ha) as N.
      - destruct (format_around_actions p N) as (pre & post & E). eauto 8.
      - destruct (format_around_recovery p N) as (pre & post & E). eauto 8. }
    destruct A as (pre & post & l & E & Ha & Hb).
    destruct (text_lines_order l 0 j k a b Hjk Ha Hb) as (x & y & z & O).
    exists ((pre +:+ Ext.nl) +:+ x), y, (z +:+ post).
    rewrite E, O, !append_assoc. reflexivity.
Qed.

Lemma formatPlaybookAsText_numbers_witness :
  let p := Ext.mkPlaybook None (Some "Short") (Some ["Pause"; "Regroup"])
                          (Some ["Revisit halves"]) None None in
  exists x y z,
    Popup.formatPlaybookAsText p
    = x +:+ Ext.cat ["1"; ". "; "Pause"; Ext.nl]
      +:+ y +:+ Ext.cat ["2"; ". "; "Regroup"; Ext.nl] +:+ z.
Proof.
  intros p.
  destruct (formatPlaybookAsText_numbers p) as (_ & _ & _ & _ & _ & H).
  apply (H 0 1 "Pause" "Regroup"); [lia|]. left. split; reflexivity.
Defined.

(** ** content.js and background.js: from a selection to the overlay *)

Lemma remove_first_length (l : list string) :
  length l <= 1 -> Content.remove_first l = [].
Proof. destruct l as [|x [|y l]]; simpl; intros H; [reflexivity | reflexivity | lia]. Qed.

Lemma content_handle_at_most_one (ev : Content.Event) (d : Content.Doc) :
  length (Content.overlays d) <= 1 ->
  length (Content.overlays (Content.handle ev d)) <= 1.
Proof.
  intros H. destruct ev as [m|]; simpl.
  - unfold Content.onMessage.
    destruct (String.eqb (Content.type m) "SHOW_PLAYBOOK"); [|exact H].
    unfold Content.createPlaybookOverlay. simpl.
    rewrite (remove_first_length _ H).
    destruct (Content.playbook m); simpl; lia.
  - rewrite (remove_first_length _ H). simpl. lia.
Qed.

(** X20: the overlay of the content script.  On a page with at most one
    overlay, whatever messages arrive and whatever is closed, there is
    never more than one overlay.  A SHOW_PLAYBOOK message with a playbook
    replaces the overlay by the one for that playbook; one without a
    playbook throws after removing the overlay that was open, so the page
    is left with none; a message of any other type changes nothing. *)
Theorem content_overlay_single :
  forall (d : Content.Doc),
    length (Content.overlays d) <= 1 ->
    (forall evs, length (Content.overlays (Content.run evs d)) <= 1) /\
    (forall p,
       Content.onMessage (Content.mkMessage "SHOW_PLAYBOOK" (Some p)) d
       = (Content.mkDoc [Content.overlay_html p] (Content.toasts d)
                        (Content.clipboard d),
          Normal tt)) /\
    (exists msg,
       Content.onMessage (Content.mkMessage "SHOW_PLAYBOOK" None) d
       = (Content.mkDoc [] (Content.toasts d) (Content.clipboard d),
          Throw msg)) /\
    (forall m,
       Content.type m <> "SHOW_PLAYBOOK" ->
       Content.onMessage m d = (d, Normal tt)).
Proof.
  intros d H. split; [|split; [|split]].
  - intros evs. revert d H. induction evs as [|ev evs IH]; intros d H.
    + exact H.
    + simpl. apply IH. apply content_handle_at_most_one. exact H.
  - intros p. unfold Content.onMessage, Content.createPlaybookOverlay. simpl.
    rewrite (remove_first_length _ H). reflexivity.
  - eexists. unfold Content.onMessage, Content.createPlaybookOverlay. simpl.
    rewrite (remove_first_length _ H). reflexivity.
  - intros m N. unfold Content.onMessage.
    apply String.eqb_neq in N. rewrite N. reflexivity.
Qed.

Lemma content_overlay_single_witness :
  let d := Content.mkDoc ["<p>old</p>"] [] [] in
  length
    (Content.overlays
       (Content.run
          [Content.Received (Content.mkMessage "SHOW_PLAYBOOK" None);
           Content.Received
             (Content.mkMessage "SHOW_PLAYBOOK"
                (Some (Ext.mkPlaybook None None None None None None)));
           Content.Received
             (Content.mkMessage "SHOW_PLAYBOOK"
                (Some (Ext.mkPlaybook (Some "T") None None None None None)))]
          d)) <= 1.
Proof.
  intros d.
  destruct (content_overlay_single d) as (H & _); [simpl; lia|].
  apply H.
Defined.

Lemma single_field (k v : string) :
  occurs "&" k = false -> occurs "=" k = false -> occurs "&" v = false ->
  map Client.pair_of (split_on "&" (Ext.cat [k; "="; v])) = [(k, v)].
Proof.
  intros A E B.
  assert (R : Ext.cat [k; "="; v] = k +:+ String "=" v).
  { unfold Ext.cat. simpl fold_right. rewrite append_empty_r. reflexivity. }
  rewrite R.
  rewrite split_on_absent
    by (rewrite occurs_append; simpl; rewrite A, B; reflexivity).
  simpl. unfold Client.pair_of. rewrite cut_first_found by assumption.
  reflexivity.
Qed.

(** X21: from the context menu to the page.  A click on another menu item,
    or with no selected text, sends nothing.  A click on the SAHAYAK item
    with a selection posts one request to base/api/v1/sos/quick whose query
    reads back as raw_input = the selection, whatever it holds.  When the
    answer fails (network error, status not ok, unreadable body) no message
    is sent and the page keeps its overlay; when it is ok, the page ends
    with exactly the overlay of the playbook received, or with none when
    the answer carries no playbook. *)
Theorem context_menu_to_overlay :
  forall (info : Background.Info) (storage : gmap string JsVal),
    (Background.menuItemId info <> "sahayak-sos" \/
     Ext.present (Background.selectionText info) = false ->
     Background.onClicked_start info storage = []) /\
    (Background.menuItemId info = "sahayak-sos" ->
     Ext.present (Background.selectionText info) = true ->
     exists query,
       Background.onClicked_start info storage
       = [Ext.mkRequest
            (Ext.cat [Client.to_string (Background.apiUrl_of storage);
                      "/api/v1/sos/quick?"; query])
            "POST" [] None] /\
       Popup.form_pairs query
       = [("raw_input", Ext.text_of (Background.selectionText info))]) /\
    (forall (res : Ext.FetchResult (option Ext.Playbook)) (d : Content.Doc),
       length (Content.overlays d) <= 1 ->
       let d' := Content.run
                   (map Content.Received (Background.onClicked_finish res)) d in
       (res = Ext.NetworkError \/
        (exists status payload, res = Ext.Response false status payload) \/
        (exists status msg, res = Ext.Response true status (Throw msg)) ->
        d' = d) /\
       (forall status p,
          res = Ext.Response true status (Normal (Some p)) ->
          Content.overlays d' = [Content.overlay_html p]) /\
       (forall status,
          res = Ext.Response true status (Normal None) ->
          Content.overlays d' = [])).
Proof.
  intros info storage. split; [|split].
  - unfold Background.onClicked_start. intros [N | P].
    + apply String.eqb_neq in N. rewrite N. reflexivity.
    + rewrite P, andb_false_r. reflexivity.
  - intros E P. unfold Background.onClicked_start.
    rewrite E, P. simpl.
    exists (Ext.cat ["raw_input"; "=";
                     Ext.encodeURIComponent
                       (Ext.text_of (Background.selectionText info))]).
    split.
    + unfold Ext.cat. simpl. rewrite !append_empty_r. reflexivity.
    + rewrite form_pairs_unfold.
      rewrite single_field;
        try reflexivity; try apply encodeURIComponent_no_amp.
      simpl. rewrite urldecode_encodeURIComponent. reflexivity.
  - intros res d H d'. subst d'. split; [|split].
    + intros [-> | [(status & payload & ->) | (status & msg & ->)]]; reflexivity.
    + intros status p ->. simpl.
      unfold Content.onMessage, Content.createPlaybookOverlay. simpl.
      rewrite (remove_first_length _ H). reflexivity.
    + intros status ->. simpl.
      unfold Content.onMessage, Content.createPlaybookOverlay. simpl.
      rewrite (remove_first_length _ H). reflexivity.
Qed.

Lemma context_menu_to_overlay_witness :
  exists query,
    Background.onClicked_start
      (Background.mkInfo "sahayak-sos" (Some "1/2 + 1/4 = ? & why"))
      {[ "apiUrl" := JStr "http://localhost:8000" ]}
    = [Ext.mkRequest
         (Ext.cat ["http://localhost:8000"; "/api/v1/sos/quick?"; query])
         "POST" [] None] /\
    Popup.form_pairs query = [("raw_input", "1/2 + 1/4 = ? & why")].
Proof.
  destruct (context_menu_to_overlay
              (Background.mkInfo "sahayak-sos" (Some "1/2 + 1/4 = ? & why"))
              {[ "apiUrl" := JStr "http://localhost:8000" ]}) as (_ & H & _).
  destruct (H eq_refl eq_refl) as (query & E & P).
  exists query. split; [exact E | exact P].
Defined.

(** ** CRPDashboard.jsx: bar sizes *)

Lemma trend_total_from (values : list JsVal) (a : Z) :
  fold_left (fun a b => match b with JNum n => (a + n)%Z | _ => a end) values a
  = (a + CRPDashboard.trend_total values)%Z.
Proof.
  unfold CRPDashboard.trend_total.
  revert a. induction values as [|v vs IH]; intros a; simpl; [lia|].
  rewrite IH. rewrite (IH (match v with JNum n => (0 + n)%Z | _ => 0%Z end)).
  destruct v; lia.
Qed.

(** X22: the bars of the cluster dashboard.  A problem's bar is 5% per
    occurrence and never wider than 100%: it is full from 20 occurrences
    on, and within 0..100 for every count that is not negative.  A day's
    total adds the numeric fields of the day and skips the others (the
    date); its bar is never lower than 10%, and it is higher than 100%,
    overflowing its track, exactly when the total is 13 or more.  The
    lists are cut to their first 8, 5 and 10 rows. *)
Theorem crp_bars :
  (forall count : Z,
     (CRPDashboard.problem_bar_width count <= 100)%Z /\
     (20 <= count -> CRPDashboard.problem_bar_width count = 100)%Z /\
     (count <= 20 -> CRPDashboard.problem_bar_width count = count * 5)%Z /\
     (0 <= count -> 0 <= CRPDashboard.problem_bar_width count)%Z) /\
  (forall values : list JsVal,
     CRPDashboard.trend_total values
     = fold_right Z.add 0%Z
         (map CRPDashboard.number_of
              (List.filter CRPDashboard.is_number values))) /\
  (forall total : Z,
     (10 <= CRPDashboard.trend_bar_height total)%Z /\
     (100 < CRPDashboard.trend_bar_height total <-> 13 <= total)%Z) /\
  (forall (A : Type) (n : nat) (l : list A),
     length (CRPDashboard.slice0 n l) <= n /\
     (length l <= n -> CRPDashboard.slice0 n l = l)).
Proof.
  split; [|split; [|split]].
  - intros count. unfold CRPDashboard.problem_bar_width. lia.
  - intros values. induction values as [|v vs IH]; [reflexivity|].
    unfold CRPDashboard.trend_total. simpl.
    rewrite trend_total_from, IH. destruct v; simpl; lia.
  - intros total. unfold CRPDashboard.trend_bar_height. lia.
  - intros A n l. unfold CRPDashboard.slice0. split.
    + apply firstn_le_length.
    + apply firstn_all2.
Qed.

Lemma crp_bars_witness :
  CRPDashboard.problem_bar_width 25 = 100%Z /\
  (100 < CRPDashboard.trend_bar_height 13)%Z.
Proof.
  destruct crp_bars as (H1 & _ & H3 & _).
  split.
  - apply (H1 25%Z). lia.
  - apply (H3 13%Z). lia.
Defined.
